(** * Command and report interpreter of the moderation bot
      (policyeval/commands.go)

    A shallow embedding of [HandleCommand], [validateEntity], [SendPolicy]
    and [HandleReport], together with the pieces of the Go standard library
    they call ([strings], [crypto/sha256], [encoding/base64]), and the
    properties of the policy synthesis, conflict resolution and enforcement
    logic stated over it. *)

From Stdlib Require Import ZArith Lia Ascii String List.
From stdpp Require Import base option list strings gmap.

Local Open Scope string_scope.
#[local] Set Warnings "-register-all".

(* ===================================================================== *)
(** ** Go strings: byte sequences                                         *)
(* ===================================================================== *)

(** A Go [string] is a sequence of bytes; it is modelled by Rocq's [string]
    (a sequence of [ascii], i.e. of eight-bit characters). *)

Module Strings.

Definition byteOf (c : ascii) : Z := Z.of_N (Ascii.N_of_ascii c).

Definition bytes (s : string) : list Z := map byteOf (list_ascii_of_string s).

Definition isByte (n : Z) (c : ascii) : bool := Z.eqb (byteOf c) n.

(** [strings.HasPrefix]. *)
Fixpoint HasPrefix (s prefix : string) : bool :=
  match prefix, s with
  | EmptyString, _ => true
  | String p prefix', String c s' => Ascii.eqb p c && HasPrefix s' prefix'
  | String _ _, EmptyString => false
  end.

Fixpoint drop (n : nat) (s : string) : string :=
  match n, s with
  | S n', String _ s' => drop n' s'
  | _, _ => s
  end.

(** [strings.TrimPrefix]. *)
Definition TrimPrefix (s prefix : string) : string :=
  if HasPrefix s prefix then drop (String.length prefix) s else s.

(** [strings.Join]. *)
Fixpoint Join (elems : list string) (sep : string) : string :=
  match elems with
  | [] => ""
  | [e] => e
  | e :: rest => e ++ sep ++ Join rest sep
  end.

(** Width in bytes of the white-space rune that starts [s], or [0] when
    [s] does not start with one.  White space is [unicode.IsSpace]: the
    six ASCII characters tab, line feed, vertical tab, form feed, carriage
    return and space, and the runes U+0085, U+00A0, U+1680, U+2000..U+200A,
    U+2028, U+2029, U+202F, U+205F and U+3000 in their UTF-8 encodings.
    Bytes that do not form one of these encodings are never white space
    (an invalid byte decodes to U+FFFD, of width one). *)
Definition spaceWidth (s : string) : nat :=
  match s with
  | EmptyString => 0
  | String c rest =>
      let b := byteOf c in
      if ((9 <=? b) && (b <=? 13) || (b =? 32))%Z then 1
      else match rest with
           | String c1 rest1 =>
               let b1 := byteOf c1 in
               if (b =? 0xC2)%Z then
                 if ((b1 =? 0x85) || (b1 =? 0xA0))%Z then 2 else 0
               else match rest1 with
                    | String c2 _ =>
                        let b2 := byteOf c2 in
                        if ((b =? 0xE1) && (b1 =? 0x9A) && (b2 =? 0x80))%Z then 3
                        else if ((b =? 0xE2) && (b1 =? 0x80) &&
                                 ((0x80 <=? b2) && (b2 <=? 0x8A) || (b2 =? 0xA8)
                                  || (b2 =? 0xA9) || (b2 =? 0xAF)))%Z then 3
                        else if ((b =? 0xE2) && (b1 =? 0x81) && (b2 =? 0x9F))%Z then 3
                        else if ((b =? 0xE3) && (b1 =? 0x80) && (b2 =? 0x80))%Z then 3
                        else 0
                    | EmptyString => 0
                    end
           | EmptyString => 0
           end
  end.

Definition flush (cur : list ascii) (acc : list string) : list string :=
  match cur with
  | [] => acc
  | _ => string_of_list_ascii (rev cur) :: acc
  end.

(** One left-to-right pass: [skip] counts the remaining bytes of a
    white-space rune already recognised, [cur] is the field being read
    (reversed) and [acc] the fields already closed (reversed). *)
Fixpoint fieldsFrom (s : string) (skip : nat) (cur : list ascii)
         (acc : list string) : list string :=
  match s with
  | EmptyString => rev (flush cur acc)
  | String c rest =>
      match skip with
      | S k => fieldsFrom rest k cur acc
      | O =>
          match spaceWidth s with
          | O => fieldsFrom rest 0 (c :: cur) acc
          | S k => fieldsFrom rest k [] (flush cur acc)
          end
      end
  end.

(** [strings.Fields]: the maximal runs of non-white-space bytes. *)
Definition Fields (s : string) : list string := fieldsFrom s 0 [] [].

Definition lowerByte (c : ascii) : ascii :=
  let b := byteOf c in
  if ((65 <=? b) && (b <=? 90))%Z
  then Ascii.ascii_of_N (Z.to_N (b + 32)) else c.

(** The two non-ASCII runes that [unicode.ToLower] sends to an ASCII
    letter: U+0130 (to [i]) and U+212A (to [k]).  The result is the letter
    and the number of further bytes of the rune. *)
Definition lowersToASCII (s : string) : option (ascii * nat) :=
  match s with
  | String c (String c1 rest1) =>
      if isByte 0xC4 c && isByte 0xB0 c1 then Some ("i"%char, 1)
      else match rest1 with
           | String c2 _ =>
               if isByte 0xE2 c && isByte 0x84 c1 && isByte 0xAA c2
               then Some ("k"%char, 2) else None
           | EmptyString => None
           end
  | _ => None
  end.

Fixpoint lowerFrom (s : string) (skip : nat) : string :=
  match s with
  | EmptyString => EmptyString
  | String c rest =>
      match skip with
      | S k => lowerFrom rest k
      | O =>
          match lowersToASCII s with
          | Some (l, k) => String l (lowerFrom rest k)
          | None => String (lowerByte c) (lowerFrom rest 0)
          end
      end
  end.

(** [strings.ToLower].  ASCII letters are lowered byte by byte and the
    two runes of [lowersToASCII] as Go lowers them.  Every other non-ASCII
    byte is kept as it is: Go may change such a rune to another non-ASCII
    rune, which makes no difference to the only use the handlers make of
    the result, a comparison with ASCII verbs. *)
Definition ToLower (s : string) : string := lowerFrom s 0.

End Strings.

(* ===================================================================== *)
(** ** crypto/sha256 and encoding/base64                                  *)
(* ===================================================================== *)

(** SHA-256 as in FIPS 180-4, over 32-bit words held in [Z] with the
    wrap-around written out. *)

Module sha256.

Local Open Scope Z_scope.

Definition wrap (x : Z) : Z := x mod 2 ^ 32.
Definition add (x y : Z) : Z := wrap (x + y).
Definition rotr (n x : Z) : Z :=
  Z.lor (Z.shiftr x n) (wrap (Z.shiftl x (32 - n))).
Definition shr (n x : Z) : Z := Z.shiftr x n.
Definition not32 (x : Z) : Z := Z.lxor x 0xffffffff.

Definition Ch (x y z : Z) : Z := Z.lxor (Z.land x y) (Z.land (not32 x) z).
Definition Maj (x y z : Z) : Z :=
  Z.lxor (Z.lxor (Z.land x y) (Z.land x z)) (Z.land y z).
Definition bigSigma0 (x : Z) : Z :=
  Z.lxor (Z.lxor (rotr 2 x) (rotr 13 x)) (rotr 22 x).
Definition bigSigma1 (x : Z) : Z :=
  Z.lxor (Z.lxor (rotr 6 x) (rotr 11 x)) (rotr 25 x).
Definition smallSigma0 (x : Z) : Z :=
  Z.lxor (Z.lxor (rotr 7 x) (rotr 18 x)) (shr 3 x).
Definition smallSigma1 (x : Z) : Z :=
  Z.lxor (Z.lxor (rotr 17 x) (rotr 19 x)) (shr 10 x).

(** The first [n] prime numbers among [2 .. bound]. *)
Definition isPrime (p : Z) : bool :=
  forallb (fun d => negb (p mod Z.of_nat d =? 0)) (seq 2 (Z.to_nat p - 2)).

Definition primes (n bound : nat) : list Z :=
  firstn n (List.filter isPrime (map Z.of_nat (seq 2 bound))).

(** The integer cube root, bit by bit from bit [bits - 1] down. *)
Fixpoint cubeRootFrom (bits : nat) (x r : Z) : Z :=
  match bits with
  | O => r
  | S b =>
      let r' := r + 2 ^ Z.of_nat b in
      cubeRootFrom b x (if r' * r' * r' <=? x then r' else r)
  end.

(** The round constants: the first thirty-two bits of the fractional parts
    of the cube roots of the first sixty-four primes. *)
Definition K : list Z :=
  map (fun p => wrap (cubeRootFrom 40 (p * 2 ^ 96) 0)) (primes 64 312).

(** The initial hash value: the first thirty-two bits of the fractional
    parts of the square roots of the first eight primes. *)
Definition H0 : list Z :=
  map (fun p => wrap (Z.sqrt (p * 2 ^ 64))) (primes 8 20).

(** Big-endian bytes of [x], [n] of them. *)
Fixpoint bigEndian (n : nat) (x : Z) : list Z :=
  match n with
  | O => []
  | S n' => (Z.shiftr x (8 * Z.of_nat n')) mod 256 :: bigEndian n' x
  end.

(** The message followed by the byte 0x80, zero bytes up to 56 modulo 64,
    and the length in bits on eight bytes. *)
Definition pad (msg : list Z) : list Z :=
  let len := Z.of_nat (length msg) in
  let zeros := Z.to_nat ((55 - len) mod 64) in
  msg ++ 0x80 :: repeat 0 zeros ++ bigEndian 8 (8 * len).

Fixpoint words (n : nat) (bs : list Z) : list Z :=
  match n, bs with
  | S n', a :: b :: c :: d :: rest =>
      (Z.shiftl a 24 + Z.shiftl b 16 + Z.shiftl c 8 + d) :: words n' rest
  | _, _ => []
  end.

(** The message schedule, most recent word first: [sched] holds
    [W(t-1), W(t-2), ...], and [W(t)] is computed from the words at
    distance 2, 7, 15 and 16. *)
Fixpoint extend (n : nat) (sched : list Z) : list Z :=
  match n with
  | O => sched
  | S n' =>
      let w i := nth i sched 0 in
      extend n'
        (add (add (smallSigma1 (w 1%nat)) (w 6%nat))
             (add (smallSigma0 (w 14%nat)) (w 15%nat)) :: sched)
  end.

Definition schedule (block : list Z) : list Z :=
  rev (extend 48 (rev (words 16 block))).

Definition round (h : list Z) (kw : Z * Z) : list Z :=
  match h with
  | [a; b; c; d; e; f; g; hh] =>
      let t1 := add (add (add (add hh (bigSigma1 e)) (Ch e f g)) (fst kw)) (snd kw) in
      let t2 := add (bigSigma0 a) (Maj a b c) in
      [add t1 t2; a; b; c; add d t1; e; f; g]
  | _ => h
  end.

Definition compress (h : list Z) (block : list Z) : list Z :=
  let h' := fold_left round (combine K (schedule block)) h in
  map (fun p => add (fst p) (snd p)) (combine h h').

Fixpoint blocks (n : nat) (h : list Z) (bs : list Z) : list Z :=
  match n with
  | O => h
  | S n' => blocks n' (compress h (firstn 64 bs)) (skipn 64 bs)
  end.

(** [sha256.Sum256]: the 32 bytes of the digest. *)
Definition Sum256 (msg : list Z) : list Z :=
  let p := pad msg in
  flat_map (bigEndian 4) (blocks (length p / 64) H0 p).

End sha256.

Module base64.

Definition encodeStd : string :=
  "ABCDEFGHIJKLMNOPQRSTUVWXYZabcdefghijklmnopqrstuvwxyz0123456789+/".

Definition digit (n : Z) : ascii :=
  match String.get (Z.to_nat n) encodeStd with
  | Some c => c
  | None => "="%char
  end.

(** [base64.StdEncoding.EncodeToString]: three bytes give four digits;
    a last group of one or two bytes is padded with [=]. *)
Fixpoint EncodeToString (src : list Z) : string :=
  match src with
  | [] => ""
  | [a] =>
      String (digit (Z.shiftr a 2))
        (String (digit (Z.shiftl (Z.land a 3) 4)) "==")
  | [a; b] =>
      String (digit (Z.shiftr a 2))
        (String (digit (Z.lor (Z.shiftl (Z.land a 3) 4) (Z.shiftr b 4)))
           (String (digit (Z.shiftl (Z.land b 15) 2)) "="))
  | a :: b :: c :: rest =>
      String (digit (Z.shiftr a 2))
        (String (digit (Z.lor (Z.shiftl (Z.land a 3) 4) (Z.shiftr b 4)))
           (String (digit (Z.lor (Z.shiftl (Z.land b 15) 2) (Z.shiftr c 6)))
              (String (digit (Z.land c 63)) (EncodeToString rest))))
  end.

End base64.

(* ===================================================================== *)
(** ** Data model                                                          *)
(* ===================================================================== *)

(** Room, user and event identifiers ([id.RoomID], [id.UserID],
    [id.EventID]) are Go strings, and are [string] here. *)

(** A Go [error] value, by its message. *)
Abbreviation Error := string (only parsing).

Module policylist.

(** [policylist.EntityType]; the invalid (empty) type that
    [validateEntity] returns together with [false] is the [None] of
    [option EntityType]. *)
Inductive EntityType := EntityTypeUser | EntityTypeRoom | EntityTypeServer.

#[global] Instance EntityType_eq_dec : EqDecision EntityType.
Proof. solve_decision. Defined.

(** [policylist.Policy]: a policy event of a list room, as the store
    hands it out. *)
Record Policy := {
  RoomID : string;
  StateKey : string;
  Sender : string;
  Timestamp : Z;
  Entity : string;
  Reason : string;
  Recommendation : string;
  UnstableHashes : option string
}.

(** [policylist.Match], the ordered result of a query.  A [nil] slice and
    an empty one are both the empty list. *)
Definition Match := list Policy.

End policylist.

Module event.

(** [event.ModPolicyContent]; [UnstableHashes] is the base64 SHA-256
    field of [event.PolicyHashes] when present. *)
Record ModPolicyContent := {
  Entity : string;
  Reason : string;
  Recommendation : string;
  UnstableHashes : option string
}.

(** [&event.ModPolicyContent{}], the content that removes a policy. *)
Definition empty : ModPolicyContent :=
  {| Entity := ""; Reason := ""; Recommendation := ""; UnstableHashes := None |}.

(** The command event: [evt.Mautrix.WasEncrypted],
    [evt.Mautrix.TrustState], [evt.Content.AsMessage().Body], [evt.ID]. *)
Record Event := {
  WasEncrypted : bool;
  TrustState : Z;
  Body : string;
  ID : string
}.

End event.

Import policylist.

(** What the file takes from packages whose source is not at hand: the
    recommendation tags of mautrix's [event] package, the trust level
    [id.TrustStateCrossSignedTOFU], the summary
    [Match.Recommendations().BanOrUnban] of the policy list package and
    [util.DecodeBase64Hash].  The handlers are parametric in all of them. *)
Record Imports := {
  PolicyRecommendationBan : string;
  PolicyRecommendationUnban : string;
  PolicyRecommendationUnstableTakedown : string;
  TrustStateCrossSignedTOFU : Z;
  BanOrUnban : Match -> option Policy;
  DecodeBase64Hash : string -> option (list Z)
}.

(** A watched list, as [FindListByShortcode] and [GetWatchedListMeta]
    return it ([list.RoomID], [list.Name]). *)
Record WatchedListMeta := {
  ListRoomID : string;
  Name : string
}.

(** [*PolicyEvaluator]: its configuration, its read-only lookups and the
    answers of the network calls it makes through [pe.Bot].  A call that
    returns a Go [error] is modelled by a function to [option Error]
    ([None] for [nil]) or to a sum; within one run the answer of a call
    depends on its arguments only. *)
Record PolicyEvaluator := {
  CryptoHelper : bool;                 (* pe.Bot.CryptoHelper != nil *)
  DryRun : bool;
  Admins : gset string;
  FindListByShortcode : string -> option WatchedListMeta;
  GetWatchedLists : list string;
  GetWatchedListMeta : string -> option WatchedListMeta;
  MatchExact : list string -> EntityType -> string -> Match;
  MatchUser : list string -> string -> Match;
  MatchRoom : list string -> string -> Match;
  MatchServer : list string -> string -> Match;
  findMatchingUsers : string -> list string;
  getRoomsUserIsIn : string -> list string;
  protectedRooms : string -> option string;   (* meta.Name, when meta != nil *)
  getUserIDFromHash : list Z -> option string;
  JoinRoom : string -> option Error;
  LeaveRoom : string -> option Error;
  ResolveAlias : string -> Error + string;
  KickUser : string -> string -> string -> option Error;
  SendStateEvent :
    string -> EntityType -> string -> event.ModPolicyContent -> Error + string
}.

(** [*mautrix.Client] of the reporter: [senderClient.UserID] and the answer
    of [senderClient.GetEvent], the sender of the fetched event. *)
Record Client := {
  ClientUserID : string;
  GetEvent : string -> string -> Error + string
}.

(* ===================================================================== *)
(** ** Effects                                                             *)
(* ===================================================================== *)

(** An argument of a format string.  Formatting itself ([fmt.Sprintf]) is
    not modelled: a notice is its format and its arguments. *)
Inductive Arg :=
| AStr (s : string)
| AInt (n : Z)
| AErr (e : Error)
| AURL (ident : string)                     (* x.URI().MatrixToURL() *)
| AEventURL (room event : string)           (* roomID.EventURI(eventID).MatrixToURL() *)
| ADuration                                 (* a measured time.Duration *)
| ATime (millis : Z)                        (* time.UnixMilli *)
| ASummary (rec : option Policy)            (* match.Recommendations() *)
| ASprintf (format : string) (args : list Arg)
| AJoin (elems : list Arg) (sep : string).  (* strings.Join *)

(** What a handler does to the outside world, in order.  The entity type
    of [CallSendStateEvent] stands for the event type that the source passes,
    [entityType.EventType()]. *)
Inductive Effect :=
| Log (level message : string)
| Notice (format : string) (args : list Arg)
| SuccessReaction (evtID : string)
| CallJoinRoom (room : string)
| CallLeaveRoom (room : string)
| CallResolveAlias (alias : string)
| CallRedactUser (user reason : string)
| CallKickUser (room user reason : string)
| CallSendStateEvent (room : string) (entityType : EntityType)
    (stateKey : string) (content : event.ModPolicyContent)
| CallGetEvent (room event : string).

(** How a handler ends: it returns, or the Go runtime panics (an index out
    of range). *)
Inductive Outcome (A : Type) :=
| Returned (a : A)
| Panicked.
Arguments Returned {A} a.
Arguments Panicked {A}.

(** A computation: the effects so far and the way it ended. *)
Definition M (A : Type) : Type := list Effect * Outcome A.

#[global] Instance M_ret : MRet M := fun A a => ([], Returned a).

#[global] Instance M_bind : MBind M := fun A B f m =>
  match m with
  | (t, Returned a) => let '(t', r) := f a in ((t ++ t')%list, r)
  | (t, Panicked) => (t, Panicked)
  end.

Definition emit (e : Effect) : M unit := ([e], Returned tt).

Definition panic {A : Type} : M A := ([], Panicked).

(** [xs[i]], which panics when [i] is out of range. *)
Definition index (xs : list string) (i : nat) : M string :=
  match xs !! i with
  | Some x => mret x
  | None => panic
  end.

(** [for _, x := range xs { body }]. *)
Fixpoint forEach {A : Type} (xs : list A) (body : A -> M unit) : M unit :=
  match xs with
  | [] => mret tt
  | x :: rest => body x ;; forEach rest body
  end.

(** A loop that carries a value from one iteration to the next. *)
Fixpoint foldEach {A S : Type} (xs : list A) (s : S) (body : S -> A -> M S) : M S :=
  match xs with
  | [] => mret s
  | x :: rest => s' ← body s x; foldEach rest s' body
  end.

Definition trace {A : Type} (m : M A) : list Effect := fst m.
Definition outcome {A : Type} (m : M A) : Outcome A := snd m.

(* ===================================================================== *)
(** ** validateEntity                                                      *)
(* ===================================================================== *)

Definition isAlnum (c : ascii) : bool :=
  let b := Strings.byteOf c in
  ((97 <=? b) && (b <=? 122) || (65 <=? b) && (b <=? 90)
   || (48 <=? b) && (b <=? 57))%Z.

(** The class [[a-zA-Z0-9*?-]]. *)
Definition isLabelChar (c : ascii) : bool :=
  isAlnum c || Ascii.eqb c "*" || Ascii.eqb c "?" || Ascii.eqb c "-".

(** The class [[a-zA-Z0-9.*?-]]. *)
Definition isHostChar (c : ascii) : bool :=
  isLabelChar c || Ascii.eqb c ".".

Fixpoint span (p : ascii -> bool) (cs : list ascii) : list ascii * list ascii :=
  match cs with
  | c :: rest =>
      if p c then let '(yes, no) := span p rest in (c :: yes, no)
      else ([], cs)
  | [] => ([], [])
  end.

(** [homeserverPatternRegex.MatchString], for the pattern
    [^[a-zA-Z0-9.*?-]+\.[a-zA-Z0-9*?-]+$].  The second class has no dot, so
    the dot of the pattern is the last dot of the string: read from the end,
    a non-empty run of the second class, then a dot, then a non-empty rest
    all in the first class. *)
Definition homeserverPatternRegex (s : string) : bool :=
  let '(label, before) := span isLabelChar (rev (list_ascii_of_string s)) in
  match label, before with
  | _ :: _, dot :: (_ :: _) as host =>
      Ascii.eqb dot "." && forallb isHostChar host
  | _, _ => false
  end.

Definition validateEntity (entity : string) : option EntityType :=
  match entity with
  | EmptyString => None
  | String c _ =>
      if Ascii.eqb c "@" then Some EntityTypeUser
      else if Ascii.eqb c "!" then Some EntityTypeRoom
      else if homeserverPatternRegex entity then Some EntityTypeServer
      else None
  end.

(* ===================================================================== *)
(** ** The handlers                                                        *)
(* ===================================================================== *)

(** Modelled from the spec: [util.SHA256String] is not in the sources at
    hand; for the hashed-ban variant the spec has "compute a digest of the
    plaintext entity", which with the SHA-256 field it fills is the SHA-256
    digest of the bytes of the string. *)
Definition SHA256String (s : string) : list Z := sha256.Sum256 (Strings.bytes s).

(** Modelled from the spec: [Policy.EntityOrHash] is not in the sources at
    hand; the spec has "holds either the plaintext entity or, for hashed
    bans, a base64 digest with the plaintext cleared". *)
Definition EntityOrHash (p : Policy) : string :=
  if String.eqb (Entity p) "" then default "" (UnstableHashes p) else Entity p.

(** What [HandleReport] returns besides [nil]. *)
Inductive ReportError :=
| Errorf (format : string) (err : Error)
| MInvalidParam (message : string)
| MNotFound (format : string) (args : list Arg)
| RespError (ErrCode : string) (format : string) (args : list Arg)
    (StatusCode : Z).

(** [http.StatusConflict]. *)
Definition StatusConflict : Z := 409.

Section Handlers.

Variable im : Imports.
Variable pe : PolicyEvaluator.

Definition sendNotice (format : string) (args : list Arg) : M unit :=
  emit (Notice format args).

Definition sendSuccessReaction (evtID : string) : M unit :=
  emit (SuccessReaction evtID).

(** [SendPolicy]: an empty [stateKey] is replaced by the base64 SHA-256
    digest of the raw entity followed by the recommendation. *)
Definition SendPolicy (policyList : string) (entityType : EntityType)
           (stateKey rawEntity : string) (content : event.ModPolicyContent)
  : M (Error + string) :=
  let stateKey :=
    if String.eqb stateKey "" then
      let stateKeyHash :=
        sha256.Sum256 (Strings.bytes rawEntity
                       ++ Strings.bytes (event.Recommendation content))%list in
      base64.EncodeToString stateKeyHash
    else stateKey in
  emit (CallSendStateEvent policyList entityType stateKey content) ;;
  mret (SendStateEvent pe policyList entityType stateKey content).

(** [case "!join"]. *)
Definition cmdJoin (evtID : string) (args : list string) : M unit :=
  if (length args =? 0)%nat then sendNotice "Usage: `!join <room ID>...`" []
  else
    forEach args (fun arg =>
      emit (CallJoinRoom arg) ;;
      match JoinRoom pe arg with
      | Some err => sendNotice "Failed to join room %q: %v" [AStr arg; AErr err]
      | None => sendNotice "Joined room %q" [AStr arg]
      end) ;;
    sendSuccessReaction evtID.

(** [case "!leave"]: every iteration leaves the one room that the first
    argument names. *)
Definition cmdLeave (args : list string) : M unit :=
  if (length args =? 0)%nat then sendNotice "Usage: `!leave <room ID>...`" []
  else
    arg0 ← index args 0;
    let leaveAll (target : string) :=
      forEach args (fun arg =>
        emit (CallLeaveRoom target) ;;
        match LeaveRoom pe target with
        | Some err => sendNotice "Failed to leave room %q: %v" [AStr arg; AErr err]
        | None => sendNotice "Left room %q" [AStr arg]
        end) in
    if Strings.HasPrefix arg0 "#" then
      emit (CallResolveAlias arg0) ;;
      match ResolveAlias pe arg0 with
      | inl err => sendNotice "Failed to resolve alias %q: %v" [AStr arg0; AErr err]
      | inr roomID => leaveAll roomID
      end
    else leaveAll arg0.

(** [case "!redact"]. *)
Definition cmdRedact (evtID : string) (args : list string) : M unit :=
  if (length args <? 1)%nat then sendNotice "Usage: `!redact <user ID> [reason]`" []
  else
    arg0 ← index args 0;
    emit (CallRedactUser arg0 (Strings.Join (drop 1 args) " ")) ;;
    sendSuccessReaction evtID.

(** The body of the loop over the rooms of one user: the link of the room
    is recorded, the kick is sent unless [DryRun] is set, and the room is
    counted unless the kick failed. *)
Definition kickFromRoom (userID reason : string) (st : Z * list Arg)
           (room : string) : M (Z * list Arg) :=
  let '(successCount, roomStrings) := st in
  let roomStrings :=
    (roomStrings ++ [ASprintf "[%s](%s)" [AStr room; AURL room]])%list in
  err ← (if negb (DryRun pe)
         then emit (CallKickUser room userID reason) ;;
              mret (KickUser pe room userID reason)
         else mret None);
  match err with
  | Some e =>
      sendNotice "Failed to kick `%s` from `%s`: %v" [AStr userID; AStr room; AErr e] ;;
      mret (successCount, roomStrings)
  | None => mret ((successCount + 1)%Z, roomStrings)
  end.

(** The body of the loop over the matching users. *)
Definition kickUser (reason userID : string) : M unit :=
  let rooms := getRoomsUserIsIn pe userID in
  if (length rooms =? 0)%nat then mret tt
  else
    st ← foldEach rooms (0%Z, []) (kickFromRoom userID reason);
    sendNotice "Kicked `%s` from %d rooms: %s"
      [AStr userID; AInt (fst st); AJoin (snd st) ", "].

(** [case "!kick"]. *)
Definition cmdKick (evtID : string) (args : list string) : M unit :=
  if (length args <? 1)%nat then sendNotice "Usage: `!kick <user ID> [reason]`" []
  else
    arg0 ← index args 0;
    let ignoreUserLimit := String.eqb arg0 "--force" in
    let args := if ignoreUserLimit then drop 1 args else args in
    pattern ← index args 0;
    let reason := Strings.Join (drop 1 args) " " in
    let users := findMatchingUsers pe pattern in
    if (10 <? length users)%nat && negb ignoreUserLimit then
      sendNotice "%d users matching `%s` found, use `--force` to kick all of them."
        [AInt (Z.of_nat (length users)); AStr pattern]
    else
      forEach users (kickUser reason) ;;
      if (length users =? 0)%nat then
        sendNotice "No users matching `%s` found in any rooms" [AStr pattern]
      else sendSuccessReaction evtID.

(** The scan of the match for a policy of the target list on the same
    entity: the state key of the last one, or the empty string. *)
Definition existingStateKeyIn (listRoom target : string) (match_ : Match) : string :=
  fold_left (fun existingStateKey policy =>
               if String.eqb (RoomID policy) listRoom
                  && String.eqb (Entity policy) target
               then StateKey policy else existingStateKey)
            match_ "".

(** The content that [!ban] and [!takedown] publish: the entity gives
    way to its digest under [--hash], and a takedown carries no reason. *)
Definition banContent (cmd target reason : string) (hash : bool)
  : event.ModPolicyContent :=
  let policy :=
    {| event.Entity := target;
       event.Reason := reason;
       event.Recommendation := PolicyRecommendationBan im;
       event.UnstableHashes := None |} in
  let policy :=
    if hash then
      let targetHash := SHA256String target in
      {| event.Entity := "";
         event.Reason := event.Reason policy;
         event.Recommendation := event.Recommendation policy;
         event.UnstableHashes := Some (base64.EncodeToString targetHash) |}
    else policy in
  if String.eqb cmd "!takedown" || String.eqb cmd "!takedown-user" then
    {| event.Entity := event.Entity policy;
       event.Reason := "";
       event.Recommendation := PolicyRecommendationUnstableTakedown im;
       event.UnstableHashes := event.UnstableHashes policy |}
  else policy.

(** [case "!ban", "!takedown"]. *)
Definition cmdBan (evtID cmd : string) (args : list string) : M unit :=
  if (length args <? 2)%nat then
    sendNotice "Usage: `%s [--hash] <list shortcode> <entity> [reason]`" [AStr cmd]
  else
    arg0 ← index args 0;
    let hash := String.eqb arg0 "--hash" in
    let args := if hash then drop 1 args else args in
    shortcode ← index args 0;
    match FindListByShortcode pe shortcode with
    | None => sendNotice "List %q not found" [AStr shortcode]
    | Some list =>
        target ← index args 1;
        match validateEntity target with
        | None => sendNotice "Invalid entity `%s`" [AStr target]
        | Some entityType =>
            let match_ := MatchExact pe (GetWatchedLists pe) entityType target in
            let send : M unit :=
              let existingStateKey :=
                existingStateKeyIn (ListRoomID list) target match_ in
              let policy :=
                banContent cmd target (Strings.Join (drop 2 args) " ") hash in
              resp ← SendPolicy (ListRoomID list) entityType existingStateKey
                       target policy;
              match resp with
              | inl err => sendNotice "Failed to send ban policy: %v" [AErr err]
              | inr _ =>
                  emit (Log "info" "Sent ban policy from command") ;;
                  sendSuccessReaction evtID
              end in
            match BanOrUnban im match_ with
            | Some rec =>
                if String.eqb (Recommendation rec) (PolicyRecommendationUnban im)
                then sendNotice "`%s` has an unban recommendation: %s"
                       [AStr target; AStr (Reason rec)]
                else send
            | None => send
            end
        end
    end.

(** [case "!remove-ban", "!remove-unban", "!remove-policy"]. *)
Definition cmdRemove (evtID cmd : string) (args : list string) : M unit :=
  if (length args <? 2)%nat then
    sendNotice "Usage: `!remove-policy <list> <entity>`" []
  else
    shortcode ← index args 0;
    match FindListByShortcode pe shortcode with
    | None => sendNotice "List %q not found" [AStr shortcode]
    | Some list =>
        target ← index args 1;
        match validateEntity target with
        | None => sendNotice "Invalid entity `%s`" [AStr target]
        | Some entityType =>
            let match_ := MatchExact pe [ListRoomID list] entityType target in
            if (length match_ =? 0)%nat then
              sendNotice "No rule banning `%s` found in [%s](%s)"
                [AStr target; AStr (Name list); AURL (ListRoomID list)]
            else
              let send (existingStateKey : string) : M unit :=
                let policy := event.empty in
                resp ← SendPolicy (ListRoomID list) entityType existingStateKey
                         target policy;
                match resp with
                | inl err => sendNotice "Failed to remove policy: %v" [AErr err]
                | inr _ =>
                    emit (Log "info" "Removed policy from command") ;;
                    sendSuccessReaction evtID
                end in
              match BanOrUnban im match_ with
              | Some rec =>
                  if String.eqb cmd "!remove-unban"
                     && negb (String.eqb (Recommendation rec)
                                (PolicyRecommendationUnban im))
                  then sendNotice "`%s` does not have an unban recommendation"
                         [AStr target]
                  else if String.eqb cmd "!remove-ban"
                          && negb (String.eqb (Recommendation rec)
                                     (PolicyRecommendationBan im))
                  then sendNotice "`%s` does not have a ban recommendation"
                         [AStr target]
                  else send (StateKey rec)
              | None => send ""
              end
        end
    end.

(** [case "!add-unban"]. *)
Definition cmdAddUnban (evtID : string) (args : list string) : M unit :=
  if (length args <? 2)%nat then
    sendNotice "Usage: `!add-unban <list shortcode> <entity> <reason>`" []
  else
    shortcode ← index args 0;
    match FindListByShortcode pe shortcode with
    | None => sendNotice "List %q not found" [AStr shortcode]
    | Some list =>
        target ← index args 1;
        let '(entityType, match_) :=
          if negb (Strings.HasPrefix target "@")
          then (EntityTypeServer, MatchServer pe (GetWatchedLists pe) target)
          else (EntityTypeUser, MatchUser pe (GetWatchedLists pe) target) in
        let send (existingStateKey : string) : M unit :=
          let policy :=
            {| event.Entity := target;
               event.Reason := Strings.Join (drop 2 args) " ";
               event.Recommendation := PolicyRecommendationUnban im;
               event.UnstableHashes := None |} in
          resp ← SendPolicy (ListRoomID list) entityType existingStateKey
                   target policy;
          match resp with
          | inl err => sendNotice "Failed to send unban policy: %v" [AErr err]
          | inr _ =>
              emit (Log "info" "Sent unban policy from command") ;;
              sendSuccessReaction evtID
          end in
        match BanOrUnban im match_ with
        | Some rec =>
            if String.eqb (Recommendation rec) (PolicyRecommendationUnban im)
            then sendNotice "`%s` already has an unban recommendation: %s"
                   [AStr target; AStr (Reason rec)]
            else if String.eqb (RoomID rec) (ListRoomID list)
            then send (StateKey rec)
            else send ""
        | None => send ""
        end
    end.

(** The line of one policy in the answer of [!match]. *)
Definition eventString (policy : Policy) : Arg :=
  let policyRoomName :=
    match GetWatchedListMeta pe (RoomID policy) with
    | Some meta => Name meta
    | None => RoomID policy
    end in
  ASprintf "* [%s] [%s](%s) set recommendation `%s` for `%s` at %s for %s"
    [AStr policyRoomName; AStr (Sender policy); AURL (Sender policy);
     AStr (Recommendation policy); AStr (EntityOrHash policy);
     ATime (Timestamp policy); AStr (Reason policy)].

Definition formattedRoom (roomID : string) : Arg :=
  let name :=
    match protectedRooms pe roomID with
    | Some n => if String.eqb n "" then roomID else n
    | None => roomID
    end in
  ASprintf "* [%s](%s)" [AStr name; AURL roomID].

(** [case "!match"]. *)
Definition cmdMatch (args : list string) : M unit :=
  target ← index args 0;
  let lookup (targetUser target : string) : M unit :=
    let report (match_ : Match) : M unit :=
      match match_ with
      | _ :: _ =>
          sendNotice "Matched in %s with recommendations %+v\n\n%s"
            [ADuration; ASummary (BanOrUnban im match_);
             AJoin (map eventString match_) "\n"]
      | [] => sendNotice "No match in %s" [ADuration]
      end in
    match validateEntity target with
    | Some EntityTypeUser =>
        let match_ := MatchUser pe [] targetUser in
        let rooms := getRoomsUserIsIn pe targetUser in
        (if (0 <? length rooms)%nat then
           sendNotice "User is in %d protected rooms:\n\n%s"
             [AInt (Z.of_nat (length rooms)); AJoin (map formattedRoom rooms) "\n"]
         else mret tt) ;;
        report match_
    | Some EntityTypeRoom => report (MatchRoom pe [] target)
    | Some EntityTypeServer => report (MatchServer pe [] target)
    | None => sendNotice "Invalid entity `%s`" [AStr target]
    end in
  match DecodeBase64Hash im target with
  | Some userIDHash =>
      match getUserIDFromHash pe userIDHash with
      | None => sendNotice "No user found for hash `%s`" [AStr target]
      | Some targetUser =>
          sendNotice "Matched user `%s` for hash `%s`" [AStr targetUser; AStr targetUser] ;;
          lookup targetUser targetUser
      end
  | None => lookup target target
  end.

(** The [switch cmd] of [HandleCommand]; a verb that is none of the cases
    does nothing.  Format strings are spelled as in the source. *)
Definition switchCmd (evtID cmd : string) (args : list string) : M unit :=
  if String.eqb cmd "!join" then cmdJoin evtID args
  else if String.eqb cmd "!leave" then cmdLeave args
  else if String.eqb cmd "!redact" then cmdRedact evtID args
  else if String.eqb cmd "!kick" then cmdKick evtID args
  else if String.eqb cmd "!ban" || String.eqb cmd "!takedown"
  then cmdBan evtID cmd args
  else if String.eqb cmd "!remove-ban" || String.eqb cmd "!remove-unban"
          || String.eqb cmd "!remove-policy"
  then cmdRemove evtID cmd args
  else if String.eqb cmd "!add-unban" then cmdAddUnban evtID args
  else if String.eqb cmd "!match" then cmdMatch args
  else mret tt.

(** [HandleCommand]: the trust gate, then the verb and its arguments. *)
Definition HandleCommand (evt : event.Event) : M unit :=
  if negb (event.WasEncrypted evt) && CryptoHelper pe then
    emit (Log "warn" "Dropping unencrypted command event")
  else if event.WasEncrypted evt
          && (event.TrustState evt <? TrustStateCrossSignedTOFU im)%Z then
    emit (Log "warn" "Dropping encrypted event with insufficient trust state")
  else
    let fields := Strings.Fields (event.Body evt) in
    field0 ← index fields 0;
    let cmd := Strings.ToLower field0 in
    let args := drop 1 fields in
    emit (Log "info" "Handling command") ;;
    switchCmd (event.ID evt) cmd args.

(** The notice that forwards a report which is not acted upon. *)
Definition forwardReport (sender targetUserID roomID eventID reason : string)
  : M unit :=
  if negb (String.eqb eventID "") then
    sendNotice "[%s](%s) reported [an event](%s) from [%s](%s) for %s"
      [AStr sender; AURL sender; AEventURL roomID eventID;
       AStr targetUserID; AURL targetUserID; AStr reason]
  else if negb (String.eqb roomID "") then
    sendNotice "[%s](%s) reported [a room](%s) for %s"
      [AStr sender; AURL sender; AURL roomID; AStr reason]
  else if negb (String.eqb targetUserID "") then
    sendNotice "[%s](%s) reported [%s](%s) for %s"
      [AStr sender; AURL sender; AURL targetUserID; AStr reason]
  else mret tt.

(** [case "ban"] of the report. *)
Definition reportBan (sender targetUserID : string) (args : list string)
  : M (option ReportError) :=
  if (length args <? 2)%nat then
    mret (Some (MInvalidParam "Not enough arguments for ban"))
  else
    let match_ := MatchUser pe (GetWatchedLists pe) targetUserID in
    match BanOrUnban im match_ with
    | Some rec =>
        if String.eqb (Recommendation rec) (PolicyRecommendationUnban im) then
          mret (Some (RespError "FI.MAU.MEOWLNIR.UNBAN_RECOMMENDED"
                        "%s has an unban recommendation: %s"
                        [AStr targetUserID; AStr (Reason rec)] StatusConflict))
        else
          mret (Some (RespError "FI.MAU.MEOWLNIR.ALREADY_BANNED"
                        "%s is already banned for: %s"
                        [AStr targetUserID; AStr (Reason rec)] StatusConflict))
    | None =>
        shortcode ← index args 0;
        match FindListByShortcode pe shortcode with
        | None =>
            sendNotice "Failed to handle [%s](%s)'s report of [%s](%s): list %q not found"
              [AStr sender; AURL sender; AStr targetUserID; AURL targetUserID;
               AStr shortcode] ;;
            mret (Some (MNotFound "List with shortcode %q not found" [AStr shortcode]))
        | Some list =>
            let policy :=
              {| event.Entity := targetUserID;
                 event.Reason := Strings.Join (drop 1 args) " ";
                 event.Recommendation := PolicyRecommendationBan im;
                 event.UnstableHashes := None |} in
            resp ← SendPolicy (ListRoomID list) EntityTypeUser "" targetUserID policy;
            match resp with
            | inl err =>
                sendNotice "Failed to handle [%s](%s)'s report of [%s](%s) for %s ([%s](%s)): %v"
                  [AStr sender; AURL sender; AStr targetUserID; AURL targetUserID;
                   AStr (Name list); AStr (ListRoomID list); AURL (ListRoomID list);
                   AErr err] ;;
                mret (Some (Errorf "failed to send policy: %w" err))
            | inr _ =>
                emit (Log "info" "Sent ban policy from report") ;;
                sendNotice "Processed [%s](%s)'s report of [%s](%s) and sent a ban policy to %s ([%s](%s)) for %s"
                  [AStr sender; AURL sender; AStr targetUserID; AURL targetUserID;
                   AStr (Name list); AStr (ListRoomID list); AURL (ListRoomID list);
                   AStr (event.Reason policy)] ;;
                mret None
            end
        end
    end.

(** The report once the target user is known: the gate, then the nested
    command. *)
Definition handleResolved (sender targetUserID roomID eventID reason : string)
  : M (option ReportError) :=
  if negb (bool_decide (sender ∈ Admins pe))
     || negb (Strings.HasPrefix reason "/")
     || String.eqb targetUserID "" then
    forwardReport sender targetUserID roomID eventID reason ;;
    mret None
  else
    let fields := Strings.Fields reason in
    field0 ← index fields 0;
    let cmd := Strings.TrimPrefix field0 "/" in
    let args := drop 1 fields in
    if String.eqb (Strings.ToLower cmd) "ban"
    then reportBan sender targetUserID args
    else mret None.

(** [HandleReport]: when an event is reported, its sender is the target. *)
Definition HandleReport (senderClient : Client)
           (targetUserID roomID eventID reason : string)
  : M (option ReportError) :=
  let sender := ClientUserID senderClient in
  if negb (String.eqb eventID "") then
    emit (CallGetEvent roomID eventID) ;;
    match GetEvent senderClient roomID eventID with
    | inl err =>
        emit (Log "error" "Failed to get report target event with user's token") ;;
        sendNotice "[%s](%s) reported [an event](%s) for %s, but the event could not be fetched: %v"
          [AStr sender; AURL sender; AEventURL roomID eventID; AStr reason; AErr err] ;;
        mret (Some (Errorf "failed to fetch event: %w" err))
    | inr evtSender => handleResolved sender evtSender roomID eventID reason
    end
  else handleResolved sender targetUserID roomID eventID reason.

End Handlers.

(* ===================================================================== *)
(** ** The policy store and the recommendation summary, from the spec      *)
(* ===================================================================== *)

(** The store that answers the queries, and the path by which a published
    policy reaches it, are not in the sources at hand.  Where a property
    speaks of what the store holds after a publish, it is stated over the
    model of this section. *)

Module store.

(** Modelled from the spec: the policy store is missing; the spec has a
    policy record live in a list room under an entity type and an
    identifier, "mutated only by re-publishing under the same identifier"
    and "destroyed by publishing a tombstone under that identifier". *)
Abbreviation Store := (gmap (string * EntityType * string) event.ModPolicyContent).

#[global] Instance EntityType_countable : Countable EntityType.
Proof.
  refine (inj_countable'
            (fun t => match t with
                      | EntityTypeUser => 0%nat
                      | EntityTypeRoom => 1%nat
                      | EntityTypeServer => 2%nat
                      end)
            (fun n => match n with
                      | 0%nat => EntityTypeUser
                      | 1%nat => EntityTypeRoom
                      | _ => EntityTypeServer
                      end) _).
  by intros [].
Defined.

(** Modelled from the spec: "recommendation = None with empty fields
    denotes a removal (tombstone)". *)
Definition isTombstone (content : event.ModPolicyContent) : bool :=
  String.eqb (event.Recommendation content) "".

(** Modelled from the spec: [publish(roomID, entityType, identifier,
    record)], which overwrites the record of that identifier, or removes it
    when the content is a tombstone. *)
Definition publish (room : string) (entityType : EntityType) (stateKey : string)
           (content : event.ModPolicyContent) (s : Store) : Store :=
  if isTombstone content then delete (room, entityType, stateKey) s
  else <[(room, entityType, stateKey) := content]> s.

Definition toPolicy (kc : string * EntityType * string * event.ModPolicyContent)
  : Policy :=
  let '(room, _, stateKey, content) := kc in
  {| RoomID := room; StateKey := stateKey; Sender := ""; Timestamp := 0;
     Entity := event.Entity content; Reason := event.Reason content;
     Recommendation := event.Recommendation content;
     UnstableHashes := event.UnstableHashes content |}.

(** Modelled from the spec: a record is on a value when it holds the value
    in plain text or, the plain text cleared, its base64 digest. *)
Definition holds (value : string) (content : event.ModPolicyContent) : bool :=
  String.eqb (event.Entity content) value
  || String.eqb (event.Entity content) ""
     && match event.UnstableHashes content with
        | Some h => String.eqb h (base64.EncodeToString (SHA256String value))
        | None => false
        end.

Definition selects (lists : list string) (entityType : EntityType) (value : string)
           (kc : string * EntityType * string * event.ModPolicyContent) : bool :=
  let '(room, et, _, content) := kc in
  bool_decide (room ∈ lists) && bool_decide (et = entityType) && holds value content.

(** Modelled from the spec: [matchExact(lists, entityType, value)], the
    records of the given lists on exactly this entity. *)
Definition MatchExact (s : Store) (lists : list string) (entityType : EntityType)
           (value : string) : Match :=
  map toPolicy (List.filter (selects lists entityType value) (map_to_list s)).

(** Modelled from the spec: the recommendation summary, "the single
    highest-precedence ban-or-unban record across the result set
    (precedence: any Unban found beats any Ban when both exist)". *)
Definition summary (ban unban : string) (m : Match) : option Policy :=
  match List.find (fun p => String.eqb (Recommendation p) unban) m with
  | Some p => Some p
  | None => List.find (fun p => String.eqb (Recommendation p) ban) m
  end.

End store.

(* ===================================================================== *)
(** ** A concrete deployment                                               *)
(* ===================================================================== *)

(** One list room with short code [spam], two administrators, a store, and
    network calls that all succeed; the recommendation tags and the trust
    level are given the values used for the runs below. *)
Module deployment.

Definition imports : Imports :=
  {| PolicyRecommendationBan := "m.ban";
     PolicyRecommendationUnban := "fi.mau.meowlnir.unban";
     PolicyRecommendationUnstableTakedown := "org.matrix.msc4204.takedown";
     TrustStateCrossSignedTOFU := 100;
     BanOrUnban := store.summary "m.ban" "fi.mau.meowlnir.unban";
     DecodeBase64Hash := fun _ => None |}.

Definition listRoom : string := "!list:example.org".

Definition spamList : WatchedListMeta :=
  {| ListRoomID := listRoom; Name := "Spam list" |}.

(** The evaluator over a store, with the given members of protected rooms:
    [members] gives each known user the rooms the user is in. *)
Definition evaluator (s : store.Store) (members : list (string * list string))
           (cryptoHelper dryRun : bool) : PolicyEvaluator :=
  {| CryptoHelper := cryptoHelper;
     DryRun := dryRun;
     Admins := {[ "@admin:example.org"; "@root:example.org" ]};
     FindListByShortcode := fun code =>
       if String.eqb code "spam" then Some spamList else None;
     GetWatchedLists := [listRoom];
     GetWatchedListMeta := fun room =>
       if String.eqb room listRoom then Some spamList else None;
     MatchExact := store.MatchExact s;
     MatchUser := fun lists => store.MatchExact s lists EntityTypeUser;
     MatchRoom := fun lists => store.MatchExact s lists EntityTypeRoom;
     MatchServer := fun lists => store.MatchExact s lists EntityTypeServer;
     findMatchingUsers := fun pattern =>
       if String.eqb pattern "*" then map fst members
       else List.filter (String.eqb pattern) (map fst members);
     getRoomsUserIsIn := fun user =>
       match List.find (fun m => String.eqb (fst m) user) members with
       | Some m => snd m
       | None => []
       end;
     protectedRooms := fun _ => None;
     getUserIDFromHash := fun _ => None;
     JoinRoom := fun _ => None;
     LeaveRoom := fun _ => None;
     ResolveAlias := fun alias => inr alias;
     KickUser := fun _ _ _ => None;
     SendStateEvent := fun _ _ _ _ => inr "$event" |}.

Definition command (body : string) : event.Event :=
  {| event.WasEncrypted := true; event.TrustState := 100;
     event.Body := body; event.ID := "$command" |}.

Definition admin : Client :=
  {| ClientUserID := "@admin:example.org"; GetEvent := fun _ _ => inl "not found" |}.


Definition policy (entity recommendation reason : string) : event.ModPolicyContent :=
  {| event.Entity := entity; event.Reason := reason;
     event.Recommendation := recommendation; event.UnstableHashes := None |}.

(** A store where [@u:x] has an unban in the list. *)
Definition unbanned : store.Store :=
  store.publish listRoom EntityTypeUser "unban-u"
    (policy "@u:x" "fi.mau.meowlnir.unban" "appeal accepted") ∅.

(** A store where [@u:x] has a ban in the list, under the identifier [k1]. *)
Definition banned : store.Store :=
  store.publish listRoom EntityTypeUser "k1" (policy "@u:x" "m.ban" "spam") ∅.

(** Eleven users, each in one room. *)
Definition eleven : list (string * list string) :=
  map (fun n => ("@spam" ++ n ++ ":example.org", ["!lobby:example.org"]))
      ["01"; "02"; "03"; "04"; "05"; "06"; "07"; "08"; "09"; "10"; "11"].

(** Two users, one in two rooms and one in none. *)
Definition pair : list (string * list string) :=
  [("@a:example.org", ["!r1:example.org"; "!r2:example.org"]);
   ("@b:example.org", [])].

(** A store where [@u:x] has a ban in the list under the empty state key. *)
Definition bannedUnderEmptyKey : store.Store :=
  store.publish listRoom EntityTypeUser "" (policy "@u:x" "m.ban" "spam") ∅.

(** A store where [@u:x] has a takedown in the list. *)
Definition takenDown : store.Store :=
  store.publish listRoom EntityTypeUser "t1"
    (policy "@u:x" "org.matrix.msc4204.takedown" "") ∅.

(** The evaluator whose every query returns the match [m]. *)
Definition returning (m : Match) : PolicyEvaluator :=
  let pe := evaluator ∅ [] true false in
  {| CryptoHelper := CryptoHelper pe;
     DryRun := DryRun pe;
     Admins := Admins pe;
     FindListByShortcode := FindListByShortcode pe;
     GetWatchedLists := GetWatchedLists pe;
     GetWatchedListMeta := GetWatchedListMeta pe;
     MatchExact := fun _ _ _ => m;
     MatchUser := fun _ _ => m;
     MatchRoom := fun _ _ => m;
     MatchServer := fun _ _ => m;
     findMatchingUsers := findMatchingUsers pe;
     getRoomsUserIsIn := getRoomsUserIsIn pe;
     protectedRooms := protectedRooms pe;
     getUserIDFromHash := getUserIDFromHash pe;
     JoinRoom := JoinRoom pe;
     LeaveRoom := LeaveRoom pe;
     ResolveAlias := ResolveAlias pe;
     KickUser := KickUser pe;
     SendStateEvent := SendStateEvent pe |}.

(** The evaluator over the members [pair] whose kicks fail in [room]. *)
Definition failingIn (room : string) : PolicyEvaluator :=
  let pe := evaluator ∅ pair true false in
  {| CryptoHelper := CryptoHelper pe;
     DryRun := DryRun pe;
     Admins := Admins pe;
     FindListByShortcode := FindListByShortcode pe;
     GetWatchedLists := GetWatchedLists pe;
     GetWatchedListMeta := GetWatchedListMeta pe;
     MatchExact := MatchExact pe;
     MatchUser := MatchUser pe;
     MatchRoom := MatchRoom pe;
     MatchServer := MatchServer pe;
     findMatchingUsers := findMatchingUsers pe;
     getRoomsUserIsIn := getRoomsUserIsIn pe;
     protectedRooms := protectedRooms pe;
     getUserIDFromHash := getUserIDFromHash pe;
     JoinRoom := JoinRoom pe;
     LeaveRoom := LeaveRoom pe;
     ResolveAlias := ResolveAlias pe;
     KickUser := fun r _ _ => if String.eqb r room then Some "M_FORBIDDEN" else None;
     SendStateEvent := SendStateEvent pe |}.

(** The imports under which the text [h], and no other, decodes to the
    digest [digest]. *)
Definition decoding (h : string) (digest : list Z) : Imports :=
  {| PolicyRecommendationBan := PolicyRecommendationBan imports;
     PolicyRecommendationUnban := PolicyRecommendationUnban imports;
     PolicyRecommendationUnstableTakedown :=
       PolicyRecommendationUnstableTakedown imports;
     TrustStateCrossSignedTOFU := TrustStateCrossSignedTOFU imports;
     BanOrUnban := BanOrUnban imports;
     DecodeBase64Hash := fun s => if String.eqb s h then Some digest else None |}.

(** The evaluator over the members [pair] that knows the user of the
    digest [digest], and of no other. *)
Definition resolving (digest : list Z) (user : string) : PolicyEvaluator :=
  let pe := evaluator ∅ pair true false in
  {| CryptoHelper := CryptoHelper pe;
     DryRun := DryRun pe;
     Admins := Admins pe;
     FindListByShortcode := FindListByShortcode pe;
     GetWatchedLists := GetWatchedLists pe;
     GetWatchedListMeta := GetWatchedListMeta pe;
     MatchExact := MatchExact pe;
     MatchUser := MatchUser pe;
     MatchRoom := MatchRoom pe;
     MatchServer := MatchServer pe;
     findMatchingUsers := findMatchingUsers pe;
     getRoomsUserIsIn := getRoomsUserIsIn pe;
     protectedRooms := protectedRooms pe;
     getUserIDFromHash := fun d =>
       if bool_decide (d = digest) then Some user else None;
     JoinRoom := JoinRoom pe;
     LeaveRoom := LeaveRoom pe;
     ResolveAlias := ResolveAlias pe;
     KickUser := KickUser pe;
     SendStateEvent := SendStateEvent pe |}.

(** A policy of a room, as a query returns it. *)
Definition found (room stateKey entity recommendation reason : string) : Policy :=
  {| RoomID := room; StateKey := stateKey; Sender := "@mod:example.org";
     Timestamp := 0; Entity := entity; Reason := reason;
     Recommendation := recommendation; UnstableHashes := None |}.

End deployment.

(* ===================================================================== *)
(** ** Observations on a run                                               *)
(* ===================================================================== *)

(** The trust gate of [HandleCommand] as a predicate: the event is dropped
    when it is unencrypted and the bot has a crypto helper, or encrypted
    with a trust state below [TrustStateCrossSignedTOFU]. *)
Definition dropped (im : Imports) (pe : PolicyEvaluator) (evt : event.Event) : bool :=
  negb (event.WasEncrypted evt) && CryptoHelper pe
  || event.WasEncrypted evt
     && (event.TrustState evt <? TrustStateCrossSignedTOFU im)%Z.

(** The policies a run sent to list rooms, in order. *)
Definition published (t : list Effect)
  : list (string * EntityType * string * event.ModPolicyContent) :=
  omap (fun e => match e with
                 | CallSendStateEvent room et key content => Some (room, et, key, content)
                 | _ => None
                 end) t.

(** The identifiers (state keys) a run published under. *)
Definition publishedKeys (t : list Effect) : list string :=
  map (fun p => snd (fst p)) (published t).

(** The kicks a run sent: room, user and reason. *)
Definition kicks (t : list Effect) : list (string * string * string) :=
  omap (fun e => match e with
                 | CallKickUser room user reason => Some (room, user, reason)
                 | _ => None
                 end) t.

(** The notices of a run. *)
Definition notices (t : list Effect) : list (string * list Arg) :=
  omap (fun e => match e with
                 | Notice format args => Some (format, args)
                 | _ => None
                 end) t.

(** The success reactions of a run. *)
Definition reactions (t : list Effect) : list string :=
  omap (fun e => match e with SuccessReaction evtID => Some evtID | _ => None end) t.

(** An effect that neither publishes nor enforces: a notice, a log line or
    the fetch of the reported event. *)
Definition passive (e : Effect) : bool :=
  match e with
  | Notice _ _ | Log _ _ | CallGetEvent _ _ => true
  | _ => false
  end.

(** The identifier the spec gives a record that reuses none: the base64
    encoding of the SHA-256 digest of the raw entity followed by the
    recommendation tag. *)
Definition derivedIdentifier (rawEntity tag : string) : string :=
  base64.EncodeToString (sha256.Sum256 (Strings.bytes (rawEntity ++ tag))).

(** The user a report is about once its event, if any, has been fetched:
    the sender of the event, or the user given; [inl] when the fetch
    failed. *)
Definition resolvedTarget (senderClient : Client)
           (targetUserID roomID eventID : string) : Error + string :=
  if String.eqb eventID "" then inr targetUserID
  else GetEvent senderClient roomID eventID.


(** The link of a room in the summary of a kick. *)
Definition roomLink (room : string) : Arg :=
  ASprintf "[%s](%s)" [AStr room; AURL room].

(** The summary of a user all of whose rooms count as kicked. *)
Definition kickSummary (userID : string) (rooms : list string) : Effect :=
  Notice "Kicked `%s` from %d rooms: %s"
    [AStr userID; AInt (Z.of_nat (length rooms)); AJoin (map roomLink rooms) ", "].

(** The users a run reports a kick summary for. *)
Definition summarized (t : list Effect) : list string :=
  omap (fun e => match e with
                 | Notice format (AStr userID :: _) =>
                     if String.eqb format "Kicked `%s` from %d rooms: %s"
                     then Some userID else None
                 | _ => None
                 end) t.

Definition isKick (e : Effect) : bool :=
  match e with CallKickUser _ _ _ => true | _ => false end.

(** The evaluator that differs from [pe] in that it is no dry run and all
    its kicks succeed. *)
Definition realRun (pe : PolicyEvaluator) : PolicyEvaluator :=
  {| CryptoHelper := CryptoHelper pe;
     DryRun := false;
     Admins := Admins pe;
     FindListByShortcode := FindListByShortcode pe;
     GetWatchedLists := GetWatchedLists pe;
     GetWatchedListMeta := GetWatchedListMeta pe;
     MatchExact := MatchExact pe;
     MatchUser := MatchUser pe;
     MatchRoom := MatchRoom pe;
     MatchServer := MatchServer pe;
     findMatchingUsers := findMatchingUsers pe;
     getRoomsUserIsIn := getRoomsUserIsIn pe;
     protectedRooms := protectedRooms pe;
     getUserIDFromHash := getUserIDFromHash pe;
     JoinRoom := JoinRoom pe;
     LeaveRoom := LeaveRoom pe;
     ResolveAlias := ResolveAlias pe;
     KickUser := fun _ _ _ => None;
     SendStateEvent := SendStateEvent pe |}.

(** The user is in some protected room. *)
Definition hasRooms (pe : PolicyEvaluator) (userID : string) : bool :=
  negb (length (getRoomsUserIsIn pe userID) =? 0)%nat.

(** The summaries of a run in which every room of every user counts as
    kicked. *)
Definition kickSummaries (pe : PolicyEvaluator) (users : list string) : list Effect :=
  map (fun userID => kickSummary userID (getRoomsUserIsIn pe userID))
      (List.filter (hasRooms pe) users).

(** What ends a kick that was not refused. *)
Definition kickEnd (evtID pattern : string) (users : list string) : Effect :=
  if (length users =? 0)%nat
  then Notice "No users matching `%s` found in any rooms" [AStr pattern]
  else SuccessReaction evtID.

(** The identifier a policy is published under when [stateKey] is the one
    found for reuse: the key itself unless it is empty. *)
Definition identifierFor (stateKey rawEntity tag : string) : string :=
  if String.eqb stateKey "" then derivedIdentifier rawEntity tag else stateKey.

(** The evaluator [pe] with its queries answered from the store [s]. *)
Definition onStore (pe : PolicyEvaluator) (s : store.Store) : PolicyEvaluator :=
  {| CryptoHelper := CryptoHelper pe;
     DryRun := DryRun pe;
     Admins := Admins pe;
     FindListByShortcode := FindListByShortcode pe;
     GetWatchedLists := GetWatchedLists pe;
     GetWatchedListMeta := GetWatchedListMeta pe;
     MatchExact := store.MatchExact s;
     MatchUser := fun lists => store.MatchExact s lists EntityTypeUser;
     MatchRoom := fun lists => store.MatchExact s lists EntityTypeRoom;
     MatchServer := fun lists => store.MatchExact s lists EntityTypeServer;
     findMatchingUsers := findMatchingUsers pe;
     getRoomsUserIsIn := getRoomsUserIsIn pe;
     protectedRooms := protectedRooms pe;
     getUserIDFromHash := getUserIDFromHash pe;
     JoinRoom := JoinRoom pe;
     LeaveRoom := LeaveRoom pe;
     ResolveAlias := ResolveAlias pe;
     KickUser := KickUser pe;
     SendStateEvent := SendStateEvent pe |}.

(** The store once a policy was sent: it takes the policy when the send
    succeeded and is unchanged when it failed. *)
Definition accept (pe : PolicyEvaluator) (s : store.Store)
           (p : string * EntityType * string * event.ModPolicyContent) : store.Store :=
  let '(room, entityType, stateKey, content) := p in
  match SendStateEvent pe room entityType stateKey content with
  | inr _ => store.publish room entityType stateKey content s
  | inl _ => s
  end.

(** The store after a run. *)
Definition storeAfter (pe : PolicyEvaluator) (t : list Effect) (s : store.Store)
  : store.Store :=
  fold_left (accept pe) (published t) s.



(** The rooms a run asked to join, and to leave, in order. *)
Definition joins (t : list Effect) : list string :=
  omap (fun e => match e with CallJoinRoom room => Some room | _ => None end) t.

Definition leaves (t : list Effect) : list string :=
  omap (fun e => match e with CallLeaveRoom room => Some room | _ => None end) t.

(** The redactions a run asked for: user and reason. *)
Definition redactions (t : list Effect) : list (string * string) :=
  omap (fun e => match e with
                 | CallRedactUser user reason => Some (user, reason)
                 | _ => None
                 end) t.

(** The kicks a run reports as failed: user and room. *)
Definition failedKicks (t : list Effect) : list (string * string) :=
  omap (fun e => match e with
                 | Notice format [AStr userID; AStr room; AErr _] =>
                     if String.eqb format "Failed to kick `%s` from `%s`: %v"
                     then Some (userID, room) else None
                 | _ => None
                 end) t.

(** The success counts of the kick summaries of a run, by user. *)
Definition kickCounts (t : list Effect) : list (string * Z) :=
  omap (fun e => match e with
                 | Notice format (AStr userID :: AInt count :: _) =>
                     if String.eqb format "Kicked `%s` from %d rooms: %s"
                     then Some (userID, count) else None
                 | _ => None
                 end) t.

(** The verbs of [HandleCommand]. *)
Definition verbs : list string :=
  ["!join"; "!leave"; "!redact"; "!kick"; "!ban"; "!takedown"; "!remove-ban";
   "!remove-unban"; "!remove-policy"; "!add-unban"; "!match"].

(** An effect that changes nothing outside: a notice, a log line, a success
    reaction, the resolution of an alias or the fetch of an event. *)
Definition readOnly (e : Effect) : bool :=
  match e with
  | Notice _ _ | Log _ _ | SuccessReaction _ | CallResolveAlias _
  | CallGetEvent _ _ => true
  | _ => false
  end.

(** The verbs that send a policy to a list room. *)
Definition publishingVerbs : list string :=
  ["!ban"; "!takedown"; "!remove-ban"; "!remove-unban"; "!remove-policy";
   "!add-unban"].

(** What a command with the verb [cmd] may do: notices, log lines and the
    success reaction whatever the verb, and every call to the outside only
    under the verb it belongs to; a kick moreover only outside a dry run. *)
Definition permitted (pe : PolicyEvaluator) (cmd : string) (e : Effect) : bool :=
  match e with
  | Log _ _ | Notice _ _ | SuccessReaction _ => true
  | CallJoinRoom _ => String.eqb cmd "!join"
  | CallLeaveRoom _ | CallResolveAlias _ => String.eqb cmd "!leave"
  | CallRedactUser _ _ => String.eqb cmd "!redact"
  | CallKickUser _ _ _ => String.eqb cmd "!kick" && negb (DryRun pe)
  | CallSendStateEvent _ _ _ _ => existsb (String.eqb cmd) publishingVerbs
  | CallGetEvent _ _ => false
  end.

(** The verb of a command: its first field in lower case. *)
Definition verbOf (evt : event.Event) : string :=
  Strings.ToLower (default "" (head (Strings.Fields (event.Body evt)))).

(** What a report may do: notices, log lines, the fetch of the reported
    event, and the sending of a policy. *)
Definition reportEffect (e : Effect) : bool :=
  passive e || match e with CallSendStateEvent _ _ _ _ => true | _ => false end.

(** The kick of the user from the room fails. *)
Definition kickFails (pe : PolicyEvaluator) (reason userID room : string) : bool :=
  match KickUser pe room userID reason with
  | Some _ => true
  | None => false
  end.

(* ===================================================================== *)
(** * Properties                                                           *)
(* ===================================================================== *)

(** ** Laws of the computation monad *)

#[local] Arguments mbind : simpl never.
#[local] Arguments SendPolicy : simpl never.
#[local] Arguments sendNotice : simpl never.
#[local] Arguments existingStateKeyIn : simpl never.
#[local] Arguments banContent : simpl never.
#[local] Arguments Strings.Join : simpl never.
#[local] Arguments String.eqb : simpl nomatch.

Lemma bind_ret {A B : Type} (a : A) (f : A -> M B) : (mret a ≫= f) = f a.
Proof. unfold mbind, mret, M_bind, M_ret. by destruct (f a). Qed.

Lemma bind_emit {B : Type} (e : Effect) (m : M B) :
  (emit e ;; m) = (e :: trace m, outcome m).
Proof. unfold emit, mbind, M_bind. by destruct m. Qed.

Lemma bind_returned {A B : Type} (t : list Effect) (a : A) (f : A -> M B) :
  ((t, Returned a) ≫= f) = ((t ++ trace (f a))%list, outcome (f a)).
Proof. unfold mbind, M_bind. by destruct (f a). Qed.

Lemma bind_panicked {A B : Type} (t : list Effect) (f : A -> M B) :
  ((t, @Panicked A) ≫= f) = (t, Panicked).
Proof. reflexivity. Qed.

Lemma index_head (x : string) (xs : list string) : index (x :: xs) 0 = mret x.
Proof. reflexivity. Qed.

Lemma index_second (x y : string) (xs : list string) :
  index (x :: y :: xs) 1 = mret y.
Proof. reflexivity. Qed.

Lemma bytes_app (a b : string) :
  Strings.bytes (a ++ b) = (Strings.bytes a ++ Strings.bytes b)%list.
Proof.
  unfold Strings.bytes. rewrite <- map_app. f_equal.
  induction a as [| c a IH]; simpl; [ reflexivity | by rewrite IH ].
Qed.

(** ** The gate and the routing *)

Lemma HandleCommand_dropped im pe evt :
  dropped im pe evt = true ->
  exists reason, HandleCommand im pe evt = ([Log "warn" reason], Returned tt).
Proof.
  unfold dropped, HandleCommand. intros Hd.
  destruct (negb (event.WasEncrypted evt) && CryptoHelper pe); [ by eexists |].
  simpl in Hd. rewrite Hd. by eexists.
Qed.

Lemma HandleCommand_accepted im pe evt w args :
  dropped im pe evt = false ->
  Strings.Fields (event.Body evt) = w :: args ->
  HandleCommand im pe evt =
    (emit (Log "info" "Handling command") ;;
     switchCmd im pe (event.ID evt) (Strings.ToLower w) args).
Proof.
  unfold dropped, HandleCommand. intros Hd Hf.
  apply orb_false_iff in Hd as [-> ->]. rewrite Hf. cbv zeta.
  rewrite index_head, bind_ret. reflexivity.
Qed.

Lemma HandleCommand_no_field im pe evt :
  dropped im pe evt = false ->
  Strings.Fields (event.Body evt) = [] ->
  HandleCommand im pe evt = ([], Panicked).
Proof.
  unfold dropped, HandleCommand. intros Hd Hf.
  apply orb_false_iff in Hd as [-> ->]. rewrite Hf. reflexivity.
Qed.

(** An encrypted event at the threshold trust level passes the gate of
    every evaluator. *)
Lemma trusted_not_dropped im pe body evtID :
  dropped im pe {| event.WasEncrypted := true;
                   event.TrustState := TrustStateCrossSignedTOFU im;
                   event.Body := body; event.ID := evtID |} = false.
Proof. unfold dropped. simpl. by rewrite Z.ltb_irrefl. Qed.

(** ** The trust gate (C10) *)

(** C10, as the code has it: a command event that is unencrypted while the
    bot has a crypto helper, or encrypted with a trust state below the
    cross-signed TOFU level, is dropped before its body is tokenized: the
    run is the warning and nothing else, whatever the body. *)
Theorem C10_gate_drops_before_parsing im pe evt :
  (event.WasEncrypted evt = false /\ CryptoHelper pe = true)
  \/ (event.WasEncrypted evt = true
      /\ (event.TrustState evt < TrustStateCrossSignedTOFU im)%Z) ->
  exists reason, HandleCommand im pe evt = ([Log "warn" reason], Returned tt).
Proof.
  intros H. apply HandleCommand_dropped. unfold dropped.
  destruct H as [[-> ->] | [-> Hlt]]; [ reflexivity |].
  apply Z.ltb_lt in Hlt. by rewrite Hlt.
Qed.

(** An encrypted [!match] without argument at trust level 50 is dropped. *)
Lemma C10_gate_drops_before_parsing_witness :
  (event.WasEncrypted
     {| event.WasEncrypted := true; event.TrustState := 50;
        event.Body := "!match"; event.ID := "$e" |} = true
   /\ (50 < TrustStateCrossSignedTOFU deployment.imports)%Z)
  /\ exists reason,
      HandleCommand deployment.imports (deployment.evaluator ∅ [] true false)
        {| event.WasEncrypted := true; event.TrustState := 50;
           event.Body := "!match"; event.ID := "$e" |}
      = ([Log "warn" reason], Returned tt).
Proof.
  split; [ split; [ reflexivity | reflexivity ] |].
  apply (C10_gate_drops_before_parsing deployment.imports
           (deployment.evaluator ∅ [] true false)
           {| event.WasEncrypted := true; event.TrustState := 50;
              event.Body := "!match"; event.ID := "$e" |}).
  right. split; reflexivity.
Defined.

(** C10 as stated fails: an unencrypted command is not dropped when the bot
    runs without a crypto helper; it is tokenized and its handler runs. *)
Lemma C10_unencrypted_runs_without_crypto_helper :
  event.WasEncrypted
    {| event.WasEncrypted := false; event.TrustState := 0;
       event.Body := "!join !room:example.org"; event.ID := "$e" |} = false
  /\ HandleCommand deployment.imports (deployment.evaluator ∅ [] false false)
       {| event.WasEncrypted := false; event.TrustState := 0;
          event.Body := "!join !room:example.org"; event.ID := "$e" |}
     = ([Log "info" "Handling command";
         CallJoinRoom "!room:example.org";
         Notice "Joined room %q" [AStr "!room:example.org"];
         SuccessReaction "$e"],
        Returned tt).
Proof. split; [ reflexivity | vm_compute; reflexivity ]. Qed.

(** ** Short argument lists (C7) *)

(** C7 fails on the code: a command that passes the gate panics when its
    body has no field at all, when [!match] has no argument, and when
    [!kick --force] has no pattern (an index out of range each time). *)
Theorem C7_short_commands_panic im pe (evtID : string) :
  let command body :=
    {| event.WasEncrypted := true;
       event.TrustState := TrustStateCrossSignedTOFU im;
       event.Body := body; event.ID := evtID |} in
  HandleCommand im pe (command "!match") = ([Log "info" "Handling command"], Panicked)
  /\ HandleCommand im pe (command "") = ([], Panicked)
  /\ HandleCommand im pe (command "!kick --force")
     = ([Log "info" "Handling command"], Panicked).
Proof.
  intros command. repeat split.
  - rewrite (HandleCommand_accepted im pe _ "!match" []);
      [ reflexivity | apply trusted_not_dropped | reflexivity ].
  - apply HandleCommand_no_field; [ apply trusted_not_dropped | reflexivity ].
  - rewrite (HandleCommand_accepted im pe _ "!kick" ["--force"]);
      [ reflexivity | apply trusted_not_dropped | reflexivity ].
Qed.

(** ** The digest and its encoding on known values *)

(** The round constants and the initial hash value, at both ends. *)
Example sha256_constants :
  (length sha256.K = 64%nat
   /\ nth 0 sha256.K 0 = 0x428a2f98 /\ nth 63 sha256.K 0 = 0xc67178f2
   /\ nth 0 sha256.H0 0 = 0x6a09e667 /\ nth 7 sha256.H0 0 = 0x5be0cd19)%Z.
Proof. repeat split; vm_compute; reflexivity. Qed.

(** The digests of [abc] and of the empty message, in base64. *)
Example sha256_abc :
  base64.EncodeToString (sha256.Sum256 (Strings.bytes "abc"))
  = "ungWv48Bz+pBQUDeXa4iI7ADYaOWF3qctBD/YfIAFa0="
  /\ base64.EncodeToString (sha256.Sum256 (Strings.bytes ""))
     = "47DEQpj8HBSa+/TImW+5JCeuQeRkm5NMpJWZG3hSuFU=".
Proof. split; vm_compute; reflexivity. Qed.

(** ** The derived identifier (C5) *)

Lemma SendPolicy_run pe policyList entityType stateKey rawEntity content :
  SendPolicy pe policyList entityType stateKey rawEntity content =
    (let key := if String.eqb stateKey ""
                then derivedIdentifier rawEntity (event.Recommendation content)
                else stateKey in
     ([CallSendStateEvent policyList entityType key content],
      Returned (SendStateEvent pe policyList entityType key content))).
Proof.
  unfold SendPolicy, derivedIdentifier. rewrite bytes_app.
  destruct (String.eqb stateKey ""); reflexivity.
Qed.

(** C5: with no identifier to reuse, [SendPolicy] publishes under the base64
    encoding of the SHA-256 digest of the raw entity followed by the
    recommendation tag; so two syntheses for the same entity and
    recommendation, by any evaluator, for any list, publish under the same
    identifier. *)
Theorem C5_derived_identifier pe policyList entityType rawEntity content :
  publishedKeys (trace (SendPolicy pe policyList entityType "" rawEntity content))
  = [derivedIdentifier rawEntity (event.Recommendation content)]
  /\ forall pe' policyList' entityType' content',
      event.Recommendation content' = event.Recommendation content ->
      publishedKeys
        (trace (SendPolicy pe' policyList' entityType' "" rawEntity content'))
      = publishedKeys
          (trace (SendPolicy pe policyList entityType "" rawEntity content)).
Proof.
  split.
  - rewrite SendPolicy_run. reflexivity.
  - intros pe' policyList' entityType' content' Hrec.
    rewrite !SendPolicy_run. simpl. by rewrite Hrec.
Qed.

(** The identifier derived for [@u:x] and [m.ban], for two evaluators. *)
Lemma C5_derived_identifier_witness :
  publishedKeys
    (trace (SendPolicy (deployment.evaluator ∅ [] true false)
              deployment.listRoom EntityTypeUser "" "@u:x"
              {| event.Entity := "@u:x"; event.Reason := "spam";
                 event.Recommendation := "m.ban"; event.UnstableHashes := None |}))
  = ["eUBgEtkYkXxlXZWqXTp0f1QSEW60L/7Hm/S++TMq824="]
  /\ publishedKeys
       (trace (SendPolicy (deployment.evaluator ∅ [] false true)
                 "!other:example.org" EntityTypeUser "" "@u:x"
                 {| event.Entity := ""; event.Reason := "again";
                    event.Recommendation := "m.ban"; event.UnstableHashes := None |}))
     = publishedKeys
         (trace (SendPolicy (deployment.evaluator ∅ [] true false)
                   deployment.listRoom EntityTypeUser "" "@u:x"
                   {| event.Entity := "@u:x"; event.Reason := "spam";
                      event.Recommendation := "m.ban"; event.UnstableHashes := None |})).
Proof.
  split.
  - vm_compute. reflexivity.
  - apply (proj2 (C5_derived_identifier (deployment.evaluator ∅ [] true false)
                    deployment.listRoom EntityTypeUser "@u:x"
                    {| event.Entity := "@u:x"; event.Reason := "spam";
                       event.Recommendation := "m.ban";
                       event.UnstableHashes := None |})).
    reflexivity.
Defined.

(** ** The ban and takedown commands *)


(** The arguments of a ban or takedown: the optional [--hash], the short
    code of the list, the entity, and the words of the reason. *)
Lemma cmdBan_args im pe evtID cmd (hash : bool) L E rest list entityType :
  (hash = false -> L <> "--hash") ->
  FindListByShortcode pe L = Some list ->
  validateEntity E = Some entityType ->
  cmdBan im pe evtID cmd ((if hash then ["--hash"] else []) ++ L :: E :: rest) =
    (let match_ := MatchExact pe (GetWatchedLists pe) entityType E in
     let send :=
       resp ← SendPolicy pe (ListRoomID list) entityType
                (existingStateKeyIn (ListRoomID list) E match_) E
                (banContent im cmd E (Strings.Join rest " ") hash);
       match resp with
       | inl err => sendNotice "Failed to send ban policy: %v" [AErr err]
       | inr _ =>
           emit (Log "info" "Sent ban policy from command") ;;
           sendSuccessReaction evtID
       end in
     match BanOrUnban im match_ with
     | Some rec =>
         if String.eqb (Recommendation rec) (PolicyRecommendationUnban im)
         then sendNotice "`%s` has an unban recommendation: %s"
                [AStr E; AStr (Reason rec)]
         else send
     | None => send
     end).
Proof.
  intros HL Hlist Het. unfold cmdBan.
  destruct hash; simpl; rewrite index_head, bind_ret.
  - rewrite String.eqb_refl, index_head, bind_ret, Hlist, index_second, bind_ret, Het.
    reflexivity.
  - destruct (String.eqb_spec L "--hash") as [e | _]; [ by destruct HL |].
    rewrite index_head, bind_ret, Hlist, index_second, bind_ret, Het.
    reflexivity.
Qed.

Lemma switchCmd_ban im pe evtID w args :
  Strings.ToLower w = "!ban" \/ Strings.ToLower w = "!takedown" ->
  switchCmd im pe evtID (Strings.ToLower w) args
  = cmdBan im pe evtID (Strings.ToLower w) args.
Proof. unfold switchCmd. by intros [-> | ->]. Qed.

(** A ban or takedown whose summary is an unban stops at the notice. *)
Lemma ban_blocked_by_unban im pe evt w (hash : bool) L E rest list entityType rec :
  dropped im pe evt = false ->
  Strings.Fields (event.Body evt)
  = w :: (if hash then ["--hash"] else []) ++ L :: E :: rest ->
  Strings.ToLower w = "!ban" \/ Strings.ToLower w = "!takedown" ->
  (hash = false -> L <> "--hash") ->
  FindListByShortcode pe L = Some list ->
  validateEntity E = Some entityType ->
  BanOrUnban im (MatchExact pe (GetWatchedLists pe) entityType E) = Some rec ->
  Recommendation rec = PolicyRecommendationUnban im ->
  HandleCommand im pe evt
  = ([Log "info" "Handling command";
      Notice "`%s` has an unban recommendation: %s" [AStr E; AStr (Reason rec)]],
     Returned tt)
  /\ published (trace (HandleCommand im pe evt)) = []
  /\ reactions (trace (HandleCommand im pe evt)) = [].
Proof.
  intros Hd Hf Hw HL Hlist Het Hrec Hunban.
  assert (Hrun : HandleCommand im pe evt
                 = ([Log "info" "Handling command";
                     Notice "`%s` has an unban recommendation: %s"
                       [AStr E; AStr (Reason rec)]], Returned tt)).
  { rewrite (HandleCommand_accepted _ _ _ _ _ Hd Hf), switchCmd_ban by done.
    rewrite (cmdBan_args _ _ _ _ _ _ _ _ _ _ HL Hlist Het). cbv zeta.
    rewrite Hrec, Hunban, String.eqb_refl. reflexivity. }
  rewrite Hrun. repeat split.
Qed.

(** C2: a ban or a takedown of an entity whose summary over the watched
    lists is an unban is blocked: the run is the notice with the reason of
    the standing record, no policy is published and no success reaction is
    sent. *)
Theorem C2_unban_blocks_ban im pe evt w (hash : bool) L E rest list entityType rec :
  dropped im pe evt = false ->
  Strings.Fields (event.Body evt)
  = w :: (if hash then ["--hash"] else []) ++ L :: E :: rest ->
  Strings.ToLower w = "!ban" \/ Strings.ToLower w = "!takedown" ->
  (hash = false -> L <> "--hash") ->
  FindListByShortcode pe L = Some list ->
  validateEntity E = Some entityType ->
  BanOrUnban im (MatchExact pe (GetWatchedLists pe) entityType E) = Some rec ->
  Recommendation rec = PolicyRecommendationUnban im ->
  HandleCommand im pe evt
  = ([Log "info" "Handling command";
      Notice "`%s` has an unban recommendation: %s" [AStr E; AStr (Reason rec)]],
     Returned tt)
  /\ published (trace (HandleCommand im pe evt)) = []
  /\ reactions (trace (HandleCommand im pe evt)) = [].
Proof. apply ban_blocked_by_unban. Qed.

(** A ban of [@u:x], who has an unban in the list. *)
Lemma C2_unban_blocks_ban_witness :
  BanOrUnban deployment.imports
    (MatchExact (deployment.evaluator deployment.unbanned [] true false)
       [deployment.listRoom] EntityTypeUser "@u:x")
  = Some (store.toPolicy
            (deployment.listRoom, EntityTypeUser, "unban-u",
             deployment.policy "@u:x" "fi.mau.meowlnir.unban" "appeal accepted"))
  /\ HandleCommand deployment.imports
       (deployment.evaluator deployment.unbanned [] true false)
       (deployment.command "!Ban spam @u:x spamming again")
     = ([Log "info" "Handling command";
         Notice "`%s` has an unban recommendation: %s"
           [AStr "@u:x"; AStr "appeal accepted"]],
        Returned tt).
Proof.
  split; [ vm_compute; reflexivity |].
  apply (C2_unban_blocks_ban deployment.imports
           (deployment.evaluator deployment.unbanned [] true false)
           (deployment.command "!Ban spam @u:x spamming again")
           "!Ban" false "spam" "@u:x" ["spamming"; "again"]
           deployment.spamList EntityTypeUser
           (store.toPolicy
              (deployment.listRoom, EntityTypeUser, "unban-u",
               deployment.policy "@u:x" "fi.mau.meowlnir.unban" "appeal accepted"))).
  - vm_compute; reflexivity.
  - vm_compute; reflexivity.
  - left. vm_compute; reflexivity.
  - intros _. discriminate.
  - vm_compute; reflexivity.
  - vm_compute; reflexivity.
  - vm_compute; reflexivity.
  - vm_compute; reflexivity.
Defined.

(** ** The gate of the report bridge (C3) *)






(** ** The report handler returns *)

Lemma fieldsFrom_not_empty s skip cur acc :
  cur <> [] \/ acc <> [] -> Strings.fieldsFrom s skip cur acc <> [].
Proof.
  revert skip cur acc. induction s as [| c s IH]; intros skip cur acc Hne.
  - cbn [Strings.fieldsFrom]. unfold Strings.flush.
    destruct cur as [| x cur].
    + destruct Hne as [Hne | Hne]; [ done |].
      destruct acc; [ done |]. cbn. by destruct (rev acc).
    + cbn. by destruct (rev acc).
  - cbn [Strings.fieldsFrom]. destruct skip as [| k]; [| by apply IH ].
    destruct (Strings.spaceWidth (String c s)) as [| k].
    + apply IH. by left.
    + apply IH. right. unfold Strings.flush. destruct cur; [| done ].
      by destruct Hne.
Qed.

(** A reason that starts with [/] has a first field. *)
Lemma Fields_slash reason :
  Strings.HasPrefix reason "/" = true -> Strings.Fields reason <> [].
Proof.
  destruct reason as [| c rest]; [ discriminate |].
  cbn [Strings.HasPrefix]. intros Hc. apply andb_true_iff in Hc as [Hc _].
  apply Ascii.eqb_eq in Hc. subst c.
  unfold Strings.Fields. cbn [Strings.fieldsFrom].
  assert (Hw : Strings.spaceWidth (String "/" rest) = 0%nat)
    by (destruct rest as [| c1 [| c2 rest']]; reflexivity).
  rewrite Hw.
  apply fieldsFrom_not_empty. by left.
Qed.

Lemma reportBan_returns im pe sender target args :
  outcome (reportBan im pe sender target args) <> Panicked.
Proof.
  unfold reportBan.
  destruct args as [| a [| b args]]; [ done | done |].
  cbn [length Nat.ltb Nat.leb].
  destruct (BanOrUnban im _) as [rec |].
  - by destruct (String.eqb _ _).
  - rewrite index_head, bind_ret.
    destruct (FindListByShortcode pe a) as [list |]; [| done ].
    rewrite SendPolicy_run. cbv zeta. rewrite bind_returned.
    by destruct (SendStateEvent pe _ _ _ _).
Qed.

(** Whatever the report, [HandleReport] does not panic. *)
Lemma HandleReport_returns im pe senderClient targetUserID roomID eventID reason :
  outcome (HandleReport im pe senderClient targetUserID roomID eventID reason)
  <> Panicked.
Proof.
  assert (Hres : forall target,
             outcome (handleResolved im pe (ClientUserID senderClient) target
                        roomID eventID reason) <> Panicked).
  { intros target. unfold handleResolved.
    destruct (Strings.HasPrefix reason "/") eqn:Hpre.
    2: { rewrite orb_true_r. cbn [orb]. unfold forwardReport, sendNotice.
         repeat case_match; done. }
    destruct (negb (bool_decide _) || negb true || String.eqb target "").
    { unfold forwardReport, sendNotice. repeat case_match; done. }
    cbv zeta. pose proof (Fields_slash reason Hpre) as Hf.
    destruct (Strings.Fields reason) as [| field0 args]; [ done |].
    rewrite index_head, bind_ret. cbn [drop].
    destruct (String.eqb _ "ban"); [ apply reportBan_returns | done ]. }
  unfold HandleReport.
  destruct (negb (String.eqb eventID "")); [| apply Hres ].
  rewrite bind_emit.
  destruct (GetEvent senderClient roomID eventID); [ done | apply Hres ].
Qed.

(** ** The kick command (C6, C9) *)

Lemma kicks_app (t1 t2 : list Effect) : kicks (t1 ++ t2) = (kicks t1 ++ kicks t2)%list.
Proof. apply omap_app. Qed.

Lemma reactions_app (t1 t2 : list Effect) :
  reactions (t1 ++ t2) = (reactions t1 ++ reactions t2)%list.
Proof. apply omap_app. Qed.

Lemma summarized_app (t1 t2 : list Effect) :
  summarized (t1 ++ t2) = (summarized t1 ++ summarized t2)%list.
Proof. apply omap_app. Qed.

(** A loop whose body always returns runs every iteration: its trace is the
    traces of the iterations in order. *)
Lemma forEach_returns {A : Type} (xs : list A) (body : A -> M unit) :
  (forall x, outcome (body x) = Returned tt) ->
  forEach xs body = (flat_map (fun x => trace (body x)) xs, Returned tt).
Proof.
  intros Hret. induction xs as [| x xs IH]; [ reflexivity |].
  cbn [forEach flat_map]. rewrite IH.
  specialize (Hret x). destruct (body x) as [t o]. simpl in Hret. subst o.
  reflexivity.
Qed.

Lemma kickFromRoom_run pe userID reason count links room :
  kickFromRoom pe userID reason (count, links) room =
    if DryRun pe then
      ([], Returned ((count + 1)%Z, (links ++ [roomLink room])%list))
    else
      match KickUser pe room userID reason with
      | Some err =>
          ([CallKickUser room userID reason;
            Notice "Failed to kick `%s` from `%s`: %v"
              [AStr userID; AStr room; AErr err]],
           Returned (count, (links ++ [roomLink room])%list))
      | None =>
          ([CallKickUser room userID reason],
           Returned ((count + 1)%Z, (links ++ [roomLink room])%list))
      end.
Proof.
  unfold kickFromRoom, sendNotice, emit, mbind, mret, M_bind, M_ret.
  destruct (DryRun pe); [ reflexivity |].
  cbn [negb app]. destruct (KickUser pe room userID reason); reflexivity.
Qed.

(** The loop over the rooms of a user: every room gets its link; in a dry
    run nothing is sent and every room is counted; otherwise every room is
    sent a kick, and every room is counted when every kick succeeds. *)
Lemma kick_rooms pe userID reason rooms count links :
  exists t count',
    foldEach rooms (count, links) (kickFromRoom pe userID reason)
    = (t, Returned (count', (links ++ map roomLink rooms)%list))
    /\ summarized t = [] /\ reactions t = []
    /\ (DryRun pe = true -> t = [] /\ count' = (count + Z.of_nat (length rooms))%Z)
    /\ (DryRun pe = false ->
        kicks t = map (fun room => (room, userID, reason)) rooms
        /\ ((forall room, KickUser pe room userID reason = None) ->
            List.filter (fun e => negb (isKick e)) t = []
            /\ count' = (count + Z.of_nat (length rooms))%Z)).
Proof.
  revert count links. induction rooms as [| room rooms IH]; intros count links.
  - exists [], count. cbn [foldEach map length]. rewrite app_nil_r, Z.add_0_r.
    repeat split.
  - cbn [foldEach]. rewrite kickFromRoom_run.
    destruct (DryRun pe) eqn:Hdry.
    + destruct (IH (count + 1)%Z (links ++ [roomLink room])%list)
        as (t & count' & Hrun & Hsum & Hre & Hd & _).
      destruct (Hd eq_refl) as [-> ->].
      exists [], (count + Z.of_nat (length (room :: rooms)))%Z.
      rewrite bind_returned, Hrun. cbn [trace outcome fst snd map length app].
      rewrite <- app_assoc. cbn [app].
      split; [ do 3 f_equal; lia |]. repeat split; intros; discriminate.
    + destruct (KickUser pe room userID reason) as [err |] eqn:Hkick.
      * destruct (IH count (links ++ [roomLink room])%list)
          as (t & count' & Hrun & Hsum & Hre & _ & Hr).
        destruct (Hr eq_refl) as [Hk Hall].
        exists (CallKickUser room userID reason
                  :: Notice "Failed to kick `%s` from `%s`: %v"
                       [AStr userID; AStr room; AErr err] :: t), count'.
        rewrite bind_returned, Hrun. cbn [trace outcome fst snd map app].
        rewrite <- app_assoc. cbn [app].
        split; [ reflexivity |]. split; [ exact Hsum |]. split; [ exact Hre |].
        split; [ discriminate |]. intros _.
        split; [ unfold kicks in *; cbn; by rewrite Hk |].
        intros Hnone. rewrite Hnone in Hkick. discriminate.
      * destruct (IH (count + 1)%Z (links ++ [roomLink room])%list)
          as (t & count' & Hrun & Hsum & Hre & _ & Hr).
        destruct (Hr eq_refl) as [Hk Hall].
        exists (CallKickUser room userID reason :: t), count'.
        rewrite bind_returned, Hrun. cbn [trace outcome fst snd map app].
        rewrite <- app_assoc. cbn [app].
        split; [ reflexivity |]. split; [ exact Hsum |]. split; [ exact Hre |].
        split; [ discriminate |]. intros _.
        split; [ unfold kicks in *; cbn; by rewrite Hk |].
        intros Hnone. destruct (Hall Hnone) as [Hf ->].
        split; [ cbn; exact Hf | cbn [length]; lia ].
Qed.

Lemma kickUser_run pe reason userID :
  exists t,
    kickUser pe reason userID = (t, Returned tt)
    /\ summarized t = List.filter (hasRooms pe) [userID]
    /\ reactions t = []
    /\ (DryRun pe = true -> t = kickSummaries pe [userID])
    /\ (DryRun pe = false ->
        kicks t = map (fun room => (room, userID, reason)) (getRoomsUserIsIn pe userID)
        /\ ((forall room, KickUser pe room userID reason = None) ->
            List.filter (fun e => negb (isKick e)) t = kickSummaries pe [userID])).
Proof.
  unfold kickUser, kickSummaries. cbn [List.filter]. unfold hasRooms.
  destruct (getRoomsUserIsIn pe userID) as [| room rooms] eqn:Hrooms.
  - exists []. cbn. repeat split.
  - set (rs := room :: rooms).
    replace ((length rs =? 0)%nat) with false by reflexivity. cbn [negb map].
    destruct (kick_rooms pe userID reason rs 0%Z [])
      as (t & count' & Hrun & Hsum & Hre & Hd & Hr).
    rewrite Hrun, bind_returned. unfold sendNotice, emit.
    cbn [trace outcome fst snd app].
    exists (t ++ [Notice "Kicked `%s` from %d rooms: %s"
                   [AStr userID; AInt count'; AJoin (map roomLink rs) ", "]])%list.
    split; [ reflexivity |].
    split; [ rewrite summarized_app, Hsum; reflexivity |].
    split; [ rewrite reactions_app, Hre; reflexivity |].
    split.
    + intros Hdry. destruct (Hd Hdry) as [-> ->]. rewrite Hrooms. reflexivity.
    + intros Hdry. destruct (Hr Hdry) as [Hk Hall].
      split; [ rewrite kicks_app, Hk; cbn; by rewrite app_nil_r |].
      intros Hnone. destruct (Hall Hnone) as [Hf ->].
      rewrite List.filter_app, Hf, Hrooms. reflexivity.
Qed.

Lemma kick_users pe reason users :
  exists t,
    forEach users (kickUser pe reason) = (t, Returned tt)
    /\ summarized t = List.filter (hasRooms pe) users
    /\ reactions t = []
    /\ (DryRun pe = true -> t = kickSummaries pe users)
    /\ (DryRun pe = false ->
        kicks t = flat_map (fun userID =>
                              map (fun room => (room, userID, reason))
                                  (getRoomsUserIsIn pe userID)) users
        /\ ((forall room userID, KickUser pe room userID reason = None) ->
            List.filter (fun e => negb (isKick e)) t = kickSummaries pe users)).
Proof.
  induction users as [| userID users IH].
  - exists []. repeat split.
  - destruct IH as (t & Hrun & Hsum & Hre & Hd & Hr).
    destruct (kickUser_run pe reason userID)
      as (t1 & Hrun1 & Hsum1 & Hre1 & Hd1 & Hr1).
    exists (t1 ++ t)%list. cbn [forEach]. rewrite Hrun1, bind_returned, Hrun.
    split; [ reflexivity |].
    assert (Hcons : forall (f : string -> bool) (g : string -> Effect),
               map g (List.filter f (userID :: users))
               = (map g (List.filter f [userID]) ++ map g (List.filter f users))%list).
    { intros f g. cbn. destruct (f userID); reflexivity. }
    split.
    { rewrite summarized_app, Hsum1, Hsum. cbn.
      destruct (hasRooms pe userID); reflexivity. }
    split; [ by rewrite reactions_app, Hre1, Hre |].
    split.
    + intros Hdry. rewrite (Hd1 Hdry), (Hd Hdry). unfold kickSummaries.
      by rewrite Hcons.
    + intros Hdry. destruct (Hr1 Hdry) as [Hk1 Hall1], (Hr Hdry) as [Hk Hall].
      split; [ rewrite kicks_app, Hk1, Hk; reflexivity |].
      intros Hnone. rewrite List.filter_app, (Hall1 (fun room => Hnone room userID)), (Hall Hnone).
      unfold kickSummaries. by rewrite Hcons.
Qed.

Lemma switchCmd_kick im pe evtID w args :
  Strings.ToLower w = "!kick" ->
  switchCmd im pe evtID (Strings.ToLower w) args = cmdKick pe evtID args.
Proof. unfold switchCmd. by intros ->. Qed.

(** The arguments of a kick: the optional [--force], the pattern, and the
    words of the reason. *)
Lemma cmdKick_args pe evtID (force : bool) pattern rest :
  (force = false -> pattern <> "--force") ->
  cmdKick pe evtID ((if force then ["--force"] else []) ++ pattern :: rest) =
    (let users := findMatchingUsers pe pattern in
     if (10 <? length users)%nat && negb force then
       sendNotice "%d users matching `%s` found, use `--force` to kick all of them."
         [AInt (Z.of_nat (length users)); AStr pattern]
     else
       forEach users (kickUser pe (Strings.Join rest " ")) ;;
       if (length users =? 0)%nat then
         sendNotice "No users matching `%s` found in any rooms" [AStr pattern]
       else sendSuccessReaction evtID).
Proof.
  intros Hp. unfold cmdKick.
  destruct force; simpl; rewrite index_head, bind_ret.
  - rewrite String.eqb_refl, index_head, bind_ret. reflexivity.
  - destruct (String.eqb_spec pattern "--force") as [e | _]; [ by destruct Hp |].
    rewrite index_head, bind_ret. reflexivity.
Qed.

(** A kick that is not refused: the log line, the loop over the users, and
    the end. *)
Lemma kick_not_refused im pe evt w (force : bool) pattern rest :
  dropped im pe evt = false ->
  Strings.Fields (event.Body evt)
  = w :: (if force then ["--force"] else []) ++ pattern :: rest ->
  Strings.ToLower w = "!kick" ->
  (force = false -> pattern <> "--force") ->
  (10 <? length (findMatchingUsers pe pattern))%nat && negb force = false ->
  exists t,
    forEach (findMatchingUsers pe pattern) (kickUser pe (Strings.Join rest " "))
    = (t, Returned tt)
    /\ HandleCommand im pe evt
       = ((Log "info" "Handling command" :: t
           ++ [kickEnd (event.ID evt) pattern (findMatchingUsers pe pattern)])%list,
          Returned tt).
Proof.
  intros Hd Hf Hw Hp Hgo.
  destruct (kick_users pe (Strings.Join rest " ") (findMatchingUsers pe pattern))
    as (t & Hrun & _).
  exists t. split; [ exact Hrun |].
  rewrite (HandleCommand_accepted _ _ _ _ _ Hd Hf), switchCmd_kick by done.
  rewrite (cmdKick_args _ _ _ _ _ Hp). cbv zeta. rewrite Hgo, Hrun.
  rewrite bind_returned, bind_emit. unfold kickEnd, sendNotice, sendSuccessReaction, emit.
  by destruct (length (findMatchingUsers pe pattern) =? 0)%nat.
Qed.

(** C6: a kick whose pattern matches more than ten users is refused as a
    whole without [--force]: the run is the notice with the count, and no
    kick is sent; with [--force] every matching user is processed: the
    handler returns, every user that is in a room gets a summary, the
    success reaction is sent and, unless the run is a dry run, a kick is
    sent for every room of every user. *)
Theorem C6_kick_threshold im pe evt w (force : bool) pattern rest :
  dropped im pe evt = false ->
  Strings.Fields (event.Body evt)
  = w :: (if force then ["--force"] else []) ++ pattern :: rest ->
  Strings.ToLower w = "!kick" ->
  (force = false -> pattern <> "--force") ->
  (10 < length (findMatchingUsers pe pattern))%nat ->
  let users := findMatchingUsers pe pattern in
  let reason := Strings.Join rest " " in
  let run := HandleCommand im pe evt in
  if force then
    outcome run = Returned tt
    /\ summarized (trace run) = List.filter (hasRooms pe) users
    /\ reactions (trace run) = [event.ID evt]
    /\ (DryRun pe = false ->
        kicks (trace run)
        = flat_map (fun userID =>
                      map (fun room => (room, userID, reason))
                          (getRoomsUserIsIn pe userID)) users)
  else
    run = ([Log "info" "Handling command";
            Notice "%d users matching `%s` found, use `--force` to kick all of them."
              [AInt (Z.of_nat (length users)); AStr pattern]],
           Returned tt)
    /\ kicks (trace run) = []
    /\ reactions (trace run) = [].
Proof.
  intros Hd Hf Hw Hp Hmany. cbv zeta.
  assert (Hlt : (10 <? length (findMatchingUsers pe pattern))%nat = true)
    by by apply Nat.ltb_lt.
  destruct force.
  - destruct (kick_not_refused im pe evt w true pattern rest Hd Hf Hw Hp)
      as (t & Hloop & Hrun); [ by rewrite andb_false_r |].
    destruct (kick_users pe (Strings.Join rest " ") (findMatchingUsers pe pattern))
      as (t' & Hloop' & Hsum & Hre & _ & Hreal).
    rewrite Hloop in Hloop'. injection Hloop' as <-.
    rewrite Hrun. cbn [trace outcome fst snd].
    assert (Hend : kickEnd (event.ID evt) pattern (findMatchingUsers pe pattern)
                   = SuccessReaction (event.ID evt)).
    { unfold kickEnd. destruct (findMatchingUsers pe pattern);
        [ simpl in Hmany; lia | reflexivity ]. }
    rewrite Hend.
    change (Log "info" "Handling command" :: (t ++ [SuccessReaction (event.ID evt)])%list)
      with ([Log "info" "Handling command"] ++ t ++ [SuccessReaction (event.ID evt)])%list.
    rewrite !summarized_app, !reactions_app, !kicks_app, Hsum, Hre.
    split; [ reflexivity |].
    split; [ cbn; by rewrite app_nil_r |].
    split; [ reflexivity |].
    intros Hdry. destruct (Hreal Hdry) as [-> _]. cbn. by rewrite app_nil_r.
  - rewrite (HandleCommand_accepted _ _ _ _ _ Hd Hf), switchCmd_kick by done.
    rewrite (cmdKick_args _ _ _ _ _ Hp). cbv zeta. rewrite Hlt. cbn [negb andb].
    unfold sendNotice. rewrite bind_emit. repeat split.
Qed.

(** C9: a kick in a dry run sends no kick, yet reports every user that is
    in a room as kicked from all of the user's rooms, each room with its
    link; the run is that of an evaluator that is no dry run and whose
    kicks all succeed, less the kicks themselves. *)
Theorem C9_dry_run_kick im pe evt w (force : bool) pattern rest :
  dropped im pe evt = false ->
  Strings.Fields (event.Body evt)
  = w :: (if force then ["--force"] else []) ++ pattern :: rest ->
  Strings.ToLower w = "!kick" ->
  (force = false -> pattern <> "--force") ->
  (length (findMatchingUsers pe pattern) <= 10)%nat \/ force = true ->
  DryRun pe = true ->
  let users := findMatchingUsers pe pattern in
  let run := HandleCommand im pe evt in
  let real := HandleCommand im (realRun pe) evt in
  kicks (trace run) = []
  /\ run = ((Log "info" "Handling command" :: kickSummaries pe users
             ++ [kickEnd (event.ID evt) pattern users])%list,
            Returned tt)
  /\ List.filter (fun e => negb (isKick e)) (trace real) = trace run
  /\ outcome real = outcome run.
Proof.
  intros Hd Hf Hw Hp Hok Hdry. cbv zeta.
  assert (Hgo : (10 <? length (findMatchingUsers pe pattern))%nat && negb force = false).
  { destruct Hok as [Hle | ->]; [| by rewrite andb_false_r ].
    apply andb_false_iff. left. by apply Nat.ltb_ge. }
  destruct (kick_not_refused im pe evt w force pattern rest Hd Hf Hw Hp Hgo)
    as (t & Hloop & Hrun).
  destruct (kick_users pe (Strings.Join rest " ") (findMatchingUsers pe pattern))
    as (t' & Hloop' & _ & _ & Hdryrun & _).
  rewrite Hloop in Hloop'. injection Hloop' as <-.
  rewrite (Hdryrun Hdry) in Hrun.
  destruct (kick_not_refused im (realRun pe) evt w force pattern rest Hd Hf Hw Hp Hgo)
    as (r & Hrloop & Hrrun).
  destruct (kick_users (realRun pe) (Strings.Join rest " ")
              (findMatchingUsers (realRun pe) pattern))
    as (r' & Hrloop' & _ & _ & _ & Hreal).
  rewrite Hrloop in Hrloop'. injection Hrloop' as <-.
  destruct (Hreal eq_refl) as [_ Hfilter]. specialize (Hfilter (fun _ _ => eq_refl)).
  rewrite Hrun, Hrrun. cbn [trace outcome fst snd].
  assert (Hnokick : forall us, kicks (kickSummaries pe us) = []).
  { intros us. unfold kickSummaries. induction (List.filter (hasRooms pe) us); done. }
  split.
  { change (Log "info" "Handling command" :: ?x)%list
      with ([Log "info" "Handling command"] ++ x)%list.
    rewrite !kicks_app, Hnokick. unfold kickEnd.
    destruct (length (findMatchingUsers pe pattern) =? 0)%nat; reflexivity. }
  split; [ reflexivity |].
  split; [| reflexivity ].
  cbn [List.filter isKick negb]. rewrite List.filter_app, Hfilter. f_equal. f_equal.
  unfold kickEnd. cbn.
  destruct (length (findMatchingUsers pe pattern) =? 0)%nat; reflexivity.
Qed.

(** A kick that matches eleven users, without [--force]. *)
Lemma C6_kick_threshold_witness :
  length (findMatchingUsers (deployment.evaluator ∅ deployment.eleven true false) "*")
  = 11%nat
  /\ (HandleCommand deployment.imports
        (deployment.evaluator ∅ deployment.eleven true false)
        (deployment.command "!kick * spam wave")
      = ([Log "info" "Handling command";
          Notice "%d users matching `%s` found, use `--force` to kick all of them."
            [AInt 11; AStr "*"]],
         Returned tt)
      /\ kicks (trace (HandleCommand deployment.imports
                         (deployment.evaluator ∅ deployment.eleven true false)
                         (deployment.command "!kick * spam wave"))) = []
      /\ reactions (trace (HandleCommand deployment.imports
                             (deployment.evaluator ∅ deployment.eleven true false)
                             (deployment.command "!kick * spam wave"))) = []).
Proof.
  split; [ reflexivity |].
  apply (C6_kick_threshold deployment.imports
           (deployment.evaluator ∅ deployment.eleven true false)
           (deployment.command "!kick * spam wave")
           "!kick" false "*" ["spam"; "wave"]).
  - vm_compute; reflexivity.
  - vm_compute; reflexivity.
  - vm_compute; reflexivity.
  - intros _. discriminate.
  - vm_compute. lia.
Defined.

(** With [--force] the same eleven users are all kicked. *)
Example kick_eleven_with_force :
  length (kicks (trace (HandleCommand deployment.imports
                          (deployment.evaluator ∅ deployment.eleven true false)
                          (deployment.command "!kick --force * spam wave"))))
  = 11%nat
  /\ length (summarized (trace (HandleCommand deployment.imports
                                  (deployment.evaluator ∅ deployment.eleven true false)
                                  (deployment.command "!kick --force * spam wave"))))
     = 11%nat.
Proof. split; vm_compute; reflexivity. Qed.

(** A dry run over a user in two rooms and a user in none. *)
Lemma C9_dry_run_kick_witness :
  DryRun (deployment.evaluator ∅ deployment.pair true true) = true
  /\ (kicks (trace (HandleCommand deployment.imports
                      (deployment.evaluator ∅ deployment.pair true true)
                      (deployment.command "!kick * flooding"))) = []
      /\ HandleCommand deployment.imports
           (deployment.evaluator ∅ deployment.pair true true)
           (deployment.command "!kick * flooding")
         = ([Log "info" "Handling command";
             Notice "Kicked `%s` from %d rooms: %s"
               [AStr "@a:example.org"; AInt 2;
                AJoin [roomLink "!r1:example.org"; roomLink "!r2:example.org"] ", "];
             SuccessReaction "$command"],
            Returned tt)
      /\ List.filter (fun e => negb (isKick e))
           (trace (HandleCommand deployment.imports
                     (realRun (deployment.evaluator ∅ deployment.pair true true))
                     (deployment.command "!kick * flooding")))
         = trace (HandleCommand deployment.imports
                    (deployment.evaluator ∅ deployment.pair true true)
                    (deployment.command "!kick * flooding"))
      /\ outcome (HandleCommand deployment.imports
                    (realRun (deployment.evaluator ∅ deployment.pair true true))
                    (deployment.command "!kick * flooding"))
         = outcome (HandleCommand deployment.imports
                      (deployment.evaluator ∅ deployment.pair true true)
                      (deployment.command "!kick * flooding"))).
Proof.
  split; [ reflexivity |].
  apply (C9_dry_run_kick deployment.imports
           (deployment.evaluator ∅ deployment.pair true true)
           (deployment.command "!kick * flooding")
           "!kick" false "*" ["flooding"]).
  - vm_compute; reflexivity.
  - vm_compute; reflexivity.
  - vm_compute; reflexivity.
  - intros _. discriminate.
  - left. vm_compute. lia.
  - reflexivity.
Defined.

(** ** What a ban publishes *)

Lemma published_app (t1 t2 : list Effect) :
  published (t1 ++ t2) = (published t1 ++ published t2)%list.
Proof. apply omap_app. Qed.

(** A ban or takedown that the summary does not block publishes one policy
    in the list: under the state key found by the scan of the match or,
    when there is none, under the derived identifier. *)
Lemma ban_publishes im pe evt w (hash : bool) L E rest list entityType :
  dropped im pe evt = false ->
  Strings.Fields (event.Body evt)
  = w :: (if hash then ["--hash"] else []) ++ L :: E :: rest ->
  Strings.ToLower w = "!ban" \/ Strings.ToLower w = "!takedown" ->
  (hash = false -> L <> "--hash") ->
  FindListByShortcode pe L = Some list ->
  validateEntity E = Some entityType ->
  (forall rec,
      BanOrUnban im (MatchExact pe (GetWatchedLists pe) entityType E) = Some rec ->
      Recommendation rec <> PolicyRecommendationUnban im) ->
  let content := banContent im (Strings.ToLower w) E (Strings.Join rest " ") hash in
  published (trace (HandleCommand im pe evt))
  = [(ListRoomID list, entityType,
      identifierFor
        (existingStateKeyIn (ListRoomID list) E
           (MatchExact pe (GetWatchedLists pe) entityType E))
        E (event.Recommendation content),
      content)]
  /\ outcome (HandleCommand im pe evt) = Returned tt.
Proof.
  intros Hd Hf Hw HL Hlist Het Hfree content.
  rewrite (HandleCommand_accepted _ _ _ _ _ Hd Hf), switchCmd_ban by done.
  rewrite (cmdBan_args _ _ _ _ _ _ _ _ _ _ HL Hlist Het). cbv zeta.
  rewrite bind_emit. cbn [trace outcome fst snd].
  set (send := SendPolicy _ _ _ _ _ _ ≫= _).
  assert (Hsend : published (trace send)
                  = [(ListRoomID list, entityType,
                      identifierFor
                        (existingStateKeyIn (ListRoomID list) E
                           (MatchExact pe (GetWatchedLists pe) entityType E))
                        E (event.Recommendation content),
                      content)]
                  /\ outcome send = Returned tt).
  { subst send. rewrite SendPolicy_run. cbv zeta. rewrite bind_returned.
    fold content. unfold identifierFor.
    destruct (SendStateEvent pe _ _ _ _); split; reflexivity. }
  destruct (BanOrUnban im (MatchExact pe (GetWatchedLists pe) entityType E))
    as [rec |] eqn:Hrec; [| exact Hsend ].
  destruct (String.eqb_spec (Recommendation rec) (PolicyRecommendationUnban im))
    as [Heq | _]; [ by destruct (Hfree rec eq_refl) | exact Hsend ].
Qed.

(** ** The report bridge against the command path (C4) *)

Lemma HandleReport_resolved im pe senderClient targetUserID roomID eventID reason target :
  resolvedTarget senderClient targetUserID roomID eventID = inr target ->
  published (trace (HandleReport im pe senderClient targetUserID roomID eventID reason))
  = published (trace (handleResolved im pe (ClientUserID senderClient) target
                        roomID eventID reason))
  /\ outcome (HandleReport im pe senderClient targetUserID roomID eventID reason)
     = outcome (handleResolved im pe (ClientUserID senderClient) target
                  roomID eventID reason).
Proof.
  unfold resolvedTarget, HandleReport. intros Hres.
  destruct (String.eqb eventID ""); cbn [negb].
  - injection Hres as ->. split; reflexivity.
  - rewrite Hres, bind_emit. split; reflexivity.
Qed.

(** The nested [/ban] of an administrator's report. *)
Lemma handleResolved_ban im pe sender target roomID eventID reason slashBan L words :
  sender ∈ Admins pe ->
  Strings.HasPrefix reason "/" = true ->
  target <> "" ->
  Strings.Fields reason = slashBan :: L :: words ->
  Strings.ToLower (Strings.TrimPrefix slashBan "/") = "ban" ->
  handleResolved im pe sender target roomID eventID reason
  = reportBan im pe sender target (L :: words).
Proof.
  intros Hadm Hpre Hne Hf Hban. unfold handleResolved.
  rewrite bool_decide_eq_true_2, Hpre by done.
  destruct (String.eqb_spec target "") as [e | _]; [ by destruct Hne |].
  cbn [negb orb]. rewrite Hf. cbv zeta. rewrite index_head, bind_ret, Hban.
  reflexivity.
Qed.

(** C4, as the code has it: for an administrator's report [/ban <list>
    <reason...>] on a resolved user and the command [!ban <list> <user>
    <reason...>] over the same match, a standing unban blocks both paths;
    with no standing record both publish the same policy, the report under
    the derived identifier and the command under the identifier its scan
    reuses, which is the derived one when the scan finds none; and a
    standing ban makes the report fail with its own conflict error and
    publish nothing, where the command publishes again. *)
Theorem C4_report_against_command im pe evt senderClient targetUserID roomID eventID
        reason w slashBan L target word words list :
  dropped im pe evt = false ->
  Strings.Fields (event.Body evt) = w :: L :: target :: word :: words ->
  Strings.ToLower w = "!ban" ->
  L <> "--hash" ->
  ClientUserID senderClient ∈ Admins pe ->
  Strings.HasPrefix reason "/" = true ->
  Strings.Fields reason = slashBan :: L :: word :: words ->
  Strings.ToLower (Strings.TrimPrefix slashBan "/") = "ban" ->
  resolvedTarget senderClient targetUserID roomID eventID = inr target ->
  validateEntity target = Some EntityTypeUser ->
  FindListByShortcode pe L = Some list ->
  MatchUser pe (GetWatchedLists pe) target
  = MatchExact pe (GetWatchedLists pe) EntityTypeUser target ->
  let match_ := MatchExact pe (GetWatchedLists pe) EntityTypeUser target in
  let existing := existingStateKeyIn (ListRoomID list) target match_ in
  let content :=
    {| event.Entity := target;
       event.Reason := Strings.Join (word :: words) " ";
       event.Recommendation := PolicyRecommendationBan im;
       event.UnstableHashes := None |} in
  let command := HandleCommand im pe evt in
  let report := HandleReport im pe senderClient targetUserID roomID eventID reason in
  match BanOrUnban im match_ with
  | Some rec =>
      if String.eqb (Recommendation rec) (PolicyRecommendationUnban im) then
        published (trace command) = []
        /\ published (trace report) = []
        /\ outcome report
           = Returned (Some (RespError "FI.MAU.MEOWLNIR.UNBAN_RECOMMENDED"
                               "%s has an unban recommendation: %s"
                               [AStr target; AStr (Reason rec)] StatusConflict))
      else
        published (trace command)
        = [(ListRoomID list, EntityTypeUser,
            identifierFor existing target (PolicyRecommendationBan im), content)]
        /\ published (trace report) = []
        /\ outcome report
           = Returned (Some (RespError "FI.MAU.MEOWLNIR.ALREADY_BANNED"
                               "%s is already banned for: %s"
                               [AStr target; AStr (Reason rec)] StatusConflict))
  | None =>
      published (trace command)
      = [(ListRoomID list, EntityTypeUser,
          identifierFor existing target (PolicyRecommendationBan im), content)]
      /\ published (trace report)
         = [(ListRoomID list, EntityTypeUser,
             derivedIdentifier target (PolicyRecommendationBan im), content)]
      /\ (existing = "" -> published (trace report) = published (trace command))
  end.
Proof.
  intros Hd Hf Hw HL Hadm Hpre Hrf Hban Hres Het Hlist Hsame. cbv zeta.
  assert (Hne : target <> "") by (intros ->; discriminate).
  destruct (HandleReport_resolved im pe senderClient targetUserID roomID eventID
              reason target Hres) as [-> ->].
  rewrite (handleResolved_ban _ _ _ _ _ _ _ _ _ _ Hadm Hpre Hne Hrf Hban).
  unfold reportBan. cbn [length Nat.ltb Nat.leb]. rewrite Hsame.
  assert (Hcontent : banContent im (Strings.ToLower w) target
                       (Strings.Join (word :: words) " ") false
                     = {| event.Entity := target;
                          event.Reason := Strings.Join (word :: words) " ";
                          event.Recommendation := PolicyRecommendationBan im;
                          event.UnstableHashes := None |}).
  { unfold banContent. rewrite Hw. reflexivity. }
  destruct (BanOrUnban im (MatchExact pe (GetWatchedLists pe) EntityTypeUser target))
    as [rec |] eqn:Hrec.
  - destruct (String.eqb_spec (Recommendation rec) (PolicyRecommendationUnban im))
      as [Hun | Hnot].
    + destruct (ban_blocked_by_unban im pe evt w false L target (word :: words)
                  list EntityTypeUser rec Hd Hf (or_introl Hw) (fun _ => HL)
                  Hlist Het Hrec Hun) as (_ & Hp & _).
      by rewrite Hp.
    + assert (Hfree : forall rec',
                 BanOrUnban im (MatchExact pe (GetWatchedLists pe) EntityTypeUser target)
                 = Some rec' ->
                 Recommendation rec' <> PolicyRecommendationUnban im).
      { intros rec' Hrec'. rewrite Hrec in Hrec'. by injection Hrec' as <-. }
      destruct (ban_publishes im pe evt w false L target (word :: words)
                  list EntityTypeUser Hd Hf (or_introl Hw) (fun _ => HL)
                  Hlist Het Hfree) as [Hp _].
      rewrite Hcontent in Hp. by rewrite Hp.
  - assert (Hfree : forall rec',
               BanOrUnban im (MatchExact pe (GetWatchedLists pe) EntityTypeUser target)
               = Some rec' ->
               Recommendation rec' <> PolicyRecommendationUnban im).
    { intros rec' Hrec'. rewrite Hrec in Hrec'. discriminate. }
    destruct (ban_publishes im pe evt w false L target (word :: words)
                list EntityTypeUser Hd Hf (or_introl Hw) (fun _ => HL)
                Hlist Het Hfree) as [Hp _].
    rewrite Hcontent in Hp. rewrite Hp.
    rewrite index_head, bind_ret, Hlist, SendPolicy_run. cbv zeta.
    rewrite bind_returned. cbn [drop].
    assert (Hrep : forall k, published
              (trace (let resp := SendStateEvent pe (ListRoomID list) EntityTypeUser k
                                    {| event.Entity := target;
                                       event.Reason := Strings.Join (word :: words) " ";
                                       event.Recommendation := PolicyRecommendationBan im;
                                       event.UnstableHashes := None |} in
                      match resp with
                      | inl err =>
                          sendNotice "Failed to handle [%s](%s)'s report of [%s](%s) for %s ([%s](%s)): %v"
                            [AStr (ClientUserID senderClient); AURL (ClientUserID senderClient);
                             AStr target; AURL target; AStr (Name list);
                             AStr (ListRoomID list); AURL (ListRoomID list); AErr err] ;;
                          mret (Some (Errorf "failed to send policy: %w" err))
                      | inr _ =>
                          emit (Log "info" "Sent ban policy from report") ;;
                          sendNotice "Processed [%s](%s)'s report of [%s](%s) and sent a ban policy to %s ([%s](%s)) for %s"
                            [AStr (ClientUserID senderClient); AURL (ClientUserID senderClient);
                             AStr target; AURL target; AStr (Name list);
                             AStr (ListRoomID list); AURL (ListRoomID list);
                             AStr (Strings.Join (word :: words) " ")] ;;
                          mret None
                      end)) = []).
    { intros k. cbv zeta. destruct (SendStateEvent pe _ _ _ _); reflexivity. }
    cbn [trace fst String.eqb]. rewrite published_app.
    cbv zeta in Hrep. cbn [event.Recommendation event.Reason]. rewrite Hrep.
    split; [ reflexivity |]. split; [ reflexivity |].
    intros ->. reflexivity.
Qed.

(** A report and a command on a user with no record: the same policy. *)
Lemma C4_report_against_command_witness :
  published
    (trace (HandleReport deployment.imports (deployment.evaluator ∅ [] true false)
              deployment.admin "@u:x" "" "" "/ban spam rude words"))
  = published
      (trace (HandleCommand deployment.imports (deployment.evaluator ∅ [] true false)
                (deployment.command "!ban spam @u:x rude words"))).
Proof.
  assert (Hadm : "@admin:example.org" ∈ Admins (deployment.evaluator ∅ [] true false)).
  { apply (bool_decide_eq_true_1 _). vm_compute. reflexivity. }
  pose proof (C4_report_against_command deployment.imports
                (deployment.evaluator ∅ [] true false)
                (deployment.command "!ban spam @u:x rude words")
                deployment.admin "@u:x" "" "" "/ban spam rude words"
                "!ban" "/ban" "spam" "@u:x" "rude" ["words"] deployment.spamList
                ltac:(vm_compute; reflexivity) ltac:(vm_compute; reflexivity)
                ltac:(vm_compute; reflexivity) ltac:(discriminate)
                Hadm
                ltac:(vm_compute; reflexivity) ltac:(vm_compute; reflexivity)
                ltac:(vm_compute; reflexivity) ltac:(vm_compute; reflexivity)
                ltac:(vm_compute; reflexivity) ltac:(vm_compute; reflexivity)
                ltac:(reflexivity)) as H.
  cbv zeta in H.
  assert (Hnone : BanOrUnban deployment.imports
                    (MatchExact (deployment.evaluator ∅ [] true false)
                       (GetWatchedLists (deployment.evaluator ∅ [] true false))
                       EntityTypeUser "@u:x") = None)
    by (vm_compute; reflexivity).
  rewrite Hnone in H. destruct H as (_ & _ & H). apply H.
  vm_compute. reflexivity.
Defined.

(** C4 as stated fails: where a ban stands, the command publishes again
    under the identifier of the standing record, and the report of an
    administrator publishes nothing and fails with its own error. *)
Lemma C4_paths_diverge_on_standing_ban :
  published
    (trace (HandleCommand deployment.imports
              (deployment.evaluator deployment.banned [] true false)
              (deployment.command "!ban spam @u:x rude")))
  = [(deployment.listRoom, EntityTypeUser, "k1",
      deployment.policy "@u:x" "m.ban" "rude")]
  /\ HandleReport deployment.imports
       (deployment.evaluator deployment.banned [] true false)
       deployment.admin "@u:x" "" "" "/ban spam rude"
     = ([], Returned (Some (RespError "FI.MAU.MEOWLNIR.ALREADY_BANNED"
                              "%s is already banned for: %s"
                              [AStr "@u:x"; AStr "spam"] 409))).
Proof. split; vm_compute; reflexivity. Qed.

(** ** The removal commands (C8) *)

Lemma switchCmd_remove im pe evtID w args :
  Strings.ToLower w = "!remove-ban" \/ Strings.ToLower w = "!remove-unban"
  \/ Strings.ToLower w = "!remove-policy" ->
  switchCmd im pe evtID (Strings.ToLower w) args
  = cmdRemove im pe evtID (Strings.ToLower w) args.
Proof. unfold switchCmd. by intros [-> | [-> | ->]]. Qed.

Lemma published_log (level message : string) (t : list Effect) :
  published (Log level message :: t) = published t.
Proof. reflexivity. Qed.

(** A removal that goes through publishes the empty content once. *)
Lemma remove_sends pe evtID room entityType stateKey target :
  let send :=
    resp ← SendPolicy pe room entityType stateKey target event.empty;
    match resp with
    | inl err => sendNotice "Failed to remove policy: %v" [AErr err]
    | inr _ =>
        emit (Log "info" "Removed policy from command") ;;
        sendSuccessReaction evtID
    end in
  published (trace send)
  = [(room, entityType, identifierFor stateKey target "", event.empty)]
  /\ outcome send = Returned tt.
Proof.
  cbv zeta. rewrite SendPolicy_run. cbv zeta. rewrite bind_returned.
  unfold identifierFor. cbn [event.Recommendation event.empty].
  destruct (SendStateEvent pe _ _ _ _); split; reflexivity.
Qed.

(** C8, as the code has it: a removal on a list and an entity for which the
    exact-match query on that list alone returns nothing reports that there
    is nothing to remove and publishes nothing; when the summary of the
    match names a record, [!remove-unban] is refused unless the record is an
    unban and [!remove-ban] unless it is a ban, each with its notice, and
    otherwise (the kinds agree, or the verb is [!remove-policy]) the empty
    content is published in the list under the state key of the record, or
    under the derived identifier when that key is empty. *)
Theorem C8_removal im pe evt w L E rest list entityType :
  dropped im pe evt = false ->
  Strings.Fields (event.Body evt) = w :: L :: E :: rest ->
  Strings.ToLower w = "!remove-ban" \/ Strings.ToLower w = "!remove-unban"
  \/ Strings.ToLower w = "!remove-policy" ->
  FindListByShortcode pe L = Some list ->
  validateEntity E = Some entityType ->
  let match_ := MatchExact pe [ListRoomID list] entityType E in
  let run := HandleCommand im pe evt in
  (match_ = [] ->
   run = ([Log "info" "Handling command";
           Notice "No rule banning `%s` found in [%s](%s)"
             [AStr E; AStr (Name list); AURL (ListRoomID list)]],
          Returned tt))
  /\ (forall rec,
         match_ <> [] ->
         BanOrUnban im match_ = Some rec ->
         (Strings.ToLower w = "!remove-unban" ->
          Recommendation rec <> PolicyRecommendationUnban im ->
          run = ([Log "info" "Handling command";
                  Notice "`%s` does not have an unban recommendation" [AStr E]],
                 Returned tt))
         /\ (Strings.ToLower w = "!remove-ban" ->
             Recommendation rec <> PolicyRecommendationBan im ->
             run = ([Log "info" "Handling command";
                     Notice "`%s` does not have a ban recommendation" [AStr E]],
                    Returned tt))
         /\ (Strings.ToLower w = "!remove-policy"
             \/ (Strings.ToLower w = "!remove-unban"
                 /\ Recommendation rec = PolicyRecommendationUnban im)
             \/ (Strings.ToLower w = "!remove-ban"
                 /\ Recommendation rec = PolicyRecommendationBan im) ->
             published (trace run)
             = [(ListRoomID list, entityType,
                 identifierFor (StateKey rec) E "", event.empty)]
             /\ (StateKey rec <> "" -> publishedKeys (trace run) = [StateKey rec])
             /\ outcome run = Returned tt)).
Proof.
  intros Hd Hf Hw Hlist Het. cbv zeta.
  rewrite (HandleCommand_accepted _ _ _ _ _ Hd Hf), switchCmd_remove by done.
  unfold cmdRemove. cbn [length Nat.ltb Nat.leb].
  rewrite index_head, bind_ret, Hlist, index_second, bind_ret, Het.
  split.
  - intros ->. cbn [length Nat.eqb]. unfold sendNotice. by rewrite bind_emit.
  - intros rec Hne Hrec.
    destruct (MatchExact pe [ListRoomID list] entityType E) as [| p m] eqn:Hm;
      [ by destruct Hne |].
    cbn [length Nat.eqb]. rewrite Hrec, bind_emit. cbn [trace outcome fst snd].
    destruct (remove_sends pe (event.ID evt) (ListRoomID list) entityType
                (StateKey rec) E) as [Hpub Hout].
    cbv zeta in Hpub, Hout.
    split; [| split ].
    + intros Hv Hnot. rewrite Hv. cbn [String.eqb Ascii.eqb Bool.eqb andb].
      apply String.eqb_neq in Hnot. rewrite Hnot. reflexivity.
    + intros Hv Hnot. rewrite Hv.
      apply String.eqb_neq in Hnot. rewrite Hnot. reflexivity.
    + intros Hgo.
      assert (Hpass :
                (String.eqb (Strings.ToLower w) "!remove-unban"
                 && negb (String.eqb (Recommendation rec) (PolicyRecommendationUnban im))
                 = false)
                /\ (String.eqb (Strings.ToLower w) "!remove-ban"
                    && negb (String.eqb (Recommendation rec) (PolicyRecommendationBan im))
                    = false)).
      { destruct Hgo as [-> | [[-> ->] | [-> ->]]]; rewrite ?String.eqb_refl;
          split; reflexivity. }
      destruct Hpass as [-> ->]. cbv beta iota.
      unfold publishedKeys. rewrite !published_log, Hpub. split; [ reflexivity |]. split; [| exact Hout ].
      intros Hkey. cbn. unfold identifierFor.
      apply String.eqb_neq in Hkey. by rewrite Hkey.
Qed.

(** Removals over a standing ban, and over the empty store. *)
Lemma C8_removal_witness :
  published
    (trace (HandleCommand deployment.imports
              (deployment.evaluator deployment.banned [] true false)
              (deployment.command "!remove-ban spam @u:x")))
  = [(deployment.listRoom, EntityTypeUser, "k1", event.empty)]
  /\ HandleCommand deployment.imports
       (deployment.evaluator deployment.banned [] true false)
       (deployment.command "!remove-unban spam @u:x")
     = ([Log "info" "Handling command";
         Notice "`%s` does not have an unban recommendation" [AStr "@u:x"]],
        Returned tt)
  /\ HandleCommand deployment.imports
       (deployment.evaluator ∅ [] true false)
       (deployment.command "!remove-policy spam @u:x")
     = ([Log "info" "Handling command";
         Notice "No rule banning `%s` found in [%s](%s)"
           [AStr "@u:x"; AStr "Spam list"; AURL deployment.listRoom]],
        Returned tt).
Proof.
  pose (found := store.toPolicy
                   (deployment.listRoom, EntityTypeUser, "k1",
                    deployment.policy "@u:x" "m.ban" "spam")).
  split; [| split ].
  - apply (proj2 (C8_removal deployment.imports
                    (deployment.evaluator deployment.banned [] true false)
                    (deployment.command "!remove-ban spam @u:x")
                    "!remove-ban" "spam" "@u:x" [] deployment.spamList EntityTypeUser
                    ltac:(vm_compute; reflexivity) ltac:(vm_compute; reflexivity)
                    ltac:(left; vm_compute; reflexivity)
                    ltac:(vm_compute; reflexivity) ltac:(vm_compute; reflexivity))
                 found ltac:(vm_compute; discriminate) ltac:(vm_compute; reflexivity)).
    right. right. split; vm_compute; reflexivity.
  - apply (proj2 (C8_removal deployment.imports
                    (deployment.evaluator deployment.banned [] true false)
                    (deployment.command "!remove-unban spam @u:x")
                    "!remove-unban" "spam" "@u:x" [] deployment.spamList EntityTypeUser
                    ltac:(vm_compute; reflexivity) ltac:(vm_compute; reflexivity)
                    ltac:(right; left; vm_compute; reflexivity)
                    ltac:(vm_compute; reflexivity) ltac:(vm_compute; reflexivity))
                 found ltac:(vm_compute; discriminate) ltac:(vm_compute; reflexivity)).
    + vm_compute; reflexivity.
    + vm_compute; discriminate.
  - apply (proj1 (C8_removal deployment.imports
                    (deployment.evaluator ∅ [] true false)
                    (deployment.command "!remove-policy spam @u:x")
                    "!remove-policy" "spam" "@u:x" [] deployment.spamList EntityTypeUser
                    ltac:(vm_compute; reflexivity) ltac:(vm_compute; reflexivity)
                    ltac:(right; right; vm_compute; reflexivity)
                    ltac:(vm_compute; reflexivity) ltac:(vm_compute; reflexivity))).
    vm_compute; reflexivity.
Defined.

(** C8 as stated fails: the ban found for [@u:x] has the empty state key,
    the kinds agree and the removal goes through, yet the empty content is
    published under the derived identifier, not under the key of the record
    found, which stays in the store. *)
Lemma C8_found_identifier_not_reused :
  BanOrUnban deployment.imports
    (MatchExact (deployment.evaluator deployment.bannedUnderEmptyKey [] true false)
       [deployment.listRoom] EntityTypeUser "@u:x")
  = Some (store.toPolicy (deployment.listRoom, EntityTypeUser, "",
                          deployment.policy "@u:x" "m.ban" "spam"))
  /\ HandleCommand deployment.imports
       (deployment.evaluator deployment.bannedUnderEmptyKey [] true false)
       (deployment.command "!remove-ban spam @u:x")
     = ([Log "info" "Handling command";
         CallSendStateEvent deployment.listRoom EntityTypeUser
           "IyZfFZps/N/rMFWelhmLSbGC2o2MW/c41Z/vkwtRx+4=" event.empty;
         Log "info" "Removed policy from command";
         SuccessReaction "$command"],
        Returned tt)
  /\ store.publish deployment.listRoom EntityTypeUser
       "IyZfFZps/N/rMFWelhmLSbGC2o2MW/c41Z/vkwtRx+4=" event.empty
       deployment.bannedUnderEmptyKey
     !! (deployment.listRoom, EntityTypeUser, "")
     = Some (deployment.policy "@u:x" "m.ban" "spam").
Proof. repeat split; vm_compute; reflexivity. Qed.

(** ** The derived identifier is never empty *)

Lemma round_length h kw : length h = 8%nat -> length (sha256.round h kw) = 8%nat.
Proof.
  intros Hlen. do 9 (destruct h as [| ? h]; try discriminate). reflexivity.
Qed.

Lemma rounds_length kws h :
  length h = 8%nat -> length (fold_left sha256.round kws h) = 8%nat.
Proof.
  revert h. induction kws as [| kw kws IH]; intros h Hlen; [ exact Hlen |].
  cbn [fold_left]. apply IH, round_length, Hlen.
Qed.

Lemma compress_length h block :
  length h = 8%nat -> length (sha256.compress h block) = 8%nat.
Proof.
  intros Hlen. unfold sha256.compress.
  rewrite length_map, length_combine, rounds_length, Hlen by exact Hlen.
  reflexivity.
Qed.

Lemma blocks_length n h bs :
  length h = 8%nat -> length (sha256.blocks n h bs) = 8%nat.
Proof.
  revert h bs. induction n as [| n IH]; intros h bs Hlen; [ exact Hlen |].
  cbn [sha256.blocks]. apply IH, compress_length, Hlen.
Qed.

(** A digest has thirty-two bytes. *)
Lemma Sum256_length msg : length (sha256.Sum256 msg) = 32%nat.
Proof.
  unfold sha256.Sum256.
  pose proof (blocks_length (length (sha256.pad msg) / 64) sha256.H0
                (sha256.pad msg) eq_refl) as Hlen.
  destruct (sha256.blocks _ _ _) as [| a h]; [ discriminate |].
  do 8 (destruct h as [| ? h]; try discriminate). reflexivity.
Qed.

Lemma EncodeToString_empty src : base64.EncodeToString src = "" -> src = [].
Proof. destruct src as [| a [| b [| c rest]]]; [ done | discriminate.. ]. Qed.

Lemma derivedIdentifier_not_empty rawEntity tag :
  derivedIdentifier rawEntity tag <> "".
Proof.
  unfold derivedIdentifier. intros Hempty.
  apply EncodeToString_empty in Hempty.
  pose proof (Sum256_length (Strings.bytes (rawEntity ++ tag))) as Hlen.
  rewrite Hempty in Hlen. discriminate.
Qed.

Lemma identifierFor_not_empty stateKey rawEntity tag :
  identifierFor stateKey rawEntity tag <> "".
Proof.
  unfold identifierFor.
  destruct (String.eqb_spec stateKey "") as [_ | Hne];
    [ apply derivedIdentifier_not_empty | exact Hne ].
Qed.

(** ** The store *)

Lemma MatchExact_elem (s : store.Store) lists entityType value p :
  p ∈ store.MatchExact s lists entityType value <->
  exists room stateKey content,
    s !! (room, entityType, stateKey) = Some content
    /\ room ∈ lists
    /\ store.holds value content = true
    /\ p = store.toPolicy (room, entityType, stateKey, content).
Proof.
  unfold store.MatchExact. rewrite list_elem_of_In, in_map_iff. split.
  - intros ([[[room et] stateKey] content] & <- & Hin).
    apply filter_In in Hin as [Hin Hsel].
    apply list_elem_of_In, elem_of_map_to_list in Hin.
    unfold store.selects in Hsel.
    apply andb_true_iff in Hsel as [Hsel Hholds].
    apply andb_true_iff in Hsel as [Hroom Het].
    apply bool_decide_eq_true in Hroom, Het. subst et.
    by exists room, stateKey, content.
  - intros (room & stateKey & content & Hlook & Hroom & Hholds & ->).
    exists (room, entityType, stateKey, content). split; [ reflexivity |].
    apply filter_In. split.
    + by apply list_elem_of_In, elem_of_map_to_list.
    + unfold store.selects. rewrite Hholds.
      by rewrite !bool_decide_eq_true_2.
Qed.


(** The scan of a match keeps the empty key when no policy of the list is on
    the entity, and otherwise ends with the key of one that is. *)
Lemma scan_spec room entity (m : Match) :
  (existingStateKeyIn room entity m = ""
   /\ forall p, p ∈ m -> ~ (RoomID p = room /\ Entity p = entity))
  \/ (exists p, p ∈ m /\ RoomID p = room /\ Entity p = entity
                /\ existingStateKeyIn room entity m = StateKey p).
Proof.
  unfold existingStateKeyIn.
  set (step := fun (existingStateKey : string) (policy : Policy) =>
                 if String.eqb (RoomID policy) room && String.eqb (Entity policy) entity
                 then StateKey policy else existingStateKey).
  assert (Hgen : forall acc,
             (fold_left step m acc = acc
              /\ forall p, p ∈ m -> ~ (RoomID p = room /\ Entity p = entity))
             \/ (exists p, p ∈ m /\ RoomID p = room /\ Entity p = entity
                           /\ fold_left step m acc = StateKey p)).
  { induction m as [| q m IH]; intros acc.
    - left. split; [ reflexivity |]. intros p Hp. by apply elem_of_nil in Hp.
    - cbn [fold_left].
      destruct (String.eqb (RoomID q) room && String.eqb (Entity q) entity) eqn:Hq.
      + right. apply andb_true_iff in Hq as [Hr He].
        apply String.eqb_eq in Hr, He.
        destruct (IH (step acc q)) as [[Hfold Hnone] | (p & Hp & Hpr & Hpe & Hfold)].
        * exists q. split; [ by left |]. split; [ done |]. split; [ done |].
          rewrite Hfold. unfold step. by rewrite Hr, He, !String.eqb_refl.
        * exists p. split; [ by right |]. done.
      + assert (Hstep : step acc q = acc) by (unfold step; by rewrite Hq).
        rewrite Hstep.
        destruct (IH acc) as [[Hfold Hnone] | (p & Hp & Hpr & Hpe & Hfold)].
        * left. split; [ exact Hfold |]. intros p Hp [Hr He].
          apply elem_of_cons in Hp as [-> | Hp]; [| by apply (Hnone p) ].
          by rewrite Hr, He, !String.eqb_refl in Hq.
        * right. exists p. split; [ by right |]. done. }
  apply Hgen.
Qed.


Lemma scan_not_found (s : store.Store) lists room entityType entity :
  (forall k c, s !! (room, entityType, k) = Some c -> event.Entity c <> entity) ->
  existingStateKeyIn room entity (store.MatchExact s lists entityType entity) = "".
Proof.
  intros Hnone.
  destruct (scan_spec room entity (store.MatchExact s lists entityType entity))
    as [[Hscan _] | (p & Hp & Hpr & Hpe & _)]; [ exact Hscan |].
  apply MatchExact_elem in Hp as (room' & key & c & Hlook' & _ & _ & ->).
  cbn in Hpr, Hpe. subst room'. by destruct (Hnone key c Hlook').
Qed.


(** ** Reuse of the identifier by a ban (C1) *)





(** Twice the same ban on the empty store: both under the derived
    identifier. *)
Example ban_twice_from_empty :
  publishedKeys
    (trace (HandleCommand deployment.imports (deployment.evaluator ∅ [] true false)
              (deployment.command "!ban spam @u:x spam")))
  = ["eUBgEtkYkXxlXZWqXTp0f1QSEW60L/7Hm/S++TMq824="]
  /\ publishedKeys
       (trace (HandleCommand deployment.imports
                 (onStore (deployment.evaluator ∅ [] true false)
                    (storeAfter (deployment.evaluator ∅ [] true false)
                       (trace (HandleCommand deployment.imports
                                 (deployment.evaluator ∅ [] true false)
                                 (deployment.command "!ban spam @u:x spam")))
                       ∅))
                 (deployment.command "!ban spam @u:x spam")))
     = ["eUBgEtkYkXxlXZWqXTp0f1QSEW60L/7Hm/S++TMq824="].
Proof. split; vm_compute; reflexivity. Qed.


(** With a summary that names ban and unban records only, as the spec words
    it, a removal over a match that holds a takedown alone finds no record
    to check or reuse: the empty content goes out under the derived
    identifier and the takedown stays. *)
Example removal_without_summary :
  BanOrUnban deployment.imports
    (MatchExact (deployment.evaluator deployment.takenDown [] true false)
       [deployment.listRoom] EntityTypeUser "@u:x") = None
  /\ published
       (trace (HandleCommand deployment.imports
                 (deployment.evaluator deployment.takenDown [] true false)
                 (deployment.command "!remove-policy spam @u:x")))
     = [(deployment.listRoom, EntityTypeUser,
         "IyZfFZps/N/rMFWelhmLSbGC2o2MW/c41Z/vkwtRx+4=", event.empty)].
Proof. split; vm_compute; reflexivity. Qed.

(* ===================================================================== *)
(** * Further properties of the handlers                                   *)
(* ===================================================================== *)

(** ** The classifier of entities *)

Lemma span_spec (p : ascii -> bool) cs :
  let '(yes, no) := span p cs in
  cs = (yes ++ no)%list /\ forallb p yes = true
  /\ match no with [] => True | c :: _ => p c = false end.
Proof.
  induction cs as [| c cs IH]; [ done |].
  cbn [span]. destruct (p c) eqn:Hc.
  - destruct (span p cs) as [yes no]. destruct IH as (-> & Hyes & Hno).
    cbn. by rewrite Hc.
  - done.
Qed.

Lemma span_app (p : ascii -> bool) yes no :
  forallb p yes = true ->
  match no with [] => True | c :: _ => p c = false end ->
  span p (yes ++ no) = (yes, no).
Proof.
  intros Hyes Hno. induction yes as [| c yes IH].
  - destruct no as [| c no]; [ done |]. cbn. by rewrite Hno.
  - cbn in Hyes |- *. apply andb_true_iff in Hyes as [-> Hyes].
    by rewrite (IH Hyes).
Qed.

Lemma forallb_rev {A : Type} (p : A -> bool) (l : list A) :
  forallb p (rev l) = forallb p l.
Proof.
  induction l as [| x l IH]; [ done |].
  cbn. rewrite forallb_app, IH. cbn. rewrite andb_true_r. apply andb_comm.
Qed.

(** The pattern of server names, read as a pattern: a non-empty host of
    letters, digits, [.], [*], [?] and [-], a dot, and a non-empty last
    label of the same characters without the dot. *)
Lemma homeserverPatternRegex_spec s :
  homeserverPatternRegex s = true <->
  exists host label,
    list_ascii_of_string s = (host ++ "."%char :: label)%list
    /\ host <> [] /\ label <> []
    /\ forallb isHostChar host = true
    /\ forallb isLabelChar label = true.
Proof.
  unfold homeserverPatternRegex. split.
  - pose proof (span_spec isLabelChar (rev (list_ascii_of_string s))) as Hspan.
    destruct (span isLabelChar (rev (list_ascii_of_string s))) as [label before].
    destruct Hspan as (Hrev & Hlabel & _).
    destruct label as [| l label]; [ done |].
    destruct before as [| dot [| h host]]; [ done | done |].
    intros Hm. apply andb_true_iff in Hm as [Hdot Hhost].
    apply Ascii.eqb_eq in Hdot. subst dot.
    exists (rev (h :: host)), (rev (l :: label)).
    apply (f_equal (@rev ascii)) in Hrev. rewrite rev_involutive in Hrev.
    rewrite Hrev, rev_app_distr. cbn [rev].
    split; [ by rewrite <- (app_assoc _ ["."%char]) |].
    split; [ by destruct (rev host) |].
    split; [ by destruct (rev label) |].
    change (rev host ++ [h])%list with (rev (h :: host)).
    change (rev label ++ [l])%list with (rev (l :: label)).
    by rewrite !forallb_rev.
  - intros (host & label & Hs & Hhost & Hlabel & Hhc & Hlc).
    rewrite Hs, rev_app_distr. cbn [rev]. rewrite <- app_assoc. cbn [app].
    rewrite (span_app isLabelChar (rev label) ("."%char :: rev host));
      [| by rewrite forallb_rev | reflexivity ].
    destruct (rev label) as [| l label'] eqn:Hl.
    { apply (f_equal (@rev ascii)) in Hl. rewrite rev_involutive in Hl. done. }
    destruct (rev host) as [| h host'] eqn:Hh.
    { apply (f_equal (@rev ascii)) in Hh. rewrite rev_involutive in Hh. done. }
    rewrite <- Hh, forallb_rev, Hhc. reflexivity.
Qed.

(** X1: the classifier sorts by the first byte and the server pattern: an
    entity is a user exactly when it starts with [@] (whatever follows), a
    room exactly when it starts with [!], and a server exactly when the
    whole string is a non-empty host of letters, digits, [.], [*], [?] and
    [-], a dot, and a non-empty last label of these characters without the
    dot; every other string, the empty one included, is rejected. *)
Theorem X1_validateEntity_kinds entity :
  (validateEntity entity = Some EntityTypeUser <-> exists rest, entity = String "@" rest)
  /\ (validateEntity entity = Some EntityTypeRoom <-> exists rest, entity = String "!" rest)
  /\ (validateEntity entity = Some EntityTypeServer <->
      exists host label,
        list_ascii_of_string entity = (host ++ "."%char :: label)%list
        /\ host <> [] /\ label <> []
        /\ forallb isHostChar host = true
        /\ forallb isLabelChar label = true).
Proof.
  split; [| split ].
  - destruct entity as [| c rest]; cbn [validateEntity].
    + split; [ done | by intros [? ?] ].
    + destruct (Ascii.eqb_spec c "@") as [-> | Hne]; [ split; eauto |].
      split; [| intros [? [= ? ?]]; done ].
      by repeat case_match.
  - destruct entity as [| c rest]; cbn [validateEntity].
    + split; [ done | by intros [? ?] ].
    + destruct (Ascii.eqb_spec c "@") as [-> | Hne];
        [ split; [ done | by intros [? [=]] ] |].
      destruct (Ascii.eqb_spec c "!") as [-> | Hne']; [ split; eauto |].
      split; [| intros [? [= ? ?]]; done ].
      by case_match.
  - rewrite <- homeserverPatternRegex_spec.
    destruct entity as [| c rest]; cbn [validateEntity].
    + split; [ done | by intros Hm; vm_compute in Hm ].
    + destruct (Ascii.eqb_spec c "@") as [-> | Hne].
      { split; [ done |]. intros Hm.
        apply homeserverPatternRegex_spec in Hm
          as (host & label & Hs & Hhost & _ & Hhc & _).
        destruct host as [| h host]; [ done |]. cbn in Hs, Hhc.
        injection Hs as <- _. done. }
      destruct (Ascii.eqb_spec c "!") as [-> | Hne'].
      { split; [ done |]. intros Hm.
        apply homeserverPatternRegex_spec in Hm
          as (host & label & Hs & Hhost & _ & Hhc & _).
        destruct host as [| h host]; [ done |]. cbn in Hs, Hhc.
        injection Hs as <- _. done. }
      destruct (homeserverPatternRegex (String c rest)); split; done.
Qed.

(** The classifier on the examples of the kinds. *)
Example validateEntity_examples :
  map validateEntity ["@a:b"; "!x:y"; "example.org"; "*.example.org"; "@"; "not valid";
                      ""; "example"; ".org"; "example."; "a.b:8448"; "ex_ample.org"]
  = [Some EntityTypeUser; Some EntityTypeRoom; Some EntityTypeServer;
     Some EntityTypeServer; Some EntityTypeUser; None;
     None; None; None; None; None; None].
Proof. reflexivity. Qed.

(** ** The identifier of a published policy *)

Lemma EncodeToString_digest_length src :
  length src = 32%nat -> String.length (base64.EncodeToString src) = 44%nat.
Proof.
  intros Hlen. do 33 (destruct src as [| ? src]; try discriminate). reflexivity.
Qed.

(** X2: [SendPolicy] sends exactly one state event, never under the empty
    state key: a non-empty key is used as given, and the empty one is
    replaced by the derived identifier, which has forty-four characters. *)
Theorem X2_SendPolicy_never_empty_key pe policyList entityType stateKey rawEntity content :
  published (trace (SendPolicy pe policyList entityType stateKey rawEntity content))
  = [(policyList, entityType,
      identifierFor stateKey rawEntity (event.Recommendation content), content)]
  /\ identifierFor stateKey rawEntity (event.Recommendation content) <> ""
  /\ (if String.eqb stateKey ""
      then String.length
             (identifierFor stateKey rawEntity (event.Recommendation content)) = 44%nat
      else identifierFor stateKey rawEntity (event.Recommendation content) = stateKey)
  /\ outcome (SendPolicy pe policyList entityType stateKey rawEntity content)
     = Returned (SendStateEvent pe policyList entityType
                   (identifierFor stateKey rawEntity (event.Recommendation content))
                   content).
Proof.
  rewrite SendPolicy_run. cbv zeta. fold (identifierFor stateKey rawEntity
                                            (event.Recommendation content)).
  split; [ reflexivity |]. split; [ apply identifierFor_not_empty |].
  split; [| reflexivity ].
  unfold identifierFor. destruct (String.eqb stateKey ""); [| reflexivity ].
  apply EncodeToString_digest_length, Sum256_length.
Qed.

(** ** Which record a ban overwrites *)

Lemma scan_app room entity (m1 m2 : Match) :
  existingStateKeyIn room entity (m1 ++ m2)%list
  = fold_left (fun existingStateKey policy =>
                 if String.eqb (RoomID policy) room
                    && String.eqb (Entity policy) entity
                 then StateKey policy else existingStateKey)
      m2 (existingStateKeyIn room entity m1).
Proof. unfold existingStateKeyIn. apply fold_left_app. Qed.

Lemma scan_skip room entity (m : Match) acc :
  (forall q, q ∈ m -> ~ (RoomID q = room /\ Entity q = entity)) ->
  fold_left (fun existingStateKey policy =>
               if String.eqb (RoomID policy) room
                  && String.eqb (Entity policy) entity
               then StateKey policy else existingStateKey) m acc = acc.
Proof.
  intros Hnone. induction m as [| q m IH]; [ reflexivity |].
  cbn [fold_left].
  destruct (String.eqb_spec (RoomID q) room) as [Hr | Hr];
    [ destruct (String.eqb_spec (Entity q) entity) as [He | He] |].
  - destruct (Hnone q); [ by left | done ].
  - cbn [andb]. apply IH. intros q' Hq'. apply Hnone. by right.
  - cbn [andb]. apply IH. intros q' Hq'. apply Hnone. by right.
Qed.

Lemma scan_last room entity (before after : Match) p :
  RoomID p = room -> Entity p = entity ->
  (forall q, q ∈ after -> ~ (RoomID q = room /\ Entity q = entity)) ->
  existingStateKeyIn room entity (before ++ p :: after)%list = StateKey p.
Proof.
  intros Hr He Hnone. rewrite scan_app. cbn [fold_left].
  rewrite Hr, He, !String.eqb_refl. cbn [andb]. by apply scan_skip.
Qed.

(** X3: when the match of a ban or takedown holds several policies of the
    target list on the entity in plain text, the one published over is the
    last of them in the order of the match: the policy goes out under its
    state key (under the derived identifier if that key is empty). *)
Theorem X3_ban_overwrites_last_match im pe evt w (hash : bool) L E rest list entityType
        before p after :
  dropped im pe evt = false ->
  Strings.Fields (event.Body evt)
  = w :: (if hash then ["--hash"] else []) ++ L :: E :: rest ->
  Strings.ToLower w = "!ban" \/ Strings.ToLower w = "!takedown" ->
  (hash = false -> L <> "--hash") ->
  FindListByShortcode pe L = Some list ->
  validateEntity E = Some entityType ->
  (forall rec,
      BanOrUnban im (MatchExact pe (GetWatchedLists pe) entityType E) = Some rec ->
      Recommendation rec <> PolicyRecommendationUnban im) ->
  MatchExact pe (GetWatchedLists pe) entityType E = (before ++ p :: after)%list ->
  RoomID p = ListRoomID list ->
  Entity p = E ->
  (forall q, q ∈ after -> ~ (RoomID q = ListRoomID list /\ Entity q = E)) ->
  publishedKeys (trace (HandleCommand im pe evt))
  = [identifierFor (StateKey p) E
       (event.Recommendation
          (banContent im (Strings.ToLower w) E (Strings.Join rest " ") hash))].
Proof.
  intros Hd Hf Hw HL Hlist Het Hfree Hm Hr He Hnone.
  destruct (ban_publishes im pe evt w hash L E rest list entityType
              Hd Hf Hw HL Hlist Het Hfree) as [Hp _].
  unfold publishedKeys. rewrite Hp, Hm, (scan_last _ _ _ _ _ Hr He Hnone).
  reflexivity.
Qed.

(** Two bans of the list on [@u:x]: the second is the one overwritten. *)
Lemma X3_ban_overwrites_last_match_witness :
  publishedKeys
    (trace (HandleCommand deployment.imports
              (deployment.returning
                 [deployment.found deployment.listRoom "first" "@u:x" "m.ban" "a";
                  deployment.found deployment.listRoom "second" "@u:x" "m.ban" "b";
                  deployment.found "!other:example.org" "third" "@u:x" "m.ban" "c"])
              (deployment.command "!ban spam @u:x again")))
  = ["second"].
Proof.
  apply (X3_ban_overwrites_last_match deployment.imports
           (deployment.returning
              [deployment.found deployment.listRoom "first" "@u:x" "m.ban" "a";
               deployment.found deployment.listRoom "second" "@u:x" "m.ban" "b";
               deployment.found "!other:example.org" "third" "@u:x" "m.ban" "c"])
           (deployment.command "!ban spam @u:x again")
           "!ban" false "spam" "@u:x" ["again"] deployment.spamList EntityTypeUser
           [deployment.found deployment.listRoom "first" "@u:x" "m.ban" "a"]
           (deployment.found deployment.listRoom "second" "@u:x" "m.ban" "b")
           [deployment.found "!other:example.org" "third" "@u:x" "m.ban" "c"]).
  - vm_compute; reflexivity.
  - vm_compute; reflexivity.
  - left. vm_compute; reflexivity.
  - intros _. discriminate.
  - vm_compute; reflexivity.
  - vm_compute; reflexivity.
  - intros rec. vm_compute. intros [= <-]. discriminate.
  - reflexivity.
  - reflexivity.
  - reflexivity.
  - intros q Hq [Hr _]. apply list_elem_of_singleton in Hq. subst q. discriminate.
Defined.

(** ** Commands that are refused *)

(** X4: a command with too few arguments does nothing but send its usage
    notice: no argument at all for [!join], [!leave], [!redact] and
    [!kick], fewer than two for [!ban], [!takedown], the removals and
    [!add-unban]. *)
Theorem X4_usage_notice im pe evt w args :
  dropped im pe evt = false ->
  Strings.Fields (event.Body evt) = w :: args ->
  (In (Strings.ToLower w) ["!join"; "!leave"; "!redact"; "!kick"] /\ args = [])
  \/ (In (Strings.ToLower w)
        ["!ban"; "!takedown"; "!remove-ban"; "!remove-unban"; "!remove-policy";
         "!add-unban"]
      /\ (length args < 2)%nat) ->
  exists format arguments,
    Strings.HasPrefix format "Usage: " = true
    /\ HandleCommand im pe evt
       = ([Log "info" "Handling command"; Notice format arguments], Returned tt).
Proof.
  intros Hd Hf Hshort.
  rewrite (HandleCommand_accepted _ _ _ _ _ Hd Hf). unfold switchCmd.
  destruct Hshort as [[Hv ->] | [Hv Hlen]].
  - cbn [In] in Hv. destruct Hv as [<- | [<- | [<- | [<- | []]]]];
      cbn; eexists _, _; (split; [| reflexivity ]); reflexivity.
  - assert (Hlt : (length args <? 2)%nat = true) by by apply Nat.ltb_lt.
    cbn [In] in Hv.
    destruct Hv as [<- | [<- | [<- | [<- | [<- | [<- | []]]]]]];
      cbn [String.eqb Ascii.eqb Bool.eqb orb andb];
      unfold cmdBan, cmdRemove, cmdAddUnban; rewrite Hlt;
      unfold sendNotice; rewrite bind_emit;
      eexists _, _; (split; [| reflexivity ]); reflexivity.
Qed.

(** X5: a known list and a valid entity are required before anything is
    looked up: a ban, a takedown or a removal that names an unknown list
    only reports that the list was not found, and one whose entity is
    rejected by the classifier only reports the invalid entity; neither
    publishes. *)
Theorem X5_unknown_list_or_entity im pe evt w (hash : bool) L E rest :
  dropped im pe evt = false ->
  Strings.Fields (event.Body evt)
  = w :: (if hash then ["--hash"] else []) ++ L :: E :: rest ->
  ((Strings.ToLower w = "!ban" \/ Strings.ToLower w = "!takedown")
   /\ (hash = false -> L <> "--hash"))
  \/ ((Strings.ToLower w = "!remove-ban" \/ Strings.ToLower w = "!remove-unban"
       \/ Strings.ToLower w = "!remove-policy") /\ hash = false) ->
  FindListByShortcode pe L = None
  \/ (exists list, FindListByShortcode pe L = Some list) /\ validateEntity E = None ->
  HandleCommand im pe evt
  = ([Log "info" "Handling command";
      match FindListByShortcode pe L with
      | None => Notice "List %q not found" [AStr L]
      | Some _ => Notice "Invalid entity `%s`" [AStr E]
      end],
     Returned tt).
Proof.
  intros Hd Hf Hverb Hbad.
  rewrite (HandleCommand_accepted _ _ _ _ _ Hd Hf).
  assert (Hcase : FindListByShortcode pe L = None
                  \/ exists list, FindListByShortcode pe L = Some list
                                  /\ validateEntity E = None).
  { destruct Hbad as [Hn | [[list Hl] He]]; [ by left | right; by exists list ]. }
  clear Hbad.
  destruct Hverb as [[Hw HL] | [Hw ->]].
  - rewrite switchCmd_ban by done. unfold cmdBan.
    destruct hash; simpl; rewrite index_head, bind_ret.
    + rewrite String.eqb_refl, index_head, bind_ret.
      destruct Hcase as [-> | (list & -> & He)].
      * unfold sendNotice. by rewrite bind_emit.
      * rewrite index_second, bind_ret, He. unfold sendNotice. by rewrite bind_emit.
    + destruct (String.eqb_spec L "--hash") as [e | _]; [ by destruct HL |].
      rewrite index_head, bind_ret.
      destruct Hcase as [-> | (list & -> & He)].
      * unfold sendNotice. by rewrite bind_emit.
      * rewrite index_second, bind_ret, He. unfold sendNotice. by rewrite bind_emit.
  - rewrite switchCmd_remove by done. unfold cmdRemove. simpl.
    rewrite index_head, bind_ret.
    destruct Hcase as [-> | (list & -> & He)].
    + unfold sendNotice. by rewrite bind_emit.
    + rewrite index_second, bind_ret, He. unfold sendNotice. by rewrite bind_emit.
Qed.

(** X6: a first field that is none of the verbs, in any case of its
    letters, is ignored without a notice: the run is the log line alone. *)
Theorem X6_unknown_verb_ignored im pe evt w args :
  dropped im pe evt = false ->
  Strings.Fields (event.Body evt) = w :: args ->
  ~ In (Strings.ToLower w) verbs ->
  HandleCommand im pe evt = ([Log "info" "Handling command"], Returned tt).
Proof.
  intros Hd Hf Hnot.
  rewrite (HandleCommand_accepted _ _ _ _ _ Hd Hf). unfold switchCmd.
  assert (Hneq : forall v, In v verbs -> String.eqb (Strings.ToLower w) v = false).
  { intros v Hv. apply String.eqb_neq. intros Heq. apply Hnot. by rewrite Heq. }
  unfold verbs in Hneq. cbn [In] in Hneq.
  rewrite !Hneq by tauto. reflexivity.
Qed.

(** A ban with the list alone. *)
Lemma X4_usage_notice_witness :
  exists format arguments,
    Strings.HasPrefix format "Usage: " = true
    /\ HandleCommand deployment.imports (deployment.evaluator ∅ [] true false)
         (deployment.command "!BAN spam")
       = ([Log "info" "Handling command"; Notice format arguments], Returned tt).
Proof.
  apply (X4_usage_notice deployment.imports (deployment.evaluator ∅ [] true false)
           (deployment.command "!BAN spam") "!BAN" ["spam"]).
  - vm_compute; reflexivity.
  - vm_compute; reflexivity.
  - right. split; [ vm_compute; tauto | cbn; lia ].
Defined.

(** A takedown in a list that is not known. *)
Lemma X5_unknown_list_or_entity_witness :
  HandleCommand deployment.imports (deployment.evaluator ∅ [] true false)
    (deployment.command "!takedown --hash nolist @u:x")
  = ([Log "info" "Handling command"; Notice "List %q not found" [AStr "nolist"]],
     Returned tt).
Proof.
  apply (X5_unknown_list_or_entity deployment.imports
           (deployment.evaluator ∅ [] true false)
           (deployment.command "!takedown --hash nolist @u:x")
           "!takedown" true "nolist" "@u:x" []).
  - vm_compute; reflexivity.
  - vm_compute; reflexivity.
  - left. split; [ right; vm_compute; reflexivity | discriminate ].
  - left. vm_compute; reflexivity.
Defined.

(** A verb that is not known. *)
Lemma X6_unknown_verb_ignored_witness :
  HandleCommand deployment.imports (deployment.evaluator ∅ [] true false)
    (deployment.command "!help me")
  = ([Log "info" "Handling command"], Returned tt).
Proof.
  apply (X6_unknown_verb_ignored deployment.imports
           (deployment.evaluator ∅ [] true false)
           (deployment.command "!help me") "!help" ["me"]).
  - vm_compute; reflexivity.
  - vm_compute; reflexivity.
  - vm_compute. intuition discriminate.
Defined.

(** ** What a ban or takedown sends *)

(** X7: a ban or takedown that is not blocked sends one policy to the list
    and then either the success reaction or, when the send failed, a notice
    with the error.  The policy of a takedown has the takedown tag and no
    reason, whatever reason was given; under [--hash] the policy has no
    plain-text entity, only the base64 SHA-256 digest of it. *)
Theorem X7_ban_content im pe evt w (hash : bool) L E rest list entityType :
  dropped im pe evt = false ->
  Strings.Fields (event.Body evt)
  = w :: (if hash then ["--hash"] else []) ++ L :: E :: rest ->
  Strings.ToLower w = "!ban" \/ Strings.ToLower w = "!takedown" ->
  (hash = false -> L <> "--hash") ->
  FindListByShortcode pe L = Some list ->
  validateEntity E = Some entityType ->
  (forall rec,
      BanOrUnban im (MatchExact pe (GetWatchedLists pe) entityType E) = Some rec ->
      Recommendation rec <> PolicyRecommendationUnban im) ->
  let takedown := String.eqb (Strings.ToLower w) "!takedown" in
  let content :=
    {| event.Entity := if hash then "" else E;
       event.Reason := if takedown then "" else Strings.Join rest " ";
       event.Recommendation :=
         if takedown then PolicyRecommendationUnstableTakedown im
         else PolicyRecommendationBan im;
       event.UnstableHashes :=
         if hash
         then Some (base64.EncodeToString (sha256.Sum256 (Strings.bytes E)))
         else None |} in
  let key :=
    identifierFor
      (existingStateKeyIn (ListRoomID list) E
         (MatchExact pe (GetWatchedLists pe) entityType E))
      E (event.Recommendation content) in
  HandleCommand im pe evt
  = (Log "info" "Handling command"
     :: CallSendStateEvent (ListRoomID list) entityType key content
     :: match SendStateEvent pe (ListRoomID list) entityType key content with
        | inl err => [Notice "Failed to send ban policy: %v" [AErr err]]
        | inr _ => [Log "info" "Sent ban policy from command";
                    SuccessReaction (event.ID evt)]
        end,
     Returned tt).
Proof.
  intros Hd Hf Hw HL Hlist Het Hfree. cbv zeta.
  rewrite (HandleCommand_accepted _ _ _ _ _ Hd Hf), switchCmd_ban by done.
  rewrite (cmdBan_args _ _ _ _ _ _ _ _ _ _ HL Hlist Het). cbv zeta.
  rewrite bind_emit. cbn [trace outcome fst snd].
  assert (Hcontent :
            banContent im (Strings.ToLower w) E (Strings.Join rest " ") hash
            = {| event.Entity := if hash then "" else E;
                 event.Reason :=
                   if String.eqb (Strings.ToLower w) "!takedown" then ""
                   else Strings.Join rest " ";
                 event.Recommendation :=
                   if String.eqb (Strings.ToLower w) "!takedown"
                   then PolicyRecommendationUnstableTakedown im
                   else PolicyRecommendationBan im;
                 event.UnstableHashes :=
                   if hash
                   then Some (base64.EncodeToString (sha256.Sum256 (Strings.bytes E)))
                   else None |}).
  { unfold banContent, SHA256String.
    destruct Hw as [-> | ->], hash; reflexivity. }
  rewrite Hcontent, SendPolicy_run. cbv zeta. rewrite bind_returned.
  unfold identifierFor.
  destruct (BanOrUnban im (MatchExact pe (GetWatchedLists pe) entityType E))
    as [rec |] eqn:Hrec.
  - destruct (String.eqb_spec (Recommendation rec) (PolicyRecommendationUnban im))
      as [Hun | _]; [ by destruct (Hfree rec eq_refl) |].
    cbn [trace outcome fst snd]. destruct (SendStateEvent pe _ _ _ _); reflexivity.
  - cbn [trace outcome fst snd]. destruct (SendStateEvent pe _ _ _ _); reflexivity.
Qed.

(** A takedown with [--hash] and a reason. *)
Lemma X7_ban_content_witness :
  HandleCommand deployment.imports (deployment.evaluator ∅ [] true false)
    (deployment.command "!takedown --hash spam @u:x very bad")
  = ([Log "info" "Handling command";
      CallSendStateEvent deployment.listRoom EntityTypeUser
        "+dGFuGqB+qjWxxEamOxwE5IHOg0bE6aDmyfukGZzwfc="
        {| event.Entity := ""; event.Reason := "";
           event.Recommendation := "org.matrix.msc4204.takedown";
           event.UnstableHashes :=
             Some "IyZfFZps/N/rMFWelhmLSbGC2o2MW/c41Z/vkwtRx+4=" |};
      Log "info" "Sent ban policy from command";
      SuccessReaction "$command"],
     Returned tt).
Proof.
  pose proof (X7_ban_content deployment.imports (deployment.evaluator ∅ [] true false)
                (deployment.command "!takedown --hash spam @u:x very bad")
                "!takedown" true "spam" "@u:x" ["very"; "bad"]
                deployment.spamList EntityTypeUser
                ltac:(vm_compute; reflexivity) ltac:(vm_compute; reflexivity)
                ltac:(right; vm_compute; reflexivity) ltac:(discriminate)
                ltac:(vm_compute; reflexivity) ltac:(vm_compute; reflexivity)
                ltac:(intros rec; vm_compute; discriminate)) as H.
  cbv zeta in H. rewrite H. vm_compute. reflexivity.
Defined.

(** ** Joining, leaving and redacting *)

Lemma joins_app (t1 t2 : list Effect) : joins (t1 ++ t2) = (joins t1 ++ joins t2)%list.
Proof. apply omap_app. Qed.

Lemma leaves_app (t1 t2 : list Effect) :
  leaves (t1 ++ t2) = (leaves t1 ++ leaves t2)%list.
Proof. apply omap_app. Qed.

Lemma notices_app (t1 t2 : list Effect) :
  notices (t1 ++ t2) = (notices t1 ++ notices t2)%list.
Proof. apply omap_app. Qed.

(** The loop of [!join]: a call and a notice for every room. *)
Lemma join_loop pe args :
  forEach args (fun arg =>
    emit (CallJoinRoom arg) ;;
    match JoinRoom pe arg with
    | Some err => sendNotice "Failed to join room %q: %v" [AStr arg; AErr err]
    | None => sendNotice "Joined room %q" [AStr arg]
    end)
  = (flat_map (fun arg =>
                 [CallJoinRoom arg;
                  match JoinRoom pe arg with
                  | Some err => Notice "Failed to join room %q: %v" [AStr arg; AErr err]
                  | None => Notice "Joined room %q" [AStr arg]
                  end]) args,
     Returned tt).
Proof.
  rewrite forEach_returns.
  - f_equal. apply flat_map_ext. intros arg. rewrite bind_emit.
    unfold sendNotice. by destruct (JoinRoom pe arg).
  - intros arg. rewrite bind_emit. unfold sendNotice. by destruct (JoinRoom pe arg).
Qed.

(** X8: [!join] asks to join every room given, once each and in the order
    given, answers each with one notice, and ends with the success
    reaction whether the joins succeeded or failed. *)
Theorem X8_join_every_room im pe evt w arg args :
  dropped im pe evt = false ->
  Strings.Fields (event.Body evt) = w :: arg :: args ->
  Strings.ToLower w = "!join" ->
  let run := HandleCommand im pe evt in
  joins (trace run) = arg :: args
  /\ map fst (notices (trace run))
     = map (fun room => match JoinRoom pe room with
                        | Some _ => "Failed to join room %q: %v"
                        | None => "Joined room %q"
                        end) (arg :: args)
  /\ reactions (trace run) = [event.ID evt]
  /\ forallb (fun e => readOnly e || match e with CallJoinRoom _ => true | _ => false end)
       (trace run) = true
  /\ outcome run = Returned tt.
Proof.
  intros Hd Hf Hw. cbv zeta.
  rewrite (HandleCommand_accepted _ _ _ _ _ Hd Hf), Hw.
  unfold switchCmd. cbn [String.eqb Ascii.eqb Bool.eqb]. unfold cmdJoin.
  cbn [length Nat.eqb]. rewrite join_loop, bind_returned, bind_emit.
  cbn [trace outcome fst snd]. unfold sendSuccessReaction, emit.
  cbn [trace fst].
  generalize (arg :: args). intros rooms.
  change (Log "info" "Handling command" :: ?t)%list
    with ([Log "info" "Handling command"] ++ t)%list.
  rewrite !joins_app, !notices_app, !reactions_app, !forallb_app, !map_app.
  assert (Hloop : forall rs,
             let t := flat_map (fun arg0 =>
                        [CallJoinRoom arg0;
                         match JoinRoom pe arg0 with
                         | Some err =>
                             Notice "Failed to join room %q: %v" [AStr arg0; AErr err]
                         | None => Notice "Joined room %q" [AStr arg0]
                         end]) rs in
             joins t = rs
             /\ map fst (notices t)
                = map (fun room => match JoinRoom pe room with
                                   | Some _ => "Failed to join room %q: %v"
                                   | None => "Joined room %q"
                                   end) rs
             /\ reactions t = []
             /\ forallb (fun e => readOnly e
                                  || match e with CallJoinRoom _ => true | _ => false end)
                  t = true).
  { induction rs as [| r rs (IH1 & IH2 & IH3 & IH4)]; [ done |].
    cbn [flat_map app]. cbv zeta in *.
    change (CallJoinRoom r :: ?n :: ?t)%list with ([CallJoinRoom r; n] ++ t)%list.
    rewrite joins_app, notices_app, reactions_app, forallb_app, map_app,
      IH1, IH2, IH3, IH4.
    destruct (JoinRoom pe r) eqn:Hj; cbn; rewrite Hj; done. }
  destruct (Hloop rooms) as (H1 & H2 & H3 & H4). cbv zeta in *.
  rewrite H1, H2, H3, H4. cbn. by rewrite !app_nil_r.
Qed.

(** The loop of [!leave]: a call for the one target and a notice for every
    argument. *)
Lemma leave_loop pe target args :
  forEach args (fun arg =>
    emit (CallLeaveRoom target) ;;
    match LeaveRoom pe target with
    | Some err => sendNotice "Failed to leave room %q: %v" [AStr arg; AErr err]
    | None => sendNotice "Left room %q" [AStr arg]
    end)
  = (flat_map (fun arg =>
                 [CallLeaveRoom target;
                  match LeaveRoom pe target with
                  | Some err => Notice "Failed to leave room %q: %v" [AStr arg; AErr err]
                  | None => Notice "Left room %q" [AStr arg]
                  end]) args,
     Returned tt).
Proof.
  rewrite forEach_returns.
  - f_equal. apply flat_map_ext. intros arg. rewrite bind_emit.
    unfold sendNotice. by destruct (LeaveRoom pe target).
  - intros arg. rewrite bind_emit. unfold sendNotice. by destruct (LeaveRoom pe target).
Qed.

Lemma leave_loop_calls pe target args :
  leaves (flat_map (fun arg =>
                      [CallLeaveRoom target;
                       match LeaveRoom pe target with
                       | Some err =>
                           Notice "Failed to leave room %q: %v" [AStr arg; AErr err]
                       | None => Notice "Left room %q" [AStr arg]
                       end]) args)
  = repeat target (length args)
  /\ reactions (flat_map (fun arg =>
                            [CallLeaveRoom target;
                             match LeaveRoom pe target with
                             | Some err =>
                                 Notice "Failed to leave room %q: %v" [AStr arg; AErr err]
                             | None => Notice "Left room %q" [AStr arg]
                             end]) args) = [].
Proof.
  induction args as [| a args [IH1 IH2]]; [ done |].
  cbn [flat_map app length repeat].
  change (CallLeaveRoom target :: ?n :: ?t)%list with ([CallLeaveRoom target; n] ++ t)%list.
  rewrite leaves_app, reactions_app, IH1, IH2.
  destruct (LeaveRoom pe target); cbn; done.
Qed.

(** X9: [!leave] with several arguments leaves one room only, the one its
    first argument names (the room an alias starting with [#] resolves
    to), once for every argument; the other arguments are never left.  An
    alias that cannot be resolved stops the command at a notice.  No
    success reaction is sent in any case. *)
Theorem X9_leave_first_room_only im pe evt w arg args :
  dropped im pe evt = false ->
  Strings.Fields (event.Body evt) = w :: arg :: args ->
  Strings.ToLower w = "!leave" ->
  let run := HandleCommand im pe evt in
  reactions (trace run) = []
  /\ outcome run = Returned tt
  /\ if Strings.HasPrefix arg "#" then
       match ResolveAlias pe arg with
       | inr roomID => leaves (trace run) = repeat roomID (S (length args))
       | inl err =>
           run = ([Log "info" "Handling command"; CallResolveAlias arg;
                   Notice "Failed to resolve alias %q: %v" [AStr arg; AErr err]],
                  Returned tt)
       end
     else leaves (trace run) = repeat arg (S (length args)).
Proof.
  intros Hd Hf Hw. cbv zeta.
  rewrite (HandleCommand_accepted _ _ _ _ _ Hd Hf), Hw.
  unfold switchCmd. cbn [String.eqb Ascii.eqb Bool.eqb]. unfold cmdLeave.
  cbn [length Nat.eqb]. rewrite index_head, bind_ret, bind_emit.
  destruct (Strings.HasPrefix arg "#").
  - rewrite bind_emit. destruct (ResolveAlias pe arg) as [err | roomID].
    + done.
    + rewrite leave_loop. cbn [trace outcome fst snd].
      destruct (leave_loop_calls pe roomID (arg :: args)) as [H1 H2].
      change (Log "info" "Handling command" :: CallResolveAlias arg :: ?t)%list
        with ([Log "info" "Handling command"; CallResolveAlias arg] ++ t)%list.
      rewrite leaves_app, reactions_app, H1, H2. done.
  - rewrite leave_loop. cbn [trace outcome fst snd].
    destruct (leave_loop_calls pe arg (arg :: args)) as [H1 H2].
    change (Log "info" "Handling command" :: ?t)%list
      with ([Log "info" "Handling command"] ++ t)%list.
    rewrite leaves_app, reactions_app, H1, H2. done.
Qed.

(** Two rooms to join. *)
Lemma X8_join_every_room_witness :
  joins (trace (HandleCommand deployment.imports (deployment.evaluator ∅ [] true false)
                  (deployment.command "!join !a:example.org !b:example.org")))
  = ["!a:example.org"; "!b:example.org"]
  /\ reactions
       (trace (HandleCommand deployment.imports (deployment.evaluator ∅ [] true false)
                 (deployment.command "!join !a:example.org !b:example.org")))
     = ["$command"].
Proof.
  destruct (X8_join_every_room deployment.imports (deployment.evaluator ∅ [] true false)
              (deployment.command "!join !a:example.org !b:example.org")
              "!join" "!a:example.org" ["!b:example.org"]
              ltac:(vm_compute; reflexivity) ltac:(vm_compute; reflexivity)
              ltac:(vm_compute; reflexivity)) as (Hj & _ & Hr & _).
  split; [ exact Hj | exact Hr ].
Defined.

(** Two rooms to leave: the first is left twice, the second never. *)
Lemma X9_leave_first_room_only_witness :
  leaves (trace (HandleCommand deployment.imports (deployment.evaluator ∅ [] true false)
                   (deployment.command "!leave !a:example.org !b:example.org")))
  = ["!a:example.org"; "!a:example.org"].
Proof.
  destruct (X9_leave_first_room_only deployment.imports
              (deployment.evaluator ∅ [] true false)
              (deployment.command "!leave !a:example.org !b:example.org")
              "!leave" "!a:example.org" ["!b:example.org"]
              ltac:(vm_compute; reflexivity) ltac:(vm_compute; reflexivity)
              ltac:(vm_compute; reflexivity)) as (_ & _ & Hl).
  exact Hl.
Defined.

(** ** Adding an unban *)

(** The run of an [!add-unban] with its list: the entity is a user when it
    starts with [@] and a server otherwise; an unban in the summary stops
    it, and otherwise the unban is sent under the state key of the summary
    record when that record is of the target list. *)
Lemma add_unban_run im pe evt w L E rest list :
  dropped im pe evt = false ->
  Strings.Fields (event.Body evt) = w :: L :: E :: rest ->
  Strings.ToLower w = "!add-unban" ->
  FindListByShortcode pe L = Some list ->
  let entityType := if Strings.HasPrefix E "@" then EntityTypeUser else EntityTypeServer in
  let match_ :=
    if Strings.HasPrefix E "@" then MatchUser pe (GetWatchedLists pe) E
    else MatchServer pe (GetWatchedLists pe) E in
  let content :=
    {| event.Entity := E; event.Reason := Strings.Join rest " ";
       event.Recommendation := PolicyRecommendationUnban im;
       event.UnstableHashes := None |} in
  let send existingStateKey :=
    let key := identifierFor existingStateKey E (PolicyRecommendationUnban im) in
    (Log "info" "Handling command"
     :: CallSendStateEvent (ListRoomID list) entityType key content
     :: match SendStateEvent pe (ListRoomID list) entityType key content with
        | inl err => [Notice "Failed to send unban policy: %v" [AErr err]]
        | inr _ => [Log "info" "Sent unban policy from command";
                    SuccessReaction (event.ID evt)]
        end,
     Returned tt) in
  HandleCommand im pe evt
  = match BanOrUnban im match_ with
    | Some rec =>
        if String.eqb (Recommendation rec) (PolicyRecommendationUnban im)
        then ([Log "info" "Handling command";
               Notice "`%s` already has an unban recommendation: %s"
                 [AStr E; AStr (Reason rec)]], Returned tt)
        else if String.eqb (RoomID rec) (ListRoomID list)
        then send (StateKey rec)
        else send ""
    | None => send ""
    end.
Proof.
  intros Hd Hf Hw Hlist. cbv zeta.
  rewrite (HandleCommand_accepted _ _ _ _ _ Hd Hf), Hw.
  unfold switchCmd. cbn [String.eqb Ascii.eqb Bool.eqb orb]. unfold cmdAddUnban.
  cbn [length Nat.ltb Nat.leb]. rewrite index_head, bind_ret, Hlist, index_second, bind_ret.
  assert (Hsend : forall entityType key,
             (emit (Log "info" "Handling command") ;;
              resp ← SendPolicy pe (ListRoomID list) entityType key E
                       {| event.Entity := E; event.Reason := Strings.Join rest " ";
                          event.Recommendation := PolicyRecommendationUnban im;
                          event.UnstableHashes := None |};
              match resp with
              | inl err => sendNotice "Failed to send unban policy: %v" [AErr err]
              | inr _ =>
                  emit (Log "info" "Sent unban policy from command") ;;
                  sendSuccessReaction (event.ID evt)
              end)
             = (Log "info" "Handling command"
                :: CallSendStateEvent (ListRoomID list) entityType
                     (identifierFor key E (PolicyRecommendationUnban im))
                     {| event.Entity := E; event.Reason := Strings.Join rest " ";
                        event.Recommendation := PolicyRecommendationUnban im;
                        event.UnstableHashes := None |}
                :: match SendStateEvent pe (ListRoomID list) entityType
                           (identifierFor key E (PolicyRecommendationUnban im))
                           {| event.Entity := E; event.Reason := Strings.Join rest " ";
                              event.Recommendation := PolicyRecommendationUnban im;
                              event.UnstableHashes := None |} with
                   | inl err => [Notice "Failed to send unban policy: %v" [AErr err]]
                   | inr _ => [Log "info" "Sent unban policy from command";
                               SuccessReaction (event.ID evt)]
                   end,
                Returned tt)).
  { intros entityType key. rewrite bind_emit, SendPolicy_run. cbv zeta.
    rewrite bind_returned. unfold identifierFor. cbn [event.Recommendation].
    cbn [trace outcome fst snd].
    destruct (SendStateEvent pe _ _ _ _); reflexivity. }
  destruct (Strings.HasPrefix E "@"); cbn [negb drop];
    (destruct (BanOrUnban im _) as [rec |];
     [ destruct (String.eqb (Recommendation rec) (PolicyRecommendationUnban im));
       [ unfold sendNotice; by rewrite bind_emit
       | destruct (String.eqb (RoomID rec) (ListRoomID list)); apply Hsend ]
     | apply Hsend ]).
Qed.

(** X10: [!add-unban] is stopped by a summary that is already an unban, with
    a notice that carries its reason.  Otherwise it sends the unban to the
    list: over the summary record, under its state key, when that record is
    of the target list (a standing ban there is overwritten in place), and
    under the derived identifier when the record is of another list or
    there is none. *)
Theorem X10_add_unban_reuse im pe evt w L E rest list :
  dropped im pe evt = false ->
  Strings.Fields (event.Body evt) = w :: L :: E :: rest ->
  Strings.ToLower w = "!add-unban" ->
  FindListByShortcode pe L = Some list ->
  let entityType := if Strings.HasPrefix E "@" then EntityTypeUser else EntityTypeServer in
  let match_ :=
    if Strings.HasPrefix E "@" then MatchUser pe (GetWatchedLists pe) E
    else MatchServer pe (GetWatchedLists pe) E in
  let content :=
    {| event.Entity := E; event.Reason := Strings.Join rest " ";
       event.Recommendation := PolicyRecommendationUnban im;
       event.UnstableHashes := None |} in
  let run := HandleCommand im pe evt in
  match BanOrUnban im match_ with
  | Some rec =>
      if String.eqb (Recommendation rec) (PolicyRecommendationUnban im)
      then run = ([Log "info" "Handling command";
                   Notice "`%s` already has an unban recommendation: %s"
                     [AStr E; AStr (Reason rec)]], Returned tt)
      else if String.eqb (RoomID rec) (ListRoomID list)
      then published (trace run)
           = [(ListRoomID list, entityType,
               identifierFor (StateKey rec) E (PolicyRecommendationUnban im), content)]
      else published (trace run)
           = [(ListRoomID list, entityType,
               derivedIdentifier E (PolicyRecommendationUnban im), content)]
  | None =>
      published (trace run)
      = [(ListRoomID list, entityType,
          derivedIdentifier E (PolicyRecommendationUnban im), content)]
  end.
Proof.
  intros Hd Hf Hw Hlist. cbv zeta.
  rewrite (add_unban_run im pe evt w L E rest list Hd Hf Hw Hlist). cbv zeta.
  destruct (BanOrUnban im _) as [rec |].
  - destruct (String.eqb (Recommendation rec) (PolicyRecommendationUnban im));
      [ reflexivity |].
    destruct (String.eqb (RoomID rec) (ListRoomID list)); cbn [trace fst];
      destruct (SendStateEvent pe _ _ _ _); reflexivity.
  - cbn [trace fst]. destruct (SendStateEvent pe _ _ _ _); reflexivity.
Qed.

(** X11: [!add-unban] does not run the classifier: an entity that does not
    start with [@] is sent as a server policy whatever it is, a room
    identifier or a string that the classifier rejects included. *)
Theorem X11_add_unban_does_not_classify im pe evt w L E rest list :
  dropped im pe evt = false ->
  Strings.Fields (event.Body evt) = w :: L :: E :: rest ->
  Strings.ToLower w = "!add-unban" ->
  FindListByShortcode pe L = Some list ->
  Strings.HasPrefix E "@" = false ->
  BanOrUnban im (MatchServer pe (GetWatchedLists pe) E) = None ->
  published (trace (HandleCommand im pe evt))
  = [(ListRoomID list, EntityTypeServer,
      derivedIdentifier E (PolicyRecommendationUnban im),
      {| event.Entity := E; event.Reason := Strings.Join rest " ";
         event.Recommendation := PolicyRecommendationUnban im;
         event.UnstableHashes := None |})].
Proof.
  intros Hd Hf Hw Hlist Hat Hnone.
  rewrite (add_unban_run im pe evt w L E rest list Hd Hf Hw Hlist). cbv zeta.
  rewrite Hat, Hnone. cbn [trace fst].
  destruct (SendStateEvent pe _ _ _ _); reflexivity.
Qed.

(** An unban of [@u:x], who has a ban in the list under [k1]. *)
Lemma X10_add_unban_reuse_witness :
  published
    (trace (HandleCommand deployment.imports
              (deployment.evaluator deployment.banned [] true false)
              (deployment.command "!add-unban spam @u:x appeal accepted")))
  = [(deployment.listRoom, EntityTypeUser, "k1",
      deployment.policy "@u:x" "fi.mau.meowlnir.unban" "appeal accepted")].
Proof.
  pose proof (X10_add_unban_reuse deployment.imports
                (deployment.evaluator deployment.banned [] true false)
                (deployment.command "!add-unban spam @u:x appeal accepted")
                "!add-unban" "spam" "@u:x" ["appeal"; "accepted"] deployment.spamList
                ltac:(vm_compute; reflexivity) ltac:(vm_compute; reflexivity)
                ltac:(vm_compute; reflexivity) ltac:(vm_compute; reflexivity)) as H.
  cbv zeta in H.
  assert (Hrec : BanOrUnban deployment.imports
                   (MatchUser (deployment.evaluator deployment.banned [] true false)
                      (GetWatchedLists (deployment.evaluator deployment.banned [] true false))
                      "@u:x")
                 = Some (store.toPolicy (deployment.listRoom, EntityTypeUser, "k1",
                                         deployment.policy "@u:x" "m.ban" "spam")))
    by (vm_compute; reflexivity).
  change (Strings.HasPrefix "@u:x" "@") with true in H. cbv iota in H.
  rewrite Hrec in H. exact H.
Defined.

(** A room identifier and a string that is no entity, each sent as a
    server. *)
Lemma X11_add_unban_does_not_classify_witness :
  validateEntity "not_an_entity" = None
  /\ published
       (trace (HandleCommand deployment.imports (deployment.evaluator ∅ [] true false)
                 (deployment.command "!add-unban spam not_an_entity oops")))
     = [(deployment.listRoom, EntityTypeServer,
         derivedIdentifier "not_an_entity" "fi.mau.meowlnir.unban",
         deployment.policy "not_an_entity" "fi.mau.meowlnir.unban" "oops")].
Proof.
  split; [ reflexivity |].
  apply (X11_add_unban_does_not_classify deployment.imports
           (deployment.evaluator ∅ [] true false)
           (deployment.command "!add-unban spam not_an_entity oops")
           "!add-unban" "spam" "not_an_entity" ["oops"] deployment.spamList);
    vm_compute; reflexivity.
Defined.

(** ** Kicks that fail, and kicks with nobody to kick *)

Lemma failedKicks_app (t1 t2 : list Effect) :
  failedKicks (t1 ++ t2) = (failedKicks t1 ++ failedKicks t2)%list.
Proof. apply omap_app. Qed.

Lemma kickCounts_app (t1 t2 : list Effect) :
  kickCounts (t1 ++ t2) = (kickCounts t1 ++ kickCounts t2)%list.
Proof. apply omap_app. Qed.

(** The loop over the rooms of a user outside a dry run: the failures are
    reported room by room and only the other rooms are counted. *)
Lemma kick_rooms_failures pe userID reason rooms count links :
  DryRun pe = false ->
  exists t count',
    foldEach rooms (count, links) (kickFromRoom pe userID reason)
    = (t, Returned (count', (links ++ map roomLink rooms)%list))
    /\ failedKicks t
       = map (fun room => (userID, room))
           (List.filter (kickFails pe reason userID) rooms)
    /\ kickCounts t = []
    /\ count'
       = (count + Z.of_nat (length (List.filter
                                      (fun room => negb (kickFails pe reason userID room))
                                      rooms)))%Z.
Proof.
  intros Hdry. revert count links.
  induction rooms as [| room rooms IH]; intros count links.
  - exists [], count. cbn [foldEach map length List.filter].
    rewrite app_nil_r, Z.add_0_r. done.
  - cbn [foldEach List.filter]. rewrite kickFromRoom_run, Hdry.
    destruct (KickUser pe room userID reason) as [err |] eqn:Hk.
    + assert (Hfail : kickFails pe reason userID room = true)
        by (unfold kickFails; by rewrite Hk).
      rewrite !Hfail.
      destruct (IH count (links ++ [roomLink room])%list)
        as (t & count' & Hrun & Hf & Hc & Hn).
      eexists _, count'. rewrite bind_returned, Hrun.
      cbn [trace outcome fst snd map app negb].
      rewrite <- app_assoc. cbn [app]. split; [ reflexivity |].
      change (CallKickUser room userID reason :: ?n :: t)%list
        with ([CallKickUser room userID reason; n] ++ t)%list.
      rewrite failedKicks_app, kickCounts_app, Hf, Hc. cbn. done.
    + assert (Hfail : kickFails pe reason userID room = false)
        by (unfold kickFails; by rewrite Hk).
      rewrite !Hfail.
      destruct (IH (count + 1)%Z (links ++ [roomLink room])%list)
        as (t & count' & Hrun & Hf & Hc & Hn).
      eexists _, count'. rewrite bind_returned, Hrun.
      cbn [trace outcome fst snd map app negb length].
      rewrite <- app_assoc. cbn [app]. split; [ reflexivity |].
      change (CallKickUser room userID reason :: t)%list
        with ([CallKickUser room userID reason] ++ t)%list.
      rewrite failedKicks_app, kickCounts_app, Hf, Hc.
      split; [ done |]. split; [ done |]. lia.
Qed.

Lemma kick_users_failures pe reason users :
  DryRun pe = false ->
  exists t,
    forEach users (kickUser pe reason) = (t, Returned tt)
    /\ failedKicks t
       = flat_map (fun userID =>
                     map (fun room => (userID, room))
                       (List.filter (kickFails pe reason userID)
                          (getRoomsUserIsIn pe userID))) users
    /\ kickCounts t
       = map (fun userID =>
                (userID,
                 Z.of_nat (length (List.filter
                                     (fun room => negb (kickFails pe reason userID room))
                                     (getRoomsUserIsIn pe userID)))))
           (List.filter (hasRooms pe) users).
Proof.
  intros Hdry. induction users as [| userID users (t & Hrun & Hf & Hc)].
  - by exists [].
  - cbn [forEach flat_map List.filter]. unfold hasRooms at 1.
    destruct (getRoomsUserIsIn pe userID) as [| room rooms] eqn:Hrooms.
    + assert (Hu : kickUser pe reason userID = mret tt)
        by (unfold kickUser; by rewrite Hrooms).
      exists t. cbn [length Nat.eqb negb List.filter map app].
      rewrite Hu, bind_ret, Hrun. done.
    + set (rs := room :: rooms) in *.
      destruct (kick_rooms_failures pe userID reason rs 0%Z [] Hdry)
        as (t1 & count' & Hrun1 & Hf1 & Hc1 & Hn1).
      assert (Hu : kickUser pe reason userID
                   = ((t1 ++ [Notice "Kicked `%s` from %d rooms: %s"
                                [AStr userID; AInt count';
                                 AJoin (map roomLink rs) ", "]])%list,
                      Returned tt)).
      { unfold kickUser. rewrite Hrooms. fold rs.
        replace ((length rs =? 0)%nat) with false by reflexivity.
        rewrite Hrun1, bind_returned. reflexivity. }
      replace ((length rs =? 0)%nat) with false by reflexivity. cbn [negb map].
      rewrite Hu, bind_returned, Hrun.
      cbn [trace outcome fst snd]. eexists. split; [ reflexivity |].
      rewrite !failedKicks_app, !kickCounts_app, Hf, Hc, Hf1, Hc1, Hn1.
      change (failedKicks [?n]) with (@nil (string * string)).
      change (kickCounts [Notice ?f [AStr ?u; AInt ?c; ?j]]) with [(u, c)].
      rewrite app_nil_r, Z.add_0_l, Hrooms. split; reflexivity.
Qed.

(** X12: a kick that fails does not stop the others.  Outside a dry run, a
    kick command that is not refused sends a kick for every room of every
    matching user, reports each failed kick by its user and room, and
    reports for every user that is in a room the number of rooms whose kick
    did not fail. *)
Theorem X12_kick_partial_failure im pe evt w (force : bool) pattern rest :
  dropped im pe evt = false ->
  Strings.Fields (event.Body evt)
  = w :: (if force then ["--force"] else []) ++ pattern :: rest ->
  Strings.ToLower w = "!kick" ->
  (force = false -> pattern <> "--force") ->
  (length (findMatchingUsers pe pattern) <= 10)%nat \/ force = true ->
  DryRun pe = false ->
  let users := findMatchingUsers pe pattern in
  let reason := Strings.Join rest " " in
  let run := HandleCommand im pe evt in
  kicks (trace run)
  = flat_map (fun userID =>
                map (fun room => (room, userID, reason)) (getRoomsUserIsIn pe userID))
      users
  /\ failedKicks (trace run)
     = flat_map (fun userID =>
                   map (fun room => (userID, room))
                     (List.filter (kickFails pe reason userID)
                        (getRoomsUserIsIn pe userID))) users
  /\ kickCounts (trace run)
     = map (fun userID =>
              (userID,
               Z.of_nat (length (List.filter
                                   (fun room => negb (kickFails pe reason userID room))
                                   (getRoomsUserIsIn pe userID)))))
         (List.filter (hasRooms pe) users)
  /\ outcome run = Returned tt.
Proof.
  intros Hd Hf Hw Hp Hok Hdry. cbv zeta.
  assert (Hgo : (10 <? length (findMatchingUsers pe pattern))%nat && negb force = false).
  { destruct Hok as [Hle | ->]; [| by rewrite andb_false_r ].
    apply andb_false_iff. left. by apply Nat.ltb_ge. }
  destruct (kick_not_refused im pe evt w force pattern rest Hd Hf Hw Hp Hgo)
    as (t & Hloop & Hrun).
  destruct (kick_users pe (Strings.Join rest " ") (findMatchingUsers pe pattern))
    as (t1 & Hloop1 & _ & _ & _ & Hreal).
  destruct (kick_users_failures pe (Strings.Join rest " ")
              (findMatchingUsers pe pattern) Hdry)
    as (t2 & Hloop2 & Hfail & Hcount).
  rewrite Hloop in Hloop1, Hloop2. injection Hloop1 as <-. injection Hloop2 as <-.
  destruct (Hreal Hdry) as [Hk _].
  rewrite Hrun. cbn [trace outcome fst snd].
  change (Log "info" "Handling command" :: ?x)%list
    with ([Log "info" "Handling command"] ++ x)%list.
  rewrite !kicks_app, !failedKicks_app, !kickCounts_app, Hk, Hfail, Hcount.
  unfold kickEnd.
  destruct (length (findMatchingUsers pe pattern) =? 0)%nat; cbn;
    by rewrite !app_nil_r.
Qed.

(** The loop over users none of whom is in a room does nothing. *)
Lemma kick_users_without_rooms pe reason users :
  Forall (fun userID => getRoomsUserIsIn pe userID = []) users ->
  forEach users (kickUser pe reason) = ([], Returned tt).
Proof.
  induction 1 as [| userID users Hnone _ IH]; [ reflexivity |].
  assert (Hu : kickUser pe reason userID = mret tt)
    by (unfold kickUser; by rewrite Hnone).
  cbn [forEach]. by rewrite Hu, bind_ret.
Qed.

(** X13: a kick whose pattern matches no user reports that and sends no
    success reaction; a kick whose pattern matches users none of whom is in
    a protected room sends no kick and no notice, and yet ends with the
    success reaction. *)
Theorem X13_kick_nobody im pe evt w (force : bool) pattern rest :
  dropped im pe evt = false ->
  Strings.Fields (event.Body evt)
  = w :: (if force then ["--force"] else []) ++ pattern :: rest ->
  Strings.ToLower w = "!kick" ->
  (force = false -> pattern <> "--force") ->
  (length (findMatchingUsers pe pattern) <= 10)%nat \/ force = true ->
  Forall (fun userID => getRoomsUserIsIn pe userID = []) (findMatchingUsers pe pattern) ->
  HandleCommand im pe evt
  = ([Log "info" "Handling command";
      match findMatchingUsers pe pattern with
      | [] => Notice "No users matching `%s` found in any rooms" [AStr pattern]
      | _ :: _ => SuccessReaction (event.ID evt)
      end],
     Returned tt).
Proof.
  intros Hd Hf Hw Hp Hok Hnone.
  assert (Hgo : (10 <? length (findMatchingUsers pe pattern))%nat && negb force = false).
  { destruct Hok as [Hle | ->]; [| by rewrite andb_false_r ].
    apply andb_false_iff. left. by apply Nat.ltb_ge. }
  destruct (kick_not_refused im pe evt w force pattern rest Hd Hf Hw Hp Hgo)
    as (t & Hloop & Hrun).
  rewrite (kick_users_without_rooms pe _ _ Hnone) in Hloop. injection Hloop as <-.
  rewrite Hrun. unfold kickEnd. by destruct (findMatchingUsers pe pattern).
Qed.

(** Of the two rooms of [@a:example.org] the second refuses the kick: both
    kicks are sent, the failure is reported, and the summary counts one
    room.  [@b:example.org] is in no room and gets no summary. *)
Lemma X12_kick_partial_failure_witness :
  let run := HandleCommand deployment.imports
               (deployment.failingIn "!r2:example.org")
               (deployment.command "!kick * flooding") in
  kicks (trace run)
  = [("!r1:example.org", "@a:example.org", "flooding");
     ("!r2:example.org", "@a:example.org", "flooding")]
  /\ failedKicks (trace run) = [("@a:example.org", "!r2:example.org")]
  /\ kickCounts (trace run) = [("@a:example.org", 1%Z)]
  /\ outcome run = Returned tt.
Proof.
  exact (X12_kick_partial_failure deployment.imports
           (deployment.failingIn "!r2:example.org")
           (deployment.command "!kick * flooding")
           "!kick" false "*" ["flooding"]
           ltac:(vm_compute; reflexivity) ltac:(vm_compute; reflexivity)
           ltac:(vm_compute; reflexivity) ltac:(intros _; discriminate)
           ltac:(left; vm_compute; lia) ltac:(reflexivity)).
Defined.

(** A user known to the bot and in no protected room: the command ends with
    the success reaction alone. *)
Lemma X13_kick_nobody_witness :
  HandleCommand deployment.imports
    (deployment.evaluator ∅ deployment.pair true false)
    (deployment.command "!kick @b:example.org bye")
  = ([Log "info" "Handling command"; SuccessReaction "$command"], Returned tt).
Proof.
  exact (X13_kick_nobody deployment.imports
           (deployment.evaluator ∅ deployment.pair true false)
           (deployment.command "!kick @b:example.org bye")
           "!kick" false "@b:example.org" ["bye"]
           ltac:(vm_compute; reflexivity) ltac:(vm_compute; reflexivity)
           ltac:(vm_compute; reflexivity) ltac:(intros _; discriminate)
           ltac:(left; vm_compute; lia)
           ltac:(vm_compute; repeat constructor)).
Defined.

(** ** What a command may do *)

Lemma trace_bind {A B : Type} (m : M A) (f : A -> M B) :
  trace (m ≫= f)
  = (trace m ++ match outcome m with
                | Returned a => trace (f a)
                | Panicked => []
                end)%list.
Proof.
  destruct m as [t [a |]]; [ by rewrite bind_returned |].
  rewrite bind_panicked. cbn. by rewrite app_nil_r.
Qed.

Lemma trace_index (xs : list string) (i : nat) : trace (index xs i) = [].
Proof. unfold index. by destruct (xs !! i). Qed.

Section Every.

Variable P : Effect -> bool.

Lemma every_bind {A B : Type} (m : M A) (f : A -> M B) :
  forallb P (trace m) = true ->
  (forall a, forallb P (trace (f a)) = true) ->
  forallb P (trace (m ≫= f)) = true.
Proof.
  intros Hm Hf. rewrite trace_bind, forallb_app, Hm.
  destruct (outcome m); [ apply Hf | reflexivity ].
Qed.

Lemma every_index {B : Type} (xs : list string) (i : nat) (f : string -> M B) :
  (forall x, forallb P (trace (f x)) = true) ->
  forallb P (trace (index xs i ≫= f)) = true.
Proof. intros Hf. apply every_bind; [ by rewrite trace_index | exact Hf ]. Qed.

Lemma every_forEach {A : Type} (xs : list A) (body : A -> M unit) :
  (forall x, forallb P (trace (body x)) = true) ->
  forallb P (trace (forEach xs body)) = true.
Proof.
  intros Hb. induction xs as [| x xs IH]; [ reflexivity |].
  cbn [forEach]. apply every_bind; [ apply Hb | intros _; exact IH ].
Qed.

Lemma every_foldEach {A S : Type} (xs : list A) (s : S) (body : S -> A -> M S) :
  (forall s x, forallb P (trace (body s x)) = true) ->
  forallb P (trace (foldEach xs s body)) = true.
Proof.
  intros Hb. revert s. induction xs as [| x xs IH]; intros s; [ reflexivity |].
  cbn [foldEach]. apply every_bind; [ apply Hb | intros s'; apply IH ].
Qed.

Lemma every_emit (e : Effect) : P e = true -> forallb P (trace (emit e)) = true.
Proof. intros He. cbn. by rewrite He. Qed.

Lemma every_SendPolicy pe policyList entityType stateKey rawEntity content :
  (forall key, P (CallSendStateEvent policyList entityType key content) = true) ->
  forallb P (trace (SendPolicy pe policyList entityType stateKey rawEntity content))
  = true.
Proof.
  intros Hs. rewrite SendPolicy_run. cbv zeta. cbn [trace fst forallb].
  by rewrite Hs.
Qed.

End Every.

(** One step of the proof that every effect of a handler satisfies a
    predicate: through a bind, a loop, a branch. *)
Ltac every_step :=
  first
    [ reflexivity
    | apply every_index; intros ?
    | apply every_forEach; intros ?
    | apply every_foldEach; intros ? ?
    | apply every_SendPolicy; intros ?
    | apply every_emit
    | apply every_bind; [| intros ? ]
    | progress cbv zeta
    | case_match ].

Lemma cmdJoin_permitted pe evtID args :
  forallb (permitted pe "!join") (trace (cmdJoin pe evtID args)) = true.
Proof. unfold cmdJoin, sendNotice, sendSuccessReaction. repeat every_step. Qed.

Lemma cmdLeave_permitted pe args :
  forallb (permitted pe "!leave") (trace (cmdLeave pe args)) = true.
Proof. unfold cmdLeave, sendNotice. repeat every_step. Qed.

Lemma cmdRedact_permitted pe evtID args :
  forallb (permitted pe "!redact") (trace (cmdRedact evtID args)) = true.
Proof. unfold cmdRedact, sendNotice, sendSuccessReaction. repeat every_step. Qed.

Lemma cmdKick_permitted pe evtID args :
  forallb (permitted pe "!kick") (trace (cmdKick pe evtID args)) = true.
Proof.
  unfold cmdKick, kickUser, kickFromRoom, sendNotice, sendSuccessReaction.
  repeat every_step.
  all: cbn [permitted String.eqb Ascii.eqb Bool.eqb andb]; assumption.
Qed.

Lemma cmdBan_permitted im pe evtID cmd args :
  existsb (String.eqb cmd) publishingVerbs = true ->
  forallb (permitted pe cmd) (trace (cmdBan im pe evtID cmd args)) = true.
Proof.
  intros Hcmd. unfold cmdBan, sendNotice, sendSuccessReaction.
  repeat every_step; exact Hcmd.
Qed.

Lemma cmdRemove_permitted im pe evtID cmd args :
  existsb (String.eqb cmd) publishingVerbs = true ->
  forallb (permitted pe cmd) (trace (cmdRemove im pe evtID cmd args)) = true.
Proof.
  intros Hcmd. unfold cmdRemove, sendNotice, sendSuccessReaction.
  repeat every_step; exact Hcmd.
Qed.

Lemma cmdAddUnban_permitted im pe evtID args :
  forallb (permitted pe "!add-unban") (trace (cmdAddUnban im pe evtID args)) = true.
Proof. unfold cmdAddUnban, sendNotice, sendSuccessReaction. repeat every_step. Qed.

Lemma cmdMatch_permitted im pe args :
  forallb (permitted pe "!match") (trace (cmdMatch im pe args)) = true.
Proof. unfold cmdMatch, sendNotice. repeat every_step. Qed.

Lemma switchCmd_permitted im pe evtID cmd args :
  forallb (permitted pe cmd) (trace (switchCmd im pe evtID cmd args)) = true.
Proof.
  unfold switchCmd.
  destruct (String.eqb cmd "!join") eqn:Hjoin.
  { apply String.eqb_eq in Hjoin as ->. apply cmdJoin_permitted. }
  destruct (String.eqb cmd "!leave") eqn:Hleave.
  { apply String.eqb_eq in Hleave as ->. apply cmdLeave_permitted. }
  destruct (String.eqb cmd "!redact") eqn:Hredact.
  { apply String.eqb_eq in Hredact as ->. apply cmdRedact_permitted. }
  destruct (String.eqb cmd "!kick") eqn:Hkick.
  { apply String.eqb_eq in Hkick as ->. apply cmdKick_permitted. }
  destruct (String.eqb cmd "!ban" || String.eqb cmd "!takedown") eqn:Hban.
  { apply cmdBan_permitted. unfold publishingVerbs. cbn [existsb].
    apply orb_true_iff in Hban as [-> | ->]; by rewrite ?orb_true_r. }
  destruct (String.eqb cmd "!remove-ban" || String.eqb cmd "!remove-unban"
            || String.eqb cmd "!remove-policy") eqn:Hremove.
  { apply cmdRemove_permitted. unfold publishingVerbs. cbn [existsb].
    rewrite !orb_true_iff in Hremove. destruct Hremove as [[-> | ->] | ->];
      by rewrite ?orb_true_r. }
  destruct (String.eqb cmd "!add-unban") eqn:Hadd.
  { apply String.eqb_eq in Hadd as ->. apply cmdAddUnban_permitted. }
  destruct (String.eqb cmd "!match") eqn:Hmatch; [| reflexivity ].
  apply String.eqb_eq in Hmatch as ->. apply cmdMatch_permitted.
Qed.

Lemma HandleCommand_permitted im pe evt :
  forallb (permitted pe (verbOf evt)) (trace (HandleCommand im pe evt)) = true.
Proof.
  destruct (dropped im pe evt) eqn:Hd.
  { destruct (HandleCommand_dropped im pe evt Hd) as [reason ->]. reflexivity. }
  unfold verbOf.
  destruct (Strings.Fields (event.Body evt)) as [| w args] eqn:Hf.
  { by rewrite (HandleCommand_no_field im pe evt Hd Hf). }
  rewrite (HandleCommand_accepted im pe evt w args Hd Hf), bind_emit.
  cbn [trace fst forallb permitted andb head default].
  apply switchCmd_permitted.
Qed.

(** ** At most one policy, at most one redaction *)

Lemma permitted_published pe cmd t :
  existsb (String.eqb cmd) publishingVerbs = false ->
  forallb (permitted pe cmd) t = true ->
  published t = [].
Proof.
  intros Hcmd. induction t as [| e t IH]; [ reflexivity |].
  cbn [forallb]. intros [He Ht]%andb_true_iff.
  destruct e; cbn [permitted] in He; try exact (IH Ht). congruence.
Qed.

Lemma permitted_redactions pe cmd t :
  String.eqb cmd "!redact" = false ->
  forallb (permitted pe cmd) t = true ->
  redactions t = [].
Proof.
  intros Hcmd. induction t as [| e t IH]; [ reflexivity |].
  cbn [forallb]. intros [He Ht]%andb_true_iff.
  destruct e; cbn [permitted] in He; try exact (IH Ht). congruence.
Qed.

Lemma redactions_app (t1 t2 : list Effect) :
  redactions (t1 ++ t2) = (redactions t1 ++ redactions t2)%list.
Proof. apply omap_app. Qed.

Section AtMostOne.

Context {X : Type}.
Variable count : list Effect -> list X.
Hypothesis count_app : forall t1 t2, count (t1 ++ t2) = (count t1 ++ count t2)%list.
Hypothesis count_nil : count [] = [].

Lemma one_bind_after {A B : Type} (m : M A) (f : A -> M B) :
  count (trace m) = [] ->
  (forall a, (length (count (trace (f a))) <= 1)%nat) ->
  (length (count (trace (m ≫= f))) <= 1)%nat.
Proof.
  intros Hm Hf. rewrite trace_bind, count_app, Hm.
  destruct (outcome m); [ apply Hf | rewrite count_nil; cbn; lia ].
Qed.

Lemma one_bind_before {A B : Type} (m : M A) (f : A -> M B) :
  (length (count (trace m)) <= 1)%nat ->
  (forall a, count (trace (f a)) = []) ->
  (length (count (trace (m ≫= f))) <= 1)%nat.
Proof.
  intros Hm Hf. rewrite trace_bind, count_app, length_app.
  destruct (outcome m); [ rewrite Hf | rewrite count_nil ]; cbn; lia.
Qed.

Lemma one_index {B : Type} (xs : list string) (i : nat) (f : string -> M B) :
  (forall x, (length (count (trace (f x))) <= 1)%nat) ->
  (length (count (trace (index xs i ≫= f))) <= 1)%nat.
Proof.
  intros Hf. apply one_bind_after; [| exact Hf ].
  by rewrite trace_index.
Qed.

End AtMostOne.

Lemma published_nil : published [] = [].
Proof. reflexivity. Qed.

Lemma one_SendPolicy pe policyList entityType stateKey rawEntity content
      (f : Error + string -> M unit) :
  (forall resp, published (trace (f resp)) = []) ->
  (length (published (trace (SendPolicy pe policyList entityType stateKey
                               rawEntity content ≫= f))) <= 1)%nat.
Proof.
  intros Hf. apply (one_bind_before published published_app published_nil).
  - rewrite SendPolicy_run. cbv zeta. exact (le_n 1).
  - exact Hf.
Qed.

(** One step of the proof that a handler publishes at most once. *)
Ltac one_step :=
  first
    [ apply (one_index published published_app published_nil); intros ?
    | apply one_SendPolicy; intros ?
    | progress cbv zeta
    | case_match
    | reflexivity
    | (cbn; lia) ].

Lemma cmdBan_publishes_once im pe evtID cmd args :
  (length (published (trace (cmdBan im pe evtID cmd args))) <= 1)%nat.
Proof. unfold cmdBan, sendNotice, sendSuccessReaction. repeat one_step. Qed.

Lemma cmdRemove_publishes_once im pe evtID cmd args :
  (length (published (trace (cmdRemove im pe evtID cmd args))) <= 1)%nat.
Proof. unfold cmdRemove, sendNotice, sendSuccessReaction. repeat one_step. Qed.

Lemma cmdAddUnban_publishes_once im pe evtID args :
  (length (published (trace (cmdAddUnban im pe evtID args))) <= 1)%nat.
Proof. unfold cmdAddUnban, sendNotice, sendSuccessReaction. repeat one_step. Qed.

Lemma cmdRedact_redacts_once evtID args :
  (length (redactions (trace (cmdRedact evtID args))) <= 1)%nat.
Proof.
  unfold cmdRedact, sendNotice, sendSuccessReaction.
  destruct args as [| arg0 args]; [ cbn; lia |].
  cbn [length Nat.ltb Nat.leb]. rewrite index_head, bind_ret, bind_emit. cbn. lia.
Qed.

Lemma switchCmd_once im pe evtID cmd args :
  let t := trace (switchCmd im pe evtID cmd args) in
  (length (published t) <= 1)%nat /\ (length (redactions t) <= 1)%nat.
Proof.
  cbv zeta. pose proof (switchCmd_permitted im pe evtID cmd args) as Hall.
  split.
  - destruct (existsb (String.eqb cmd) publishingVerbs) eqn:Hcmd.
    2: { rewrite (permitted_published pe cmd _ Hcmd Hall). cbn. lia. }
    unfold publishingVerbs in Hcmd. cbn [existsb] in Hcmd.
    rewrite !orb_true_iff in Hcmd.
    destruct Hcmd as [H | [H | [H | [H | [H | [H | H]]]]]]; [ .. | done ];
      apply String.eqb_eq in H as ->;
      first [ apply cmdBan_publishes_once
            | apply cmdRemove_publishes_once
            | apply cmdAddUnban_publishes_once ].
  - destruct (String.eqb cmd "!redact") eqn:Hcmd.
    2: { rewrite (permitted_redactions pe cmd _ Hcmd Hall). cbn. lia. }
    apply String.eqb_eq in Hcmd as ->. apply cmdRedact_redacts_once.
Qed.

(** X14: a command keeps to the actions of its verb.  Whatever the event,
    every effect of [HandleCommand] is a notice, a log line, the success
    reaction, or the call of the verb of the command: a join only under
    [!join], a leave or the resolution of an alias only under [!leave], a
    redaction only under [!redact], a kick only under [!kick] and never in a
    dry run, a policy sent to a list room only under one of [!ban],
    [!takedown], [!remove-ban], [!remove-unban], [!remove-policy] and
    [!add-unban]; and one command sends at most one policy and asks for at
    most one redaction. *)
Theorem X14_command_keeps_to_its_verb im pe evt :
  let t := trace (HandleCommand im pe evt) in
  forallb (permitted pe (verbOf evt)) t = true
  /\ (length (published t) <= 1)%nat
  /\ (length (redactions t) <= 1)%nat.
Proof.
  cbv zeta. split; [ apply HandleCommand_permitted |].
  destruct (dropped im pe evt) eqn:Hd.
  { destruct (HandleCommand_dropped im pe evt Hd) as [reason ->]. cbn. lia. }
  destruct (Strings.Fields (event.Body evt)) as [| w args] eqn:Hf.
  { rewrite (HandleCommand_no_field im pe evt Hd Hf). cbn. lia. }
  rewrite (HandleCommand_accepted im pe evt w args Hd Hf), bind_emit.
  cbn [trace fst].
  change (Log "info" "Handling command" :: ?x)%list
    with ([Log "info" "Handling command"] ++ x)%list.
  rewrite published_app, redactions_app.
  apply switchCmd_once.
Qed.

(** ** What a report may do *)

Lemma reportBan_cases im pe sender target args :
  let run := reportBan im pe sender target args in
  forallb reportEffect (trace run) = true
  /\ (exists result, outcome run = Returned result)
  /\ (published (trace run) = []
      \/ exists list L word words,
           args = L :: word :: words
           /\ FindListByShortcode pe L = Some list
           /\ BanOrUnban im (MatchUser pe (GetWatchedLists pe) target) = None
           /\ let content :=
                {| event.Entity := target;
                   event.Reason := Strings.Join (word :: words) " ";
                   event.Recommendation := PolicyRecommendationBan im;
                   event.UnstableHashes := None |} in
              let key := derivedIdentifier target (PolicyRecommendationBan im) in
              published (trace run) = [(ListRoomID list, EntityTypeUser, key, content)]
              /\ (outcome run = Returned None
                  <-> exists eventID,
                        SendStateEvent pe (ListRoomID list) EntityTypeUser key content
                        = inr eventID)).
Proof.
  cbv zeta. unfold reportBan.
  destruct args as [| L [| word words]];
    [ split; [ done | split; [ by eexists | by left ] ] ..
    | ].
  cbn [length Nat.ltb Nat.leb].
  destruct (BanOrUnban im _) as [rec |] eqn:Hsum.
  { destruct (String.eqb _ _); (split; [ done | split; [ by eexists | by left ] ]). }
  rewrite index_head, bind_ret.
  destruct (FindListByShortcode pe L) as [list |] eqn:Hlist;
    [| split; [ done | split; [ by eexists | by left ] ] ].
  rewrite SendPolicy_run. cbv zeta.
  change (String.eqb "" "") with true. cbv iota.
  cbn [event.Recommendation drop]. rewrite bind_returned.
  destruct (SendStateEvent pe _ _ _ _) as [err | sent] eqn:Hsend.
  - split; [ done |]. split; [ by eexists |]. right.
    exists list, L, word, words. split; [ done |]. split; [ done |].
    split; [ done |]. split; [ reflexivity |]. rewrite Hsend.
    split; [ discriminate | by intros [? ?] ].
  - split; [ done |]. split; [ by eexists |]. right.
    exists list, L, word, words. split; [ done |]. split; [ done |].
    split; [ done |]. split; [ reflexivity |]. rewrite Hsend.
    split; [ by eexists | done ].
Qed.

Lemma handleResolved_cases im pe sender target roomID eventID reason :
  let run := handleResolved im pe sender target roomID eventID reason in
  forallb reportEffect (trace run) = true
  /\ (exists result, outcome run = Returned result)
  /\ (published (trace run) = []
      \/ exists list L word words,
           target <> ""
           /\ sender ∈ Admins pe
           /\ drop 1 (Strings.Fields reason) = L :: word :: words
           /\ FindListByShortcode pe L = Some list
           /\ BanOrUnban im (MatchUser pe (GetWatchedLists pe) target) = None
           /\ let content :=
                {| event.Entity := target;
                   event.Reason := Strings.Join (word :: words) " ";
                   event.Recommendation := PolicyRecommendationBan im;
                   event.UnstableHashes := None |} in
              let key := derivedIdentifier target (PolicyRecommendationBan im) in
              published (trace run) = [(ListRoomID list, EntityTypeUser, key, content)]
              /\ (outcome run = Returned None
                  <-> exists eventID,
                        SendStateEvent pe (ListRoomID list) EntityTypeUser key content
                        = inr eventID)).
Proof.
  cbv zeta. unfold handleResolved.
  destruct (negb (bool_decide (sender ∈ Admins pe))
            || negb (Strings.HasPrefix reason "/")
            || String.eqb target "") eqn:Hgate.
  { unfold forwardReport, sendNotice.
    repeat case_match; (split; [ done | split; [ by eexists | by left ] ]). }
  apply orb_false_iff in Hgate as [[Hadm Hpre]%orb_false_iff Hne].
  apply negb_false_iff, bool_decide_eq_true in Hadm.
  apply negb_false_iff in Hpre. apply String.eqb_neq in Hne.
  pose proof (Fields_slash reason Hpre) as Hf.
  destruct (Strings.Fields reason) as [| field0 args]; [ done |].
  rewrite index_head, bind_ret. cbn [drop].
  destruct (String.eqb _ "ban");
    [| split; [ done | split; [ by eexists | by left ] ] ].
  destruct (reportBan_cases im pe sender target args)
    as (Hall & Hret & [Hnone | (list & L & word & words & Hargs & Hrest)]).
  - split; [ done |]. split; [ done |]. by left.
  - split; [ done |]. split; [ done |]. right.
    exists list, L, word, words. by rewrite drop_0.
Qed.

(** X15: what a report can do.  Whatever the report, [HandleReport] does not
    panic and does nothing but send notices, log, fetch the reported event
    and send a policy; it sends at most one policy, and when it sends one,
    the reporter is an administrator, the policy is a ban of the resolved
    target as a user, with the words after the list as its reason, in the
    list the reason names, under the identifier derived from the target, and
    no ban or unban stood on the target; [nil] is then returned exactly when
    the send succeeded. *)
Theorem X15_report_publishes_only_bans im pe senderClient targetUserID roomID
        eventID reason :
  let run := HandleReport im pe senderClient targetUserID roomID eventID reason in
  forallb reportEffect (trace run) = true
  /\ (exists result, outcome run = Returned result)
  /\ (published (trace run) = []
      \/ exists target list L word words,
           resolvedTarget senderClient targetUserID roomID eventID = inr target
           /\ target <> ""
           /\ ClientUserID senderClient ∈ Admins pe
           /\ drop 1 (Strings.Fields reason) = L :: word :: words
           /\ FindListByShortcode pe L = Some list
           /\ BanOrUnban im (MatchUser pe (GetWatchedLists pe) target) = None
           /\ let content :=
                {| event.Entity := target;
                   event.Reason := Strings.Join (word :: words) " ";
                   event.Recommendation := PolicyRecommendationBan im;
                   event.UnstableHashes := None |} in
              let key := derivedIdentifier target (PolicyRecommendationBan im) in
              published (trace run) = [(ListRoomID list, EntityTypeUser, key, content)]
              /\ (outcome run = Returned None
                  <-> exists sent,
                        SendStateEvent pe (ListRoomID list) EntityTypeUser key content
                        = inr sent)).
Proof.
  cbv zeta. unfold HandleReport, resolvedTarget.
  destruct (String.eqb eventID "") eqn:Hev; cbn [negb].
  - destruct (handleResolved_cases im pe (ClientUserID senderClient) targetUserID
                roomID eventID reason)
      as (Hall & Hret & [Hnone | (list & L & word & words & Hrest)]).
    + split; [ done |]. split; [ done |]. by left.
    + split; [ done |]. split; [ done |]. right.
      by exists targetUserID, list, L, word, words.
  - rewrite bind_emit.
    destruct (GetEvent senderClient roomID eventID) as [err | evtSender] eqn:Hget.
    { split; [ done |]. split; [ by eexists |]. by left. }
    destruct (handleResolved_cases im pe (ClientUserID senderClient) evtSender
                roomID eventID reason)
      as (Hall & Hret & [Hnone | (list & L & word & words & Hrest)]).
    + split; [ done |]. split; [ done |]. by left.
    + split; [ done |]. split; [ done |]. right.
      by exists evtSender, list, L, word, words.
Qed.

(** ** Reports of an administrator that are not carried out *)

(** The run of a report whose target is resolved: the fetch of the reported
    event, if any, and then the handling of the resolved target. *)
Lemma HandleReport_resolved_run im pe senderClient targetUserID roomID eventID
      reason target :
  resolvedTarget senderClient targetUserID roomID eventID = inr target ->
  let resolved := handleResolved im pe (ClientUserID senderClient) target
                    roomID eventID reason in
  HandleReport im pe senderClient targetUserID roomID eventID reason
  = (((if String.eqb eventID "" then [] else [CallGetEvent roomID eventID])
      ++ trace resolved)%list,
     outcome resolved).
Proof.
  unfold resolvedTarget, HandleReport. intros Hres. cbv zeta.
  destruct (String.eqb eventID ""); cbn [negb].
  - injection Hres as ->. by destruct (handleResolved _ _ _ _ _ _ _).
  - by rewrite Hres, bind_emit.
Qed.

(** Past the gate the first field of the reason, less its [/], is the verb:
    [ban] is carried out and everything else is dropped. *)
Lemma handleResolved_admin im pe sender target roomID eventID reason field0 args :
  sender ∈ Admins pe ->
  Strings.HasPrefix reason "/" = true ->
  target <> "" ->
  Strings.Fields reason = field0 :: args ->
  handleResolved im pe sender target roomID eventID reason
  = if String.eqb (Strings.ToLower (Strings.TrimPrefix field0 "/")) "ban"
    then reportBan im pe sender target args
    else mret None.
Proof.
  intros Hadm Hpre Hne Hf. unfold handleResolved.
  rewrite bool_decide_eq_true_2, Hpre by done.
  destruct (String.eqb_spec target "") as [e | _]; [ by destruct Hne |].
  cbn [negb orb]. rewrite Hf. cbv zeta. by rewrite index_head, bind_ret.
Qed.

(** X16: the errors of a [/ban] report.  For an administrator's report on a
    resolved target whose reason has the verb [/ban]: with fewer than two
    words after the verb the handler returns the invalid-parameter error
    at once, whatever stands on the target, and sends neither a notice nor
    a policy; with a list that is not known, and no ban or unban standing
    on the target, it sends one notice that names the list and returns the
    not-found error, without a policy. *)
Theorem X16_report_ban_errors im pe senderClient targetUserID roomID eventID
        reason target slashBan args :
  ClientUserID senderClient ∈ Admins pe ->
  Strings.HasPrefix reason "/" = true ->
  resolvedTarget senderClient targetUserID roomID eventID = inr target ->
  target <> "" ->
  Strings.Fields reason = slashBan :: args ->
  Strings.ToLower (Strings.TrimPrefix slashBan "/") = "ban" ->
  let sender := ClientUserID senderClient in
  let run := HandleReport im pe senderClient targetUserID roomID eventID reason in
  match args with
  | L :: _ :: _ =>
      BanOrUnban im (MatchUser pe (GetWatchedLists pe) target) = None ->
      FindListByShortcode pe L = None ->
      notices (trace run)
      = [("Failed to handle [%s](%s)'s report of [%s](%s): list %q not found",
          [AStr sender; AURL sender; AStr target; AURL target; AStr L])]
      /\ published (trace run) = []
      /\ outcome run
         = Returned (Some (MNotFound "List with shortcode %q not found" [AStr L]))
  | _ =>
      notices (trace run) = []
      /\ published (trace run) = []
      /\ outcome run
         = Returned (Some (MInvalidParam "Not enough arguments for ban"))
  end.
Proof.
  intros Hadm Hpre Hres Hne Hf Hban. cbv zeta.
  rewrite (HandleReport_resolved_run im pe _ _ _ _ reason target Hres). cbv zeta.
  rewrite (handleResolved_admin im pe _ _ roomID eventID reason _ _ Hadm Hpre Hne Hf).
  rewrite Hban. cbn [String.eqb Ascii.eqb Bool.eqb]. cbv iota.
  cbn [trace outcome fst snd]. rewrite notices_app, published_app.
  assert (Hfetch : notices (if String.eqb eventID "" then []
                            else [CallGetEvent roomID eventID]) = []
                   /\ published (if String.eqb eventID "" then []
                                 else [CallGetEvent roomID eventID]) = [])
    by (by destruct (String.eqb eventID "")).
  destruct Hfetch as [-> ->]. cbn [app].
  unfold reportBan.
  destruct args as [| L [| word words]]; [ done | done |].
  intros Hsum Hlist. cbn [length Nat.ltb Nat.leb].
  rewrite Hsum, index_head, bind_ret, Hlist. done.
Qed.

(** An administrator reports [@u:x] with [/ban nolist spam]: there is no
    such list. *)
Lemma X16_report_ban_errors_witness :
  let run := HandleReport deployment.imports
               (deployment.evaluator ∅ [] true false)
               deployment.admin "@u:x" "" "" "/ban nolist spam" in
  notices (trace run)
  = [("Failed to handle [%s](%s)'s report of [%s](%s): list %q not found",
      [AStr "@admin:example.org"; AURL "@admin:example.org"; AStr "@u:x";
       AURL "@u:x"; AStr "nolist"])]
  /\ published (trace run) = []
  /\ outcome run
     = Returned (Some (MNotFound "List with shortcode %q not found" [AStr "nolist"])).
Proof.
  exact (X16_report_ban_errors deployment.imports
           (deployment.evaluator ∅ [] true false)
           deployment.admin "@u:x" "" "" "/ban nolist spam" "@u:x" "/ban"
           ["nolist"; "spam"]
           ltac:(apply (bool_decide_eq_true_1 _); vm_compute; reflexivity)
           ltac:(reflexivity) ltac:(reflexivity) ltac:(discriminate)
           ltac:(vm_compute; reflexivity) ltac:(vm_compute; reflexivity)
           ltac:(vm_compute; reflexivity) ltac:(vm_compute; reflexivity)).
Defined.

(** X17: an administrator's report with a verb other than [/ban] is
    dropped in silence.  For a resolved target, when the reason starts with
    [/] and its verb is not [ban] in any case of its letters, the handler
    sends no notice, not even the one that forwards the report, sends no
    policy, and returns [nil]: besides the fetch of a reported event the
    run has no effect. *)
Theorem X17_report_other_verb_is_silent im pe senderClient targetUserID roomID
        eventID reason target slashCmd args :
  ClientUserID senderClient ∈ Admins pe ->
  Strings.HasPrefix reason "/" = true ->
  resolvedTarget senderClient targetUserID roomID eventID = inr target ->
  target <> "" ->
  Strings.Fields reason = slashCmd :: args ->
  Strings.ToLower (Strings.TrimPrefix slashCmd "/") <> "ban" ->
  HandleReport im pe senderClient targetUserID roomID eventID reason
  = ((if String.eqb eventID "" then [] else [CallGetEvent roomID eventID]),
     Returned None).
Proof.
  intros Hadm Hpre Hres Hne Hf Hverb.
  rewrite (HandleReport_resolved_run im pe _ _ _ _ reason target Hres). cbv zeta.
  rewrite (handleResolved_admin im pe _ _ roomID eventID reason _ _ Hadm Hpre Hne Hf).
  apply String.eqb_neq in Hverb. rewrite Hverb.
  cbn [trace outcome fst snd mret M_ret]. by rewrite app_nil_r.
Qed.

(** An administrator reports [@u:x] with [/kick now]: nothing happens. *)
Lemma X17_report_other_verb_is_silent_witness :
  HandleReport deployment.imports (deployment.evaluator ∅ [] true false)
    deployment.admin "@u:x" "" "" "/kick now"
  = ([], Returned None).
Proof.
  exact (X17_report_other_verb_is_silent deployment.imports
           (deployment.evaluator ∅ [] true false)
           deployment.admin "@u:x" "" "" "/kick now" "@u:x" "/kick" ["now"]
           ltac:(apply (bool_decide_eq_true_1 _); vm_compute; reflexivity)
           ltac:(reflexivity) ltac:(reflexivity) ltac:(discriminate)
           ltac:(vm_compute; reflexivity) ltac:(vm_compute; discriminate)).
Defined.

(** X18: when an event is reported, the event decides.  With an event ID
    the user ID given with the report plays no part: the target is the
    sender of the fetched event.  When the fetch fails the handler sends
    one notice with the raw reason and the error, and returns the wrapped
    error, whoever reports and whatever the reason. *)
Theorem X18_reported_event_decides im pe senderClient roomID eventID reason :
  eventID <> "" ->
  (forall targetUserID targetUserID',
      HandleReport im pe senderClient targetUserID roomID eventID reason
      = HandleReport im pe senderClient targetUserID' roomID eventID reason)
  /\ (forall targetUserID err,
         GetEvent senderClient roomID eventID = inl err ->
         HandleReport im pe senderClient targetUserID roomID eventID reason
         = ([CallGetEvent roomID eventID;
             Log "error" "Failed to get report target event with user's token";
             Notice "[%s](%s) reported [an event](%s) for %s, but the event could not be fetched: %v"
               [AStr (ClientUserID senderClient); AURL (ClientUserID senderClient);
                AEventURL roomID eventID; AStr reason; AErr err]],
            Returned (Some (Errorf "failed to fetch event: %w" err)))).
Proof.
  intros Hev. apply String.eqb_neq in Hev. unfold HandleReport. rewrite Hev.
  cbn [negb]. split; [ reflexivity |].
  intros _ err Hget. by rewrite bind_emit, Hget.
Qed.

(** The fixture's fetch fails: the report of an event ends with the wrapped
    error, whoever the user given with it. *)
Lemma X18_reported_event_decides_witness :
  HandleReport deployment.imports (deployment.evaluator ∅ [] true false)
    deployment.admin "@u:x" "!room:example.org" "$evt" "/ban spam spam"
  = HandleReport deployment.imports (deployment.evaluator ∅ [] true false)
      deployment.admin "@v:x" "!room:example.org" "$evt" "/ban spam spam"
  /\ outcome (HandleReport deployment.imports (deployment.evaluator ∅ [] true false)
                deployment.admin "@u:x" "!room:example.org" "$evt" "/ban spam spam")
     = Returned (Some (Errorf "failed to fetch event: %w" "not found")).
Proof.
  destruct (X18_reported_event_decides deployment.imports
              (deployment.evaluator ∅ [] true false)
              deployment.admin "!room:example.org" "$evt" "/ban spam spam"
              ltac:(discriminate)) as [Hsame Hfail].
  split; [ apply Hsame |].
  by rewrite (Hfail "@u:x" "not found" ltac:(reflexivity)).
Defined.

(** ** Matching by hash *)

(** X19: [!match] on the hash of a user.  When the first argument decodes
    as a hash and the hash is that of a known user, the run is the run of
    [!match] on that user, with one notice put before the answer; both
    arguments of that notice are the user, so the hash itself is not shown.
    When no user is known for the hash, the only answer is the notice that
    says so. *)
Theorem X19_match_by_hash im pe evt evt' w w' h digest user rest rest' :
  dropped im pe evt = false ->
  Strings.Fields (event.Body evt) = w :: h :: rest ->
  Strings.ToLower w = "!match" ->
  DecodeBase64Hash im h = Some digest ->
  dropped im pe evt' = false ->
  Strings.Fields (event.Body evt') = w' :: user :: rest' ->
  Strings.ToLower w' = "!match" ->
  DecodeBase64Hash im user = None ->
  let direct := HandleCommand im pe evt' in
  match getUserIDFromHash pe digest with
  | Some found =>
      found = user ->
      HandleCommand im pe evt
      = (Log "info" "Handling command"
         :: Notice "Matched user `%s` for hash `%s`" [AStr user; AStr user]
         :: drop 1 (trace direct),
         outcome direct)
  | None =>
      HandleCommand im pe evt
      = ([Log "info" "Handling command";
          Notice "No user found for hash `%s`" [AStr h]],
         Returned tt)
  end.
Proof.
  intros Hd Hf Hw Hhash Hd' Hf' Hw' Hplain. cbv zeta.
  rewrite (HandleCommand_accepted im pe evt w _ Hd Hf), Hw.
  rewrite (HandleCommand_accepted im pe evt' w' _ Hd' Hf'), Hw'.
  unfold switchCmd. cbn [String.eqb Ascii.eqb Bool.eqb orb]. unfold cmdMatch.
  rewrite !index_head, !bind_ret, Hhash, Hplain.
  destruct (getUserIDFromHash pe digest) as [found |]; [| reflexivity ].
  intros ->.
  unfold sendNotice. rewrite !bind_emit.
  cbn [trace outcome fst snd drop]. reflexivity.
Qed.

(** The digest of [@a:example.org] is known and resolves to that user: the
    answer names the user twice and then lists the rooms and the match as
    [!match @a:example.org] does. *)
Lemma X19_match_by_hash_witness :
  let im := deployment.decoding "aGFzaA==" [104; 97; 115; 104]%Z in
  let pe := deployment.resolving [104; 97; 115; 104]%Z "@a:example.org" in
  let direct := HandleCommand im pe (deployment.command "!match @a:example.org") in
  HandleCommand im pe (deployment.command "!match aGFzaA==")
  = (Log "info" "Handling command"
     :: Notice "Matched user `%s` for hash `%s`"
          [AStr "@a:example.org"; AStr "@a:example.org"]
     :: drop 1 (trace direct),
     outcome direct).
Proof.
  exact (X19_match_by_hash
           (deployment.decoding "aGFzaA==" [104; 97; 115; 104]%Z)
           (deployment.resolving [104; 97; 115; 104]%Z "@a:example.org")
           (deployment.command "!match aGFzaA==")
           (deployment.command "!match @a:example.org")
           "!match" "!match" "aGFzaA==" [104; 97; 115; 104]%Z "@a:example.org" [] []
           ltac:(vm_compute; reflexivity) ltac:(vm_compute; reflexivity)
           ltac:(vm_compute; reflexivity) ltac:(vm_compute; reflexivity)
           ltac:(vm_compute; reflexivity) ltac:(vm_compute; reflexivity)
           ltac:(vm_compute; reflexivity) ltac:(vm_compute; reflexivity)
           eq_refl).
Defined.
